(** * MaiZone: the state synchronisation core

    A shallow embedding of the pure state engine ([state_core.js]), the
    access contract ([state_contract.js]), the hostname matcher
    ([distraction_matcher.js], [intent_gate_helpers.js]) and the state
    runtime of the background service worker ([background_state.js]),
    followed by the properties of the specification that they decide.

    Conventions of the embedding.
    - A JavaScript string is a [string]; every [ascii] stands for one UTF-16
      code unit below 256, so [String.length] is [.length] and the order of
      [String.compare] is the order used by [Array.prototype.sort].
    - A JavaScript number is an IEEE 754 binary64 value, a [spec_float] in
      canonical form (as [binary_normalize] builds it); the comparisons are
      those of [SpecFloat].
    - Untrusted data (stored records, patches, message payloads, snapshots
      handed to the matcher) is a [value]; an object is a finite map from
      property names to values.
    - The canonical state is the record [State]: the twenty properties of
      [DEFAULT_STATE], each with the type that the normalisers give it.
      The runtime only ever holds the results of [sanitizeStoredState] and
      [computeNextState], which have these types.
    - The promise chain of the runtime is the list of the jobs that wait,
      and a turn of the event loop runs the chain up to its next [await]. *)

From Stdlib Require Import ZArith Ascii String List Bool Lia.
From Stdlib Require Import Floats.SpecFloat.
From stdpp Require Import base decidable option list sorting gmap strings fin_maps.

Set Warnings "-register-all".
Local Open Scope string_scope.

(** ** Strings *)

Module Str.

(** White space and line terminators of ECMAScript ([String.prototype.trim]
    and the class [\s]) among the code units below 256: TAB, LF, VT, FF,
    CR, SP and NBSP. *)
Definition is_space (c : ascii) : bool :=
  let n := nat_of_ascii c in
  ((9 <=? n)%nat && (n <=? 13)%nat) || (n =? 32)%nat || (n =? 160)%nat.

Fixpoint trimStart (s : string) : string :=
  match s with
  | EmptyString => EmptyString
  | String c r => if is_space c then trimStart r else s
  end.

Fixpoint trimEnd (s : string) : string :=
  match s with
  | EmptyString => EmptyString
  | String c r =>
      match trimEnd r with
      | EmptyString => if is_space c then EmptyString else String c EmptyString
      | r' => String c r'
      end
  end.

Definition trim (s : string) : string := trimEnd (trimStart s).

(** [toLowerCase] on one code unit below 256: A-Z, and the Latin-1 capitals
    U+00C0..U+00DE without the multiplication sign U+00D7. *)
Definition lower (c : ascii) : ascii :=
  let n := nat_of_ascii c in
  if ((65 <=? n)%nat && (n <=? 90)%nat)
     || ((192 <=? n)%nat && (n <=? 222)%nat && negb (n =? 215)%nat)
  then ascii_of_nat (n + 32) else c.

Fixpoint toLowerCase (s : string) : string :=
  match s with
  | EmptyString => EmptyString
  | String c r => String (lower c) (toLowerCase r)
  end.

Definition startsWith (s p : string) : bool := String.prefix p s.

Fixpoint endsWith (s p : string) : bool :=
  if String.eqb s p then true
  else match s with
       | EmptyString => false
       | String _ r => endsWith r p
       end.

Fixpoint includes (s p : string) : bool :=
  if String.prefix p s then true
  else match s with
       | EmptyString => false
       | String _ r => includes r p
       end.

Fixpoint drop (n : nat) (s : string) : string :=
  match n, s with
  | O, _ => s
  | S _, EmptyString => EmptyString
  | S k, String _ r => drop k r
  end.

(** [s.replace(/^p/, '')] for a literal [p]. *)
Definition stripPrefix (p s : string) : string :=
  if String.prefix p s then drop (String.length p) s else s.

(** [s.replace(/^https?:\/\//, '')]: one scheme is removed, once. *)
Definition stripScheme (s : string) : string :=
  if String.prefix "https://" s then drop 8 s else stripPrefix "http://" s.

(** [s.split(c)[0]]: the part before the first [c], all of [s] without one. *)
Fixpoint beforeFirst (c : ascii) (s : string) : string :=
  match s with
  | EmptyString => EmptyString
  | String d r => if Ascii.eqb d c then EmptyString else String d (beforeFirst c r)
  end.

(** [s.slice(0, n)]. *)
Definition slice0 (n : nat) (s : string) : string := String.substring 0 n s.

Fixpoint forallb (f : ascii -> bool) (s : string) : bool :=
  match s with
  | EmptyString => true
  | String c r => f c && forallb f r
  end.

Fixpoint existsb (f : ascii -> bool) (s : string) : bool :=
  match s with
  | EmptyString => false
  | String c r => f c || existsb f r
  end.

(** A string is truthy when it is not empty. *)
Definition truthy (s : string) : bool :=
  match s with EmptyString => false | _ => true end.

End Str.

(** ** Numbers *)

Definition number : Type := spec_float.

Module Num.

(** The binary64 value of an integer literal. *)
Definition ofZ (z : Z) : number := binary_normalize 53 1024 z 0 false.

(** The binary64 value of [m * 2^e]. *)
Definition dyadic (m e : Z) : number := binary_normalize 53 1024 m e false.

Definition zero : number := S754_zero false.
Definition NaN : number := S754_nan.

Definition isNaN (n : number) : bool :=
  match n with S754_nan => true | _ => false end.

(** [Number.isFinite] on a number. *)
Definition isFinite (n : number) : bool :=
  match n with
  | S754_zero _ | S754_finite _ _ _ => true
  | S754_infinity _ | S754_nan => false
  end.

Definition lt (a b : number) : bool := SFltb a b.
Definition gt (a b : number) : bool := SFltb b a.

(** [a === b] on numbers: NaN differs from itself, the two zeros agree. *)
Definition eq (a b : number) : bool := SFeqb a b.

(** [0 <= n], as [0 < n || 0 === n]. *)
Definition nonneg (n : number) : bool := SFleb zero n.

(** ToBoolean on a number: the zeros and NaN are falsy. *)
Definition truthy (n : number) : bool :=
  match n with
  | S754_zero _ | S754_nan => false
  | _ => true
  end.

(** One round of the loop of [Math.max]: [highest] against the next
    argument, neither of them NaN. *)
Definition maxStep (highest n : number) : number :=
  match n, highest with
  | S754_zero false, S754_zero true => S754_zero false
  | _, _ => if SFltb highest n then n else highest
  end.

(** [Math.max(a, b)]. *)
Definition max (a b : number) : number :=
  if isNaN a || isNaN b then S754_nan
  else maxStep (maxStep (S754_infinity true) a) b.

(** [Number.isInteger] on a number. *)
Definition isInteger (n : number) : bool :=
  match n with
  | S754_zero _ => true
  | S754_finite _ m e =>
      match e with
      | Zneg p => (Z.pos m mod 2 ^ Z.pos p =? 0)%Z
      | _ => true
      end
  | _ => false
  end.

End Num.

(** ** Values *)

Inductive value : Type :=
| VUndefined
| VNull
| VBool (b : bool)
| VNum (n : number)
| VStr (s : string)
| VArr (items : list value)
| VObj (props : gmap string value).

Module Js.

(** ToBoolean. *)
Definition truthy (v : value) : bool :=
  match v with
  | VUndefined | VNull => false
  | VBool b => b
  | VNum n => Num.truthy n
  | VStr s => Str.truthy s
  | VArr _ | VObj _ => true
  end.

(** [typeof v === 'object'] (true of [null] too). *)
Definition isObject (v : value) : bool :=
  match v with
  | VNull | VArr _ | VObj _ => true
  | _ => false
  end.

Definition isArray (v : value) : bool :=
  match v with VArr _ => true | _ => false end.

(** [v[k]] for a property name [k] that is neither an array index nor a
    built-in property: only an object can have it. *)
Definition get (v : value) (k : string) : value :=
  match v with
  | VObj props => default VUndefined (props !! k)
  | _ => VUndefined
  end.

(** [k in v], for such a [k]. *)
Definition hasKey (v : value) (k : string) : bool :=
  match v with
  | VObj props => bool_decide (is_Some (props !! k))
  | _ => false
  end.

(** [a === b] where one side is a primitive.  Two arrays or two objects
    are equal by identity, which a [value] does not record: no field of a
    [State] read by [diffState] outside its array branch is one, and the
    case is given as unequal. *)
Definition strictEq (a b : value) : bool :=
  match a, b with
  | VUndefined, VUndefined => true
  | VNull, VNull => true
  | VBool x, VBool y => Bool.eqb x y
  | VNum x, VNum y => Num.eq x y
  | VStr x, VStr y => String.eqb x y
  | _, _ => false
  end.

Definition obj (l : list (string * value)) : value := VObj (list_to_map l).

End Js.

(** ** state_core.js: schema, normalisation, invariants *)

Record State : Type := mkState {
  currentTask : string;
  isInFlow : bool;
  intentGateEnabled : bool;
  breakReminderEnabled : bool;
  mindfulnessReminderEnabled : bool;
  hasSeenOnboarding : bool;
  distractingSites : list string;
  deepWorkBlockedSites : list string;
  reminderStartTime : option number;
  reminderInterval : option number;
  reminderExpectedEndTime : option number;
  mindfulnessLastShownAt : option number;
  exerciseReminderEnabled : bool;
  exerciseIntervalMs : option number;
  exerciseExpectedAt : option number;
  exerciseRemainingMs : option number;
  exerciseStatsDate : option string;
  exerciseStatsPushUps : number;
  exerciseStatsSitUps : number;
  exerciseStatsSquats : number
}.

(** constants.js *)
Definition DEFAULT_DISTRACTING_SITES : list string :=
  [ "youtube.com"; "facebook.com"; "twitter.com"; "x.com"; "instagram.com";
    "reddit.com"; "tiktok.com"; "netflix.com"; "spotify.com"; "soundcloud.com";
    "vnexpress.net"; "dantri.com.vn"; "cafef.vn" ].

Definition DEFAULT_DEEPWORK_BLOCKED_SITES : list string :=
  [ "discord.com"; "messenger.com"; "whatsapp.com" ].

Definition DEFAULT_STATE : State := {|
  currentTask := "";
  isInFlow := false;
  intentGateEnabled := true;
  breakReminderEnabled := false;
  mindfulnessReminderEnabled := false;
  hasSeenOnboarding := false;
  distractingSites := DEFAULT_DISTRACTING_SITES;
  deepWorkBlockedSites := DEFAULT_DEEPWORK_BLOCKED_SITES;
  reminderStartTime := None;
  reminderInterval := None;
  reminderExpectedEndTime := None;
  mindfulnessLastShownAt := None;
  exerciseReminderEnabled := true;
  exerciseIntervalMs := None;
  exerciseExpectedAt := None;
  exerciseRemainingMs := None;
  exerciseStatsDate := None;
  exerciseStatsPushUps := Num.zero;
  exerciseStatsSitUps := Num.zero;
  exerciseStatsSquats := Num.zero
|}.

Definition getDefaultState : State := DEFAULT_STATE.

(** *** The state as a JavaScript object *)

Definition ofStrings (l : list string) : value := VArr (map VStr l).

Definition ofNumberOrNull (o : option number) : value :=
  match o with Some n => VNum n | None => VNull end.

Definition ofStringOrNull (o : option string) : value :=
  match o with Some s => VStr s | None => VNull end.

(** [Object.entries(state)], in the order of [DEFAULT_STATE]. *)
Definition entries (s : State) : list (string * value) :=
  [ ("currentTask", VStr s.(currentTask));
    ("isInFlow", VBool s.(isInFlow));
    ("intentGateEnabled", VBool s.(intentGateEnabled));
    ("breakReminderEnabled", VBool s.(breakReminderEnabled));
    ("mindfulnessReminderEnabled", VBool s.(mindfulnessReminderEnabled));
    ("hasSeenOnboarding", VBool s.(hasSeenOnboarding));
    ("distractingSites", ofStrings s.(distractingSites));
    ("deepWorkBlockedSites", ofStrings s.(deepWorkBlockedSites));
    ("reminderStartTime", ofNumberOrNull s.(reminderStartTime));
    ("reminderInterval", ofNumberOrNull s.(reminderInterval));
    ("reminderExpectedEndTime", ofNumberOrNull s.(reminderExpectedEndTime));
    ("mindfulnessLastShownAt", ofNumberOrNull s.(mindfulnessLastShownAt));
    ("exerciseReminderEnabled", VBool s.(exerciseReminderEnabled));
    ("exerciseIntervalMs", ofNumberOrNull s.(exerciseIntervalMs));
    ("exerciseExpectedAt", ofNumberOrNull s.(exerciseExpectedAt));
    ("exerciseRemainingMs", ofNumberOrNull s.(exerciseRemainingMs));
    ("exerciseStatsDate", ofStringOrNull s.(exerciseStatsDate));
    ("exerciseStatsPushUps", VNum s.(exerciseStatsPushUps));
    ("exerciseStatsSitUps", VNum s.(exerciseStatsSitUps));
    ("exerciseStatsSquats", VNum s.(exerciseStatsSquats)) ].

Fixpoint assoc (k : string) (l : list (string * value)) : value :=
  match l with
  | [] => VUndefined
  | (k', v) :: r => if String.eqb k k' then v else assoc k r
  end.

(** [state[k]]. *)
Definition stateGet (s : State) (k : string) : value := assoc k (entries s).

(** [{ ...state }] as a value. *)
Definition toValue (s : State) : value := Js.obj (entries s).

(** [Object.keys(DEFAULT_STATE)]. *)
Definition STATE_KEYS : list string :=
  [ "currentTask"; "isInFlow"; "intentGateEnabled"; "breakReminderEnabled";
    "mindfulnessReminderEnabled"; "hasSeenOnboarding"; "distractingSites";
    "deepWorkBlockedSites"; "reminderStartTime"; "reminderInterval";
    "reminderExpectedEndTime"; "mindfulnessLastShownAt";
    "exerciseReminderEnabled"; "exerciseIntervalMs"; "exerciseExpectedAt";
    "exerciseRemainingMs"; "exerciseStatsDate"; "exerciseStatsPushUps";
    "exerciseStatsSitUps"; "exerciseStatsSquats" ].

(** *** Normalisation helpers *)

Definition normalizeBoolean (v : value) (fallback : bool) : bool :=
  match v with VBool b => b | _ => fallback end.

Definition normalizeString (v : value) (fallback : option string) : option string :=
  match v with VStr s => Some s | _ => fallback end.

(** Lines 93-98: the host part of a trimmed, lowercased entry. *)
Definition hostnameOf (raw : string) : string :=
  let withoutProtocol := Str.stripScheme raw in
  Str.stripPrefix "www."
    (Str.beforeFirst "#" (Str.beforeFirst "?" (Str.beforeFirst "/" withoutProtocol))).

(** The character class [[a-z0-9.-]]. *)
Definition isHostChar (c : ascii) : bool :=
  let n := nat_of_ascii c in
  ((97 <=? n)%nat && (n <=? 122)%nat) || ((48 <=? n)%nat && (n <=? 57)%nat)
  || (n =? 46)%nat || (n =? 45)%nat.

(** [/^[a-z0-9.-]+$/.test(hostname)]. *)
Definition matchesHostPattern (hostname : string) : bool :=
  Str.truthy hostname && Str.forallb isHostChar hostname.

(** Lines 100-106: the guards an entry has to pass. *)
Definition acceptsHostname (hostname : string) : bool :=
  Str.truthy hostname
  && negb (253 <? String.length hostname)%nat
  && Str.includes hostname "."
  && negb (Str.startsWith hostname "." || Str.endsWith hostname ".")
  && negb (Str.includes hostname "..")
  && negb (Str.existsb Str.is_space hostname)
  && matchesHostPattern hostname.

(** The order of [Array.prototype.sort] without a comparator. *)
Definition str_le (a b : string) : Prop := String.leb a b = true.

#[global] Instance str_le_dec : RelDecision str_le.
Proof. intros a b. unfold str_le. apply _. Defined.

(** [out.sort()]. *)
Definition sortStrings (l : list string) : list string := merge_sort str_le l.

(** The [for ... of] loop of [normalizeDomainList]; [out] in push order. *)
Fixpoint domainLoop (maxItems : nat) (items : list value)
    (out : list string) (seen : gset string) : list string :=
  match items with
  | [] => out
  | VStr rawValue :: rest =>
      let raw := Str.toLowerCase (Str.trim rawValue) in
      if negb (Str.truthy raw) then domainLoop maxItems rest out seen
      else
        let hostname := hostnameOf raw in
        if negb (acceptsHostname hostname) then domainLoop maxItems rest out seen
        else if bool_decide (hostname ∈ seen) then domainLoop maxItems rest out seen
        else
          let out' := (out ++ [hostname])%list in
          if (maxItems <=? length out')%nat then out'
          else domainLoop maxItems rest out' ({[hostname]} ∪ seen)
  | _ :: rest => domainLoop maxItems rest out seen
  end.

Definition normalizeDomainList (v : value) (fallback : list string)
    (maxItems : nat) : list string :=
  match v with
  | VArr items => sortStrings (domainLoop maxItems items [] ∅)
  | _ => fallback
  end.

Definition normalizeNumberOrNull (v : value) (fallback : option number) : option number :=
  match v with
  | VNull => None
  | VNum n => if Num.isFinite n then Some n else fallback
  | _ => fallback
  end.

Definition MAX_SITE_LIST_ITEMS : nat := 200.

Definition MIN_INTERVAL_MS : number := Eval vm_compute in Num.ofZ (60 * 1000).
Definition MAX_INTERVAL_MS : number := Eval vm_compute in Num.ofZ (24 * 60 * 60 * 1000).
Definition EXERCISE_DEFAULT_INTERVAL_MS : number :=
  Eval vm_compute in Num.ofZ (45 * 60 * 1000).

Definition normalizeIntervalMs (v : value) (fallback : option number) : option number :=
  match v with
  | VNull => None
  | VNum n =>
      if negb (Num.isFinite n) then fallback
      else if Num.lt n MIN_INTERVAL_MS || Num.gt n MAX_INTERVAL_MS then fallback
      else Some n
  | _ => fallback
  end.

Definition MAX_TASK_LENGTH : nat := 120.

Definition normalizeTask (v : value) (fallback : string) : string :=
  match v with
  | VStr s =>
      let trimmed := Str.trim s in
      if negb (Str.truthy trimmed) then ""
      else if (MAX_TASK_LENGTH <? String.length trimmed)%nat
           then Str.slice0 MAX_TASK_LENGTH trimmed
           else trimmed
  | _ => fallback
  end.

(** [normalizeNumberOrNull(v, current) ?? current], for the counters. *)
Definition normalizeCounter (v : value) (fallback : number) : number :=
  match normalizeNumberOrNull v (Some fallback) with
  | Some n => n
  | None => fallback
  end.

(** *** Validity invariants *)

(** [x === null || x === undefined] on a nullable field. *)
Definition isNullish {A : Type} (x : option A) : bool :=
  match x with None => true | Some _ => false end.

(** [Math.max(0, Number.isFinite(n) ? n : 0)]. *)
Definition saneCounter (n : number) : number :=
  Num.max Num.zero (if Num.isFinite n then n else Num.zero).

Definition enforceStateValidity (nextState : State) : State :=
  let task :=
    if negb (Str.truthy nextState.(currentTask)) then "" else nextState.(currentTask) in
  let flow :=
    if nextState.(isInFlow) && negb (Str.truthy task) then false
    else nextState.(isInFlow) in
  let noFlow := negb flow || negb (Str.truthy task) in
  {| currentTask := task;
     isInFlow := if noFlow then false else flow;
     intentGateEnabled := nextState.(intentGateEnabled);
     breakReminderEnabled :=
       if noFlow then false else nextState.(breakReminderEnabled);
     mindfulnessReminderEnabled := nextState.(mindfulnessReminderEnabled);
     hasSeenOnboarding := nextState.(hasSeenOnboarding);
     distractingSites := nextState.(distractingSites);
     deepWorkBlockedSites := nextState.(deepWorkBlockedSites);
     reminderStartTime := if noFlow then None else nextState.(reminderStartTime);
     reminderInterval := if noFlow then None else nextState.(reminderInterval);
     reminderExpectedEndTime :=
       if noFlow then None else nextState.(reminderExpectedEndTime);
     mindfulnessLastShownAt := nextState.(mindfulnessLastShownAt);
     exerciseReminderEnabled := nextState.(exerciseReminderEnabled);
     exerciseIntervalMs :=
       if nextState.(exerciseReminderEnabled)
          && isNullish nextState.(exerciseIntervalMs)
       then Some EXERCISE_DEFAULT_INTERVAL_MS
       else nextState.(exerciseIntervalMs);
     exerciseExpectedAt := nextState.(exerciseExpectedAt);
     exerciseRemainingMs := nextState.(exerciseRemainingMs);
     exerciseStatsDate := nextState.(exerciseStatsDate);
     exerciseStatsPushUps := saneCounter nextState.(exerciseStatsPushUps);
     exerciseStatsSitUps := saneCounter nextState.(exerciseStatsSitUps);
     exerciseStatsSquats := saneCounter nextState.(exerciseStatsSquats) |}.

Definition enforceStateInvariants (nextState : State) : State :=
  enforceStateValidity nextState.

(** *** Pure transitions *)

Definition sanitizeStoredState (storedState : value) : State :=
  let base := getDefaultState in
  let stored := if Js.truthy storedState then storedState else VObj ∅ in
  enforceStateInvariants {|
    currentTask := normalizeTask (Js.get stored "currentTask") base.(currentTask);
    isInFlow := normalizeBoolean (Js.get stored "isInFlow") base.(isInFlow);
    intentGateEnabled :=
      normalizeBoolean (Js.get stored "intentGateEnabled") base.(intentGateEnabled);
    breakReminderEnabled :=
      normalizeBoolean (Js.get stored "breakReminderEnabled") base.(breakReminderEnabled);
    mindfulnessReminderEnabled :=
      normalizeBoolean (Js.get stored "mindfulnessReminderEnabled")
        base.(mindfulnessReminderEnabled);
    hasSeenOnboarding :=
      normalizeBoolean (Js.get stored "hasSeenOnboarding") base.(hasSeenOnboarding);
    distractingSites :=
      normalizeDomainList (Js.get stored "distractingSites") base.(distractingSites)
        MAX_SITE_LIST_ITEMS;
    deepWorkBlockedSites :=
      normalizeDomainList (Js.get stored "deepWorkBlockedSites")
        base.(deepWorkBlockedSites) MAX_SITE_LIST_ITEMS;
    reminderStartTime :=
      normalizeNumberOrNull (Js.get stored "reminderStartTime") base.(reminderStartTime);
    reminderInterval :=
      normalizeIntervalMs (Js.get stored "reminderInterval") base.(reminderInterval);
    reminderExpectedEndTime :=
      normalizeNumberOrNull (Js.get stored "reminderExpectedEndTime")
        base.(reminderExpectedEndTime);
    mindfulnessLastShownAt :=
      normalizeNumberOrNull (Js.get stored "mindfulnessLastShownAt")
        base.(mindfulnessLastShownAt);
    exerciseReminderEnabled :=
      normalizeBoolean (Js.get stored "exerciseReminderEnabled")
        base.(exerciseReminderEnabled);
    exerciseIntervalMs :=
      normalizeIntervalMs (Js.get stored "exerciseIntervalMs") base.(exerciseIntervalMs);
    exerciseExpectedAt :=
      normalizeNumberOrNull (Js.get stored "exerciseExpectedAt") base.(exerciseExpectedAt);
    exerciseRemainingMs :=
      normalizeNumberOrNull (Js.get stored "exerciseRemainingMs")
        base.(exerciseRemainingMs);
    exerciseStatsDate :=
      normalizeString (Js.get stored "exerciseStatsDate") base.(exerciseStatsDate);
    exerciseStatsPushUps :=
      normalizeCounter (Js.get stored "exerciseStatsPushUps") base.(exerciseStatsPushUps);
    exerciseStatsSitUps :=
      normalizeCounter (Js.get stored "exerciseStatsSitUps") base.(exerciseStatsSitUps);
    exerciseStatsSquats :=
      normalizeCounter (Js.get stored "exerciseStatsSquats") base.(exerciseStatsSquats)
  |}.

(** [if (k in updates) sanitized.k = normalize(updates.k, current.k)] followed
    by the read of [k] in [{ ...current, ...sanitized }]. *)
Definition patched {A : Type} (updates : value) (k : string)
    (normalize : value -> A -> A) (current : A) : A :=
  if Js.hasKey updates k then normalize (Js.get updates k) current else current.

Definition normalizeSites (v : value) (fallback : list string) : list string :=
  normalizeDomainList v fallback MAX_SITE_LIST_ITEMS.

(** The object [{ ...current, ...sanitized }] of [computeNextState]. *)
Definition mergeUpdates (current : State) (updates : value) : State :=
  {|
  currentTask := patched updates "currentTask" normalizeTask current.(currentTask);
  isInFlow := patched updates "isInFlow" normalizeBoolean current.(isInFlow);
  intentGateEnabled :=
    patched updates "intentGateEnabled" normalizeBoolean current.(intentGateEnabled);
  breakReminderEnabled :=
    patched updates "breakReminderEnabled" normalizeBoolean
      current.(breakReminderEnabled);
  mindfulnessReminderEnabled :=
    patched updates "mindfulnessReminderEnabled" normalizeBoolean
      current.(mindfulnessReminderEnabled);
  hasSeenOnboarding :=
    patched updates "hasSeenOnboarding" normalizeBoolean current.(hasSeenOnboarding);
  distractingSites :=
    patched updates "distractingSites" normalizeSites current.(distractingSites);
  deepWorkBlockedSites :=
    patched updates "deepWorkBlockedSites" normalizeSites
      current.(deepWorkBlockedSites);
  reminderStartTime :=
    patched updates "reminderStartTime" normalizeNumberOrNull
      current.(reminderStartTime);
  reminderInterval :=
    patched updates "reminderInterval" normalizeIntervalMs current.(reminderInterval);
  reminderExpectedEndTime :=
    patched updates "reminderExpectedEndTime" normalizeNumberOrNull
      current.(reminderExpectedEndTime);
  mindfulnessLastShownAt :=
    patched updates "mindfulnessLastShownAt" normalizeNumberOrNull
      current.(mindfulnessLastShownAt);
  exerciseReminderEnabled :=
    patched updates "exerciseReminderEnabled" normalizeBoolean
      current.(exerciseReminderEnabled);
  exerciseIntervalMs :=
    patched updates "exerciseIntervalMs" normalizeIntervalMs
      current.(exerciseIntervalMs);
  exerciseExpectedAt :=
    patched updates "exerciseExpectedAt" normalizeNumberOrNull
      current.(exerciseExpectedAt);
  exerciseRemainingMs :=
    patched updates "exerciseRemainingMs" normalizeNumberOrNull
      current.(exerciseRemainingMs);
  exerciseStatsDate :=
    patched updates "exerciseStatsDate" normalizeString current.(exerciseStatsDate);
  exerciseStatsPushUps :=
    patched updates "exerciseStatsPushUps" normalizeCounter
      current.(exerciseStatsPushUps);
  exerciseStatsSitUps :=
    patched updates "exerciseStatsSitUps" normalizeCounter
      current.(exerciseStatsSitUps);
  exerciseStatsSquats :=
    patched updates "exerciseStatsSquats" normalizeCounter
      current.(exerciseStatsSquats)
|}.

(** [currentState] is a [State]: the test that it is an object holds by
    its type, and [current] is [currentState]. *)
Definition computeNextState (current : State) (updates : value) : State :=
  if negb (Js.truthy updates) || negb (Js.isObject updates) then current
  else enforceStateInvariants (mergeUpdates current updates).

(** *** Diff *)

(** The loop of [areStringArraysEqual] over two arrays of one length. *)
Fixpoint allStrictEq (a b : list value) : bool :=
  match a, b with
  | x :: a', y :: b' => Js.strictEq x y && allStrictEq a' b'
  | _, _ => true
  end.

Definition areStringArraysEqual (a b : value) : bool :=
  match a, b with
  | VArr x, VArr y => (length x =? length y)%nat && allStrictEq x y
  | _, _ => false
  end.

(** Whether [diffState] takes [nextValue] to differ from [prevValue]. *)
Definition valueChanged (prevValue nextValue : value) : bool :=
  if Js.isArray nextValue then negb (areStringArraysEqual prevValue nextValue)
  else negb (Js.strictEq prevValue nextValue).

(** The body of the [forEach] of [diffState] at one key. *)
Definition diffKey (prev : value) (next : State) (delta : gmap string value)
    (key : string) : gmap string value :=
  let prevValue := Js.get prev key in
  let nextValue := stateGet next key in
  if valueChanged prevValue nextValue then <[key := nextValue]> delta else delta.

Definition diffState (prevState : value) (nextState : State) : gmap string value :=
  let prev :=
    if Js.truthy prevState && Js.isObject prevState then prevState else VObj ∅ in
  foldl (diffKey prev nextState) ∅ STATE_KEYS.

(** ** distraction_matcher.js and intent_gate_helpers.js *)

Definition normalizeHostnameForComparison (hostname : value) : string :=
  match hostname with
  | VStr h => Str.stripPrefix "www." (Str.toLowerCase (Str.trim h))
  | _ => ""
  end.

Section UrlParser.

(** [new URL(url).hostname] of the platform; [None] when the constructor
    throws. *)
Variable urlHostname : string -> option string.

Definition getHostnameFromUrl (url : value) : string :=
  match url with
  | VStr u =>
      if negb (Str.startsWith u "http://") && negb (Str.startsWith u "https://")
      then ""
      else match urlHostname u with
           | Some hostname => normalizeHostnameForComparison (VStr hostname)
           | None => ""
           end
  | _ => ""
  end.

(** The callback of [sites.some(...)]. *)
Definition siteMatches (host : string) (site : value) : bool :=
  let s := normalizeHostnameForComparison site in
  if negb (Str.truthy s) then false
  else String.eqb host s || Str.endsWith host ("." ++ s).

Definition isHostnameInList (hostname : value) (sites : value) : bool :=
  let host := normalizeHostnameForComparison hostname in
  if negb (Str.truthy host) then false
  else match sites with
       | VArr items =>
           if (length items =? 0)%nat then false else List.existsb (siteMatches host) items
       | _ => false
       end.

Record GateMatch : Type := mkGateMatch {
  hostname : string;
  shouldGate : bool;
  isDeepWorkBlocked : bool
}.

Definition arrayOrEmpty (v : value) : value :=
  if Js.isArray v then v else VArr [].

Definition getIntentGateMatch (url state : value) : GateMatch :=
  let s := if Js.truthy state && Js.isObject state then state else VObj ∅ in
  let hostname := getHostnameFromUrl url in
  if negb (Str.truthy hostname) then mkGateMatch "" false false
  else
    let distractingSites := arrayOrEmpty (Js.get s "distractingSites") in
    let deepWorkBlockedSites := arrayOrEmpty (Js.get s "deepWorkBlockedSites") in
    let isInFlow := Js.truthy (Js.get s "isInFlow") in
    let isStandardDistracting := isHostnameInList (VStr hostname) distractingSites in
    let isDeepWorkBlocked :=
      isInFlow && isHostnameInList (VStr hostname) deepWorkBlockedSites in
    mkGateMatch hostname (isStandardDistracting || isDeepWorkBlocked) isDeepWorkBlocked.

End UrlParser.

(** A stand-in for the platform's parser on plain http(s) URLs: the host is
    the text between the scheme and the first of ':', '/', '?', '#',
    lowercased; a URL without such a host is refused. *)
Definition plainUrlHostname (u : string) : option string :=
  let rest := Str.stripScheme u in
  let host :=
    Str.beforeFirst ":" (Str.beforeFirst "#" (Str.beforeFirst "?"
      (Str.beforeFirst "/" rest))) in
  if Str.truthy host && Str.forallb isHostChar (Str.toLowerCase host)
  then Some (Str.toLowerCase host) else None.

(** ** state_contract.js *)

Definition UI_ALLOWED_UPDATE_KEYS : list string :=
  [ "intentGateEnabled"; "breakReminderEnabled"; "mindfulnessReminderEnabled";
    "hasSeenOnboarding"; "currentTask"; "isInFlow"; "distractingSites";
    "deepWorkBlockedSites"; "exerciseReminderEnabled" ].

Definition UNTRUSTED_STATE_KEYS : list string := [ "isInFlow" ].

(** ** background_state.js: the state runtime *)

Definition UI_ALLOWED_UPDATE_KEYS_SET : gset string :=
  list_to_set UI_ALLOWED_UPDATE_KEYS.

Definition NON_STATE_STORAGE_KEYS : gset string := {[ "intentGateReasonLog" ]}.

Definition NON_STATE_STORAGE_PREFIXES : list string :=
  [ "intentGateTab_"; "intentGatePending_" ].

Definition isAllowedStorageKey (key : string) : bool :=
  bool_decide (key ∈ STATE_KEYS)
  || bool_decide (key ∈ NON_STATE_STORAGE_KEYS)
  || List.existsb (fun prefix => Str.startsWith key prefix) NON_STATE_STORAGE_PREFIXES.

(** A job of the promise chain: the one that [updateState(updates)]
    appends, or the one that the listener of [chrome.storage.onChanged]
    appends for its raw updates. *)
Inductive Job : Type :=
| UpdateJob (updates : value)
| ReconcileJob (rawUpdates : gmap string value).

(** The module-level variables of the service worker, the local storage
    area, and what has been sent out.  The promise chain [updateChain] is
    the list of the jobs that have not started, oldest first; [persisting]
    belongs to the job that waits for [storage.set]: what it writes, and
    the delta that it announces afterwards. *)
Record Runtime : Type := mkRuntime {
  state : State;
  hasInitialized : bool;
  storage : gmap string value;
  updateChain : list Job;
  persisting : option (gmap string value * gmap string value);
  notifications : list (State * gmap string value);
  broadcasts : list (gmap string value)
}.

(** [Object.keys(m).length === 0]. *)
Definition noKeys (m : gmap string value) : bool := (size m =? 0)%nat.

(** The sender is the popup or the options page of this extension;
    [runtimeId] is [chrome.runtime.id]. *)
Definition isTrustedExtensionSender (runtimeId : option string) (sender : value) : bool :=
  match runtimeId with
  | None => false
  | Some id =>
      if negb (Str.truthy id) then false
      else if negb (Js.strictEq (Js.get sender "id") (VStr id)) then false
      else
        let senderUrl :=
          match Js.get sender "url" with VStr u => u | _ => "" end in
        let extensionOrigin := "chrome-extension://" ++ id ++ "/" in
        Str.truthy senderUrl && Str.startsWith senderUrl extensionOrigin
  end.

(** The keys of an allowlist are names of fields, never array indices: an
    array as payload keeps nothing. *)
Definition filterPayloadKeys (payload : value) (allowedKeys : gset string)
    : gmap string value :=
  match payload with
  | VObj props => filter (fun kv => kv.1 ∈ allowedKeys) props
  | _ => ∅
  end.

(** Hydration.  The read of the storage area, the removal of the keys that
    are not known, and the write of the delta take place in one step. *)
Definition ensureInitialized (rt : Runtime) : Runtime :=
  if rt.(hasInitialized) then rt
  else
    let storedState := rt.(storage) in
    let kept := filter (fun kv => isAllowedStorageKey kv.1 = true) storedState in
    let nextState := sanitizeStoredState (VObj storedState) in
    let filteredStoredState :=
      filter (fun kv => kv.1 ∈ STATE_KEYS) storedState in
    let deltaToStore := diffState (VObj filteredStoredState) nextState in
    mkRuntime nextState true (deltaToStore ∪ kept) rt.(updateChain)
      rt.(persisting) rt.(notifications) rt.(broadcasts).

(** [getState(key)]. *)
Definition getState (key : option string) (rt : Runtime) : value :=
  match key with
  | Some k => if Str.truthy k then stateGet rt.(state) k else toValue rt.(state)
  | None => toValue rt.(state)
  end.

(** [updateState(updates)] up to its [return]: the job is appended to the
    chain. *)
Definition updateState (updates : value) (rt : Runtime) : Runtime :=
  if negb (Js.truthy updates) || negb (Js.isObject updates) then rt
  else mkRuntime rt.(state) rt.(hasInitialized) rt.(storage)
         (rt.(updateChain) ++ [UpdateJob updates])%list rt.(persisting)
         rt.(notifications) rt.(broadcasts).

(** [areStateValuesEqual(a, b)].  Its first argument is a field of the
    state or a raw update, its second a raw update or a field of a delta:
    one of the two is a primitive or an array. *)
Definition areStateValuesEqual (a b : value) : bool :=
  if Js.isArray a || Js.isArray b then areStringArraysEqual a b else Js.strictEq a b.

(** [rawUpdates]: the new value of every changed key that the interface
    may write. *)
Definition rawUpdatesOf (changes : value) : gmap string value :=
  match changes with
  | VObj props =>
      (fun change => Js.get change "newValue")
        <$> filter (fun kv => kv.1 ∈ UI_ALLOWED_UPDATE_KEYS_SET) props
  | _ => ∅
  end.

(** The listener of [chrome.storage.onChanged] up to
    [updateChain = updateChain.then(...)]: the raw updates of the job that
    it appends, [None] when it returns before. *)
Definition onStorageChanged (changes areaName : value) (rt : Runtime)
    : option (gmap string value) :=
  if negb (Js.strictEq areaName (VStr "local")) then None
  else if negb rt.(hasInitialized) then None
  else if negb (Js.truthy changes) || negb (Js.isObject changes) then None
  else
    let rawUpdates := rawUpdatesOf changes in
    if noKeys rawUpdates then None
    else
      let matchesCurrentState :=
        forallb (fun kv => areStateValuesEqual (stateGet rt.(state) kv.1) kv.2)
          (map_to_list rawUpdates) in
      if matchesCurrentState then None else Some rawUpdates.

(** The listener as a whole: the job goes to the end of the chain. *)
Definition storageChanged (changes areaName : value) (rt : Runtime) : Runtime :=
  match onStorageChanged changes areaName rt with
  | Some rawUpdates =>
      mkRuntime rt.(state) rt.(hasInitialized) rt.(storage)
        (rt.(updateChain) ++ [ReconcileJob rawUpdates])%list rt.(persisting)
        rt.(notifications) rt.(broadcasts)
  | None => rt
  end.

(** Whether the job of the listener writes [key] back: the key was
    derived, or its canonical value is not the one that was written. *)
Definition needsPersist (rawUpdates : gmap string value) (key : string)
    (v : value) : bool :=
  match rawUpdates !! key with
  | None => true
  | Some raw => negb (areStateValuesEqual raw v)
  end.

(** The job of [updateState] from its start to [await storage.set]. *)
Definition startJob (updates : value) (rt : Runtime) : Runtime :=
  let rt := ensureInitialized rt in
  let nextState := computeNextState rt.(state) updates in
  let delta := diffState (toValue rt.(state)) nextState in
  if noKeys delta then rt
  else mkRuntime nextState rt.(hasInitialized) rt.(storage) rt.(updateChain)
         (Some (delta, delta)) rt.(notifications) rt.(broadcasts).

(** The job of the listener from its start to [await storage.set]; to its
    end when there is nothing to write back. *)
Definition startReconcileJob (rawUpdates : gmap string value) (rt : Runtime)
    : Runtime :=
  let rt := ensureInitialized rt in
  let nextState := computeNextState rt.(state) (VObj rawUpdates) in
  let delta := diffState (toValue rt.(state)) nextState in
  if noKeys delta then rt
  else
    let deltaToPersist :=
      filter (fun kv => needsPersist rawUpdates kv.1 kv.2 = true) delta in
    if noKeys deltaToPersist
    then mkRuntime nextState rt.(hasInitialized) rt.(storage) rt.(updateChain)
           None (rt.(notifications) ++ [(nextState, delta)])%list
           (rt.(broadcasts) ++ [delta])%list
    else mkRuntime nextState rt.(hasInitialized) rt.(storage) rt.(updateChain)
           (Some (deltaToPersist, delta)) rt.(notifications) rt.(broadcasts).

(** The rest of a job, once the write has completed. *)
Definition finishJob (written delta : gmap string value) (rt : Runtime) : Runtime :=
  mkRuntime rt.(state) rt.(hasInitialized) (written ∪ rt.(storage)) rt.(updateChain)
    None (rt.(notifications) ++ [(rt.(state), delta)])%list
    (rt.(broadcasts) ++ [delta])%list.

(** One turn of the event loop on the chain: the running job goes on after
    its [await], or else the oldest waiting job starts. *)
Definition tick (rt : Runtime) : Runtime :=
  match rt.(persisting) with
  | Some (written, delta) => finishJob written delta rt
  | None =>
      match rt.(updateChain) with
      | [] => rt
      | job :: rest =>
          let rt :=
            mkRuntime rt.(state) rt.(hasInitialized) rt.(storage) rest None
              rt.(notifications) rt.(broadcasts) in
          match job with
          | UpdateJob updates => startJob updates rt
          | ReconcileJob rawUpdates => startReconcileJob rawUpdates rt
          end
      end
  end.

Definition ticks (n : nat) (rt : Runtime) : Runtime := Nat.iter n tick rt.

(** [await] of the promise that [updateState] returns: the chain runs until
    it is empty. *)
Definition settle (rt : Runtime) : Runtime :=
  ticks (2 * S (length rt.(updateChain))) rt.




Definition failure (error : string) : value :=
  Js.obj [("success", VBool false); ("error", VStr error)].

(** The loop over [message.keys] of the [getState] handler. *)
Definition pickKeys (allowedKeys : list string) (s : State) (keys : list value)
    : gmap string value :=
  foldl (fun subset k =>
           match k with
           | VStr name =>
               if bool_decide (name ∈ allowedKeys)
               then <[name := stateGet s name]> subset else subset
           | _ => subset
           end) ∅ keys.

Definition handleGetState (runtimeId : option string) (message sender : value)
    (rt : Runtime) : value * Runtime :=
  let rt := ensureInitialized rt in
  let isTrusted := isTrustedExtensionSender runtimeId sender in
  let allowedKeys := if isTrusted then STATE_KEYS else UNTRUSTED_STATE_KEYS in
  let response :=
    match Js.get message "keys" with
    | VArr keys => pickKeys allowedKeys rt.(state) keys
    | _ =>
        match Js.get message "key" with
        | VStr key =>
            if bool_decide (key ∈ allowedKeys)
            then {[ key := stateGet rt.(state) key ]} else ∅
        | _ =>
            if isTrusted then list_to_map (entries rt.(state))
            else foldl (fun subset k => <[k := stateGet rt.(state) k]> subset)
                   ∅ allowedKeys
        end
    end in
  (VObj response, rt).

Definition handleUpdateState (runtimeId : option string) (message sender : value)
    (rt : Runtime) : value * Runtime :=
  let rt := ensureInitialized rt in
  let payload := Js.get message "payload" in
  if negb (Js.truthy payload) || negb (Js.isObject payload)
  then (failure "Invalid payload", rt)
  else if negb (isTrustedExtensionSender runtimeId sender)
  then (failure "Forbidden", rt)
  else
    let filteredPayload := filterPayloadKeys payload UI_ALLOWED_UPDATE_KEYS_SET in
    if noKeys filteredPayload then (failure "No valid keys", rt)
    else (Js.obj [("success", VBool true)],
          settle (updateState (VObj filteredPayload) rt)).

(** The listener of [chrome.runtime.onMessage]; no reply ([None]) to a
    message that is not for it. *)
Definition onMessage (runtimeId : option string) (message sender : value)
    (rt : Runtime) : option value * Runtime :=
  match message with
  | VObj _ | VArr _ =>
      match Js.get message "action" with
      | VStr action =>
          if String.eqb action "getState" then
            let '(response, rt') := handleGetState runtimeId message sender rt in
            (Some response, rt')
          else if String.eqb action "updateState" then
            let '(response, rt') := handleUpdateState runtimeId message sender rt in
            (Some response, rt')
          else (None, rt)
      | _ => (None, rt)
      end
  | _ => (None, rt)
  end.

(** * Vocabulary of the properties *)

(** ** States *)

(** In flow, the task is not empty. *)
Definition flowNeedsTask (s : State) : Prop :=
  s.(isInFlow) = true -> s.(currentTask) <> "".

(** Out of flow, the focus-session timer is cleared and switched off. *)
Definition idleClearsTimer (s : State) : Prop :=
  s.(isInFlow) = false ->
  s.(reminderStartTime) = None /\ s.(reminderInterval) = None
  /\ s.(reminderExpectedEndTime) = None /\ s.(breakReminderEnabled) = false.

Definition flowInvariant (s : State) : Prop :=
  flowNeedsTask s /\ idleClearsTimer s.

(** In flow, the three fields of the focus-session timer are set. *)
Definition flowHasTimer (s : State) : Prop :=
  s.(isInFlow) = true ->
  s.(reminderStartTime) <> None /\ s.(reminderInterval) <> None
  /\ s.(reminderExpectedEndTime) <> None.

(** A counter is a finite number that is not below zero. *)
Definition counterOk (n : number) : Prop :=
  Num.isFinite n = true /\ Num.nonneg n = true.

Definition countersOk (s : State) : Prop :=
  counterOk s.(exerciseStatsPushUps) /\ counterOk s.(exerciseStatsSitUps)
  /\ counterOk s.(exerciseStatsSquats).

(** The states the runtime can hold: a sanitised stored record, followed by
    any number of updates. *)
Definition reached (raw : value) (patches : list value) : State :=
  foldl computeNextState (sanitizeStoredState raw) patches.

(** A normaliser applied under [patched] either ignores the current value
    or hands it back. *)
Definition constOrId {A : Type} (F : A -> A) : Prop :=
  (exists c, forall x, F x = c) \/ (forall x, F x = x).

(** No numeric field holds NaN, the one number that differs from itself. *)
Definition notNaN (o : option number) : bool :=
  match o with Some n => negb (Num.isNaN n) | None => true end.

Definition timesComparable (s : State) : bool :=
  notNaN s.(reminderStartTime) && notNaN s.(reminderInterval)
  && notNaN s.(reminderExpectedEndTime) && notNaN s.(mindfulnessLastShownAt)
  && notNaN s.(exerciseIntervalMs) && notNaN s.(exerciseExpectedAt)
  && notNaN s.(exerciseRemainingMs).

Definition numbersComparable (s : State) : bool :=
  timesComparable s
  && negb (Num.isNaN s.(exerciseStatsPushUps))
  && negb (Num.isNaN s.(exerciseStatsSitUps))
  && negb (Num.isNaN s.(exerciseStatsSquats)).

(** A patch that names no field of the schema. *)
Definition namesNoField (p : value) : Prop :=
  forall k, k ∈ STATE_KEYS -> Js.hasKey p k = false.

(** Two field values are the same value: the same string, boolean or null,
    the same list of elements, or numerically equal numbers. *)
Definition sameValue (a b : value) : Prop :=
  match a, b with
  | VUndefined, VUndefined => True
  | VNull, VNull => True
  | VBool x, VBool y => x = y
  | VStr x, VStr y => x = y
  | VNum x, VNum y => Num.eq x y = true
  | VArr x, VArr y => x = y
  | _, _ => False
  end.

(** The characters that delimit the scheme, the path, the query and the
    fragment of a URL. *)
Definition isUrlDelimiter (c : ascii) : bool :=
  let n := nat_of_ascii c in
  (n =? 58)%nat || (n =? 47)%nat || (n =? 63)%nat || (n =? 35)%nat.

(** What an entry of a site list looks like. *)
Definition validEntry (h : string) : Prop :=
  matchesHostPattern h = true
  /\ Str.toLowerCase h = h
  /\ Str.existsb isUrlDelimiter h = false
  /\ Str.includes h "." = true
  /\ Str.startsWith h "." = false
  /\ Str.endsWith h "." = false
  /\ Str.includes h ".." = false
  /\ (String.length h <= 253)%nat.

(** Valid entries, no duplicates, at most 200 of them. *)
Definition cleanList (l : list string) : Prop :=
  Forall validEntry l /\ NoDup l /\ (length l <= MAX_SITE_LIST_ITEMS)%nat.

(** What a normalised site list looks like. *)
Definition normalizedList (l : list string) : Prop :=
  cleanList l /\ Sorted str_le l.


(** The entry that a source string stands for. *)
Definition entryOf (rawValue : string) : string :=
  hostnameOf (Str.toLowerCase (Str.trim rawValue)).

(** ** Hostnames *)

(** [host] is [site] or one of its subdomains. *)
Definition hostUnder (host site : string) : Prop :=
  site <> "" /\ (host = site \/ exists sub, host = sub ++ "." ++ site).

(** The form in which host names are compared, in words: the text without
    the white space around it, in lower case, less one leading "www.". *)
Definition comparisonForm (text form : string) : Prop :=
  let plain := Str.toLowerCase (Str.trim text) in
  plain = "www." ++ form
  \/ (Str.startsWith plain "www." = false /\ form = plain).

(** [host] matches one of the entries of a site list: it is the
    comparison form of an entry, or a subdomain of it. *)
Definition matchesList (host : string) (sites : list string) : Prop :=
  exists site form, site ∈ sites /\ comparisonForm site form /\ hostUnder host form.

(** ** The runtime *)

(** The runtime when the service worker starts, over a storage area. *)
Definition startRuntime (stored : gmap string value) : Runtime :=
  mkRuntime getDefaultState false stored [] None [] [].

(** The fields that only the runtime may set. *)
Definition TIMER_INTERNAL_KEYS : list string :=
  [ "reminderStartTime"; "reminderInterval"; "reminderExpectedEndTime";
    "exerciseIntervalMs"; "exerciseExpectedAt"; "exerciseRemainingMs" ].

(** Nothing waits and nothing runs on the chain. *)
Definition idle (rt : Runtime) : Prop :=
  rt.(updateChain) = [] /\ rt.(persisting) = None.


(** The event holds, under every key that the interface may write, the
    value that the field has in [s]. *)
Definition carriesState (changes : value) (s : State) : Prop :=
  match changes with
  | VObj props =>
      forall k change,
        props !! k = Some change -> k ∈ UI_ALLOWED_UPDATE_KEYS ->
        Js.get change "newValue" = stateGet s k
  | _ => True
  end.


Definition setTask (task : string) : value := Js.obj [("currentTask", VStr task)].
(** * The callers of the state core

    The job of the storage listener of [background_state.js] run on its
    own, and the modules that call the state core and the runtime:
    [state_helpers.js], [options.js], [background_omnibox.js],
    [background_intentGate.js], [background_breakReminder.js],
    [background_mindfulnessReminder.js] and
    [background_exerciseReminder.js], as far as they read or write the
    state. *)

(** ** More of [Math] and of strings *)

Module Math.

(** [Math.trunc]. *)
Definition trunc (n : number) : number :=
  match n with
  | S754_finite s m e =>
      match e with
      | Zneg p =>
          let q := Z.shiftr (Z.pos m) (Z.pos p) in
          if (q =? 0)%Z then S754_zero s
          else binary_normalize 53 1024 (if s then Z.opp q else q) 0 s
      | _ => n
      end
  | _ => n
  end.

(** [a * b] and [a + b]. *)
Definition mul (a b : number) : number := SFmul 53 1024 a b.
Definition add (a b : number) : number := SFadd 53 1024 a b.

End Math.

(** [s.replace(/\s/g, '')]. *)
Fixpoint removeWhitespace (s : string) : string :=
  match s with
  | EmptyString => EmptyString
  | String c r =>
      if Str.is_space c then removeWhitespace r else String c (removeWhitespace r)
  end.

(** ** background_state.js: the job of the storage listener *)

(** The job that the listener appends, run to its end on a chain that is
    otherwise idle: [startReconcileJob] and the end of the write in one. *)
Definition reconcileJob (rawUpdates : gmap string value) (rt : Runtime) : Runtime :=
  let rt := ensureInitialized rt in
  let nextState := computeNextState rt.(state) (VObj rawUpdates) in
  let delta := diffState (toValue rt.(state)) nextState in
  if noKeys delta then rt
  else
    let deltaToPersist :=
      filter (fun kv => needsPersist rawUpdates kv.1 kv.2 = true) delta in
    mkRuntime nextState rt.(hasInitialized) (deltaToPersist ∪ rt.(storage))
      rt.(updateChain) rt.(persisting)
      (rt.(notifications) ++ [(nextState, delta)])%list
      (rt.(broadcasts) ++ [delta])%list.

(** ** state_helpers.js *)

(** [sendMessageSafely(message)] as a page sees it: what the service
    worker does with the message and its reply, [None] for [null] (no
    reply in time, no listener, invalidated context). *)
Definition Channel : Type := value -> Runtime -> option value * Runtime.

(** The service worker does not answer. *)
Definition silentWorker : Channel := fun _ rt => (None, rt).

(** [updateStateSafely(payload)]; the page reads and writes the storage
    area of [rt] itself when there is no reply. *)
Definition updateStateSafely (send : Channel) (payload : value) (rt : Runtime)
    : bool * Runtime :=
  if negb (Js.truthy payload) || negb (Js.isObject payload) then (false, rt)
  else
    let filteredPayload := filterPayloadKeys payload UI_ALLOWED_UPDATE_KEYS_SET in
    if noKeys filteredPayload then (false, rt)
    else
      let message :=
        Js.obj [("action", VStr "updateState"); ("payload", VObj filteredPayload)] in
      match send message rt with
      | (Some response, rt') => (Js.truthy (Js.get response "success"), rt')
      | (None, rt') =>
          let storedState := rt'.(storage) in
          let currentState := sanitizeStoredState (VObj storedState) in
          let nextState := computeNextState currentState (VObj filteredPayload) in
          let delta := diffState (toValue currentState) nextState in
          if noKeys delta then (true, rt')
          else (true,
                mkRuntime rt'.(state) rt'.(hasInitialized) (delta ∪ storedState)
                  rt'.(updateChain) rt'.(persisting) rt'.(notifications)
                  rt'.(broadcasts))
      end.

(** ** options.js *)

(** [normalizeHostnameInput(input)] for the text of the input field;
    [None] for [null]. *)
Definition normalizeHostnameInput (input : string) : option string :=
  let raw := Str.toLowerCase (Str.trim input) in
  if negb (Str.truthy raw) then None
  else
    let hostname := hostnameOf raw in
    if negb (Str.truthy hostname) || Str.existsb Str.is_space hostname then None
    else if negb (Str.includes hostname ".") then None
    else if negb (matchesHostPattern hostname) then None
    else if Str.startsWith hostname "." || Str.endsWith hostname "." then None
    else if Str.includes hostname ".." then None
    else Some hostname.

(** ** background_omnibox.js *)

Definition DEFAULT_DEEPWORK_TASK : string := "Deep Work".

(** constants.js: [40 * 60 * 1000]. *)
Definition BREAK_REMINDER_INTERVAL : number :=
  Eval vm_compute in Num.ofZ (40 * 60 * 1000).

(** [Math.round(BREAK_REMINDER_INTERVAL / 60000) || 40]: the quotient is
    40. *)
Definition DEFAULT_DEEPWORK_MINUTES : number := Eval vm_compute in Num.ofZ 40.
Definition MIN_DEEPWORK_MINUTES : number := Eval vm_compute in Num.ofZ 1.
Definition MAX_DEEPWORK_MINUTES : number := Eval vm_compute in Num.ofZ (24 * 60).

(** The updates that end a focus session; [stopDeepWork],
    [handleBreakReminderEnd] and the switch of the popup send the same
    three. *)
Definition endSessionUpdates : value :=
  Js.obj [("isInFlow", VBool false); ("currentTask", VStr "");
          ("breakReminderEnabled", VBool false)].

(** The updates of [startDeepWork]. *)
Definition startDeepWorkUpdates (nextTask : string) (intervalMs : number) : value :=
  Js.obj [("currentTask", VStr nextTask); ("isInFlow", VBool true);
          ("breakReminderEnabled", VBool true);
          ("reminderInterval", VNum intervalMs);
          ("reminderStartTime", VNull); ("reminderExpectedEndTime", VNull)].

(** [startDeepWork({ minutes, task })]: the field [ok] of its result, and
    the runtime once [await updateState(...)] is over. *)
Definition startDeepWork (minutes task : value) (rt : Runtime) : bool * Runtime :=
  let safeMinutes :=
    match minutes with
    | VNum n => if Num.isFinite n then Math.trunc n else DEFAULT_DEEPWORK_MINUTES
    | _ => DEFAULT_DEEPWORK_MINUTES
    end in
  if Num.lt safeMinutes MIN_DEEPWORK_MINUTES || Num.gt safeMinutes MAX_DEEPWORK_MINUTES
  then (false, rt)
  else
    let intervalMs :=
      Math.mul (Math.mul safeMinutes (Num.ofZ 60)) (Num.ofZ 1000) in
    let rawTask := match task with VStr t => Str.trim t | _ => "" end in
    let nextTask := if Str.truthy rawTask then rawTask else DEFAULT_DEEPWORK_TASK in
    (true, settle (updateState (startDeepWorkUpdates nextTask intervalMs) rt)).

(** [stopDeepWork()]. *)
Definition stopDeepWork (rt : Runtime) : bool * Runtime :=
  (true, settle (updateState endSessionUpdates rt)).

(** ** background_breakReminder.js *)

(** What [handleStateUpdated] does with a delta: nothing, [stopBreakReminder],
    or the resynchronisation of alarms and badge. *)
Inductive TimerReaction : Type := TimerIgnored | TimerStopped | TimerSynced.

(** [k in updates && !updates[k]]. *)
Definition namedFalsy (updates : value) (k : string) : bool :=
  Js.hasKey updates k && negb (Js.truthy (Js.get updates k)).

Definition breakReminderReaction (updates : value) : TimerReaction :=
  if negb (Js.truthy updates) || negb (Js.isObject updates) then TimerIgnored
  else
    let shouldSync :=
      Js.hasKey updates "breakReminderEnabled" || Js.hasKey updates "isInFlow"
      || Js.hasKey updates "currentTask" || Js.hasKey updates "reminderStartTime"
      || Js.hasKey updates "reminderInterval"
      || Js.hasKey updates "reminderExpectedEndTime" in
    if negb shouldSync then TimerIgnored
    else
      let shouldStop :=
        namedFalsy updates "breakReminderEnabled" || namedFalsy updates "isInFlow"
        || namedFalsy updates "currentTask" in
      if shouldStop then TimerStopped else TimerSynced.

(** The timer fields in the updates of [resetBreakReminder] and of
    [startBreakReminder]. *)
Definition timerUpdates (reminderStartTime interval : number) : list (string * value) :=
  [("reminderStartTime", VNum reminderStartTime);
   ("reminderInterval", VNum interval);
   ("reminderExpectedEndTime", VNum (Math.add reminderStartTime interval))].

(** [resetBreakReminder(data, sendResponse)] at the time [now] of
    [Date.now()]: the field [success] of the response, and the runtime
    once [await updateState(...)] is over. *)
Definition resetBreakReminder (now : number) (data : value) (rt : Runtime)
    : bool * Runtime :=
  let rt := ensureInitialized rt in
  let task := match Js.get data "task" with VStr t => Str.trim t | _ => "" end in
  if negb (Str.truthy task) then (false, rt)
  else
    let interval := BREAK_REMINDER_INTERVAL in
    (true,
     settle (updateState
               (Js.obj ([("currentTask", VStr task); ("isInFlow", VBool true);
                         ("breakReminderEnabled", VBool true)]
                        ++ timerUpdates now interval)) rt)).

(** What [handleBreakReminderEnd] finds: nothing to end, an alarm that
    fired early, or the end of the cycle. *)
Inductive CycleEnd : Type := CycleNotRunning | CycleRescheduled | CycleEnded.

(** [handleBreakReminderEnd()] at the time [now]. *)
Definition handleBreakReminderEnd (now : number) (rt : Runtime) : CycleEnd * Runtime :=
  let s := rt.(state) in
  if negb s.(isInFlow) || negb (Str.truthy s.(currentTask))
     || negb s.(breakReminderEnabled)
  then (CycleNotRunning, rt)
  else
    match s.(reminderExpectedEndTime) with
    | Some expected =>
        if Num.isFinite expected && Num.lt now expected then (CycleRescheduled, rt)
        else (CycleEnded, settle (updateState endSessionUpdates rt))
    | None => (CycleEnded, settle (updateState endSessionUpdates rt))
    end.

(** ** background_intentGate.js *)

Definition INTENT_GATE_MIN_REASON_CHARS : nat := 5.
Definition INTENT_GATE_LOG_LIMIT : nat := 50.

Definition STORAGE_ALLOW_PREFIX : string := "intentGateTab_".
Definition STORAGE_PENDING_PREFIX : string := "intentGatePending_".
Definition STORAGE_REASON_LOG : string := "intentGateReasonLog".

(** [countNonWhitespace(value)]. *)
Definition countNonWhitespace (v : value) : nat :=
  match v with
  | VStr s => String.length (removeWhitespace s)
  | _ => 0
  end.

Section TabKeys.

(** The text of a tab id in a template literal. *)
Variable numberToString : number -> string.

Definition getAllowKey (tabId : number) : string :=
  STORAGE_ALLOW_PREFIX ++ numberToString tabId.

Definition getPendingKey (tabId : number) : string :=
  STORAGE_PENDING_PREFIX ++ numberToString tabId.

End TabKeys.

(** [clearAllTabIntentGateData()] on the storage area. *)
Definition clearAllTabIntentGateData (stored : gmap string value)
    : gmap string value :=
  filter (fun kv => Str.startsWith kv.1 STORAGE_ALLOW_PREFIX
                    || Str.startsWith kv.1 STORAGE_PENDING_PREFIX = false) stored.

(** The array under [intentGateReasonLog], empty when there is none. *)
Definition reasonLog (stored : gmap string value) : list value :=
  match stored !! STORAGE_REASON_LOG with
  | Some (VArr log) => log
  | _ => []
  end.

(** [logReason(reason)] at the time [now], on the storage area. *)
Definition logReason (now : number) (reason : value) (stored : gmap string value)
    : gmap string value :=
  match reason with
  | VStr r =>
      if (countNonWhitespace reason <? INTENT_GATE_MIN_REASON_CHARS)%nat then stored
      else
        let entry := Js.obj [("reason", VStr r); ("timestamp", VNum now)] in
        let log := entry :: reasonLog stored in
        let log :=
          if (INTENT_GATE_LOG_LIMIT <? length log)%nat
          then take INTENT_GATE_LOG_LIMIT log else log in
        <[STORAGE_REASON_LOG := VArr log]> stored
  | _ => stored
  end.

(** [handleStateUpdated(updates)]: whether the gate is checked again. *)
Definition intentGateRechecks (updates : value) : bool :=
  if negb (Js.truthy updates) || negb (Js.isObject updates) then false
  else
    Js.hasKey updates "intentGateEnabled" || Js.hasKey updates "distractingSites"
    || Js.hasKey updates "deepWorkBlockedSites" || Js.hasKey updates "isInFlow".

(** ** background_mindfulnessReminder.js and background_exerciseReminder.js *)

(** [handleStateUpdated(updates)]: whether the alarm is synchronised. *)
Definition mindfulnessSyncs (updates : value) : bool :=
  if negb (Js.truthy updates) || negb (Js.isObject updates) then false
  else Js.hasKey updates "mindfulnessReminderEnabled".

(** What [handleStateUpdated(delta)] of the exercise reminder does with the
    delta object of a notification: nothing, the new schedule, or the new
    schedule after the gate has been closed. *)
Inductive ExerciseReaction : Type :=
  ExerciseIgnored | ExerciseRescheduled | ExerciseGateClosed.

Definition exerciseReaction (delta : gmap string value) : ExerciseReaction :=
  let d := VObj delta in
  let relevant :=
    Js.hasKey d "exerciseReminderEnabled" || Js.hasKey d "isInFlow"
    || Js.hasKey d "exerciseExpectedAt" || Js.hasKey d "exerciseRemainingMs"
    || Js.hasKey d "exerciseIntervalMs" in
  if negb relevant then ExerciseIgnored
  else if Js.hasKey d "isInFlow" && Js.truthy (Js.get d "isInFlow")
  then ExerciseGateClosed else ExerciseRescheduled.

(** * Vocabulary of the further properties *)

(** A task as the engine keeps it: at most [MAX_TASK_LENGTH] code units,
    and no white space in front. *)
Definition taskOk (t : string) : Prop :=
  (String.length t <= MAX_TASK_LENGTH)%nat /\ Str.trimStart t = t.

(** Null or a finite number. *)
Definition finiteOrNull (o : option number) : Prop :=
  forall n, o = Some n -> Num.isFinite n = true.

(** Null or a finite number between one minute and one day. *)
Definition intervalOk (o : option number) : Prop :=
  forall n, o = Some n ->
    Num.isFinite n = true
    /\ SFleb MIN_INTERVAL_MS n = true /\ SFleb n MAX_INTERVAL_MS = true.

Definition timesFinite (s : State) : Prop :=
  finiteOrNull s.(reminderStartTime) /\ finiteOrNull s.(reminderInterval)
  /\ finiteOrNull s.(reminderExpectedEndTime) /\ finiteOrNull s.(mindfulnessLastShownAt)
  /\ finiteOrNull s.(exerciseIntervalMs) /\ finiteOrNull s.(exerciseExpectedAt)
  /\ finiteOrNull s.(exerciseRemainingMs).

Definition intervalsOk (s : State) : Prop :=
  intervalOk s.(reminderInterval) /\ intervalOk s.(exerciseIntervalMs).

(** No entry starts with "www.". *)
Definition wwwFree (l : list string) : Prop :=
  Forall (fun h => Str.startsWith h "www." = false) l.

(** A state that hydration gives back as it is: no white space at the end
    of the task, and site lists that are sorted and free of "www.". *)
Definition restartStable (s : State) : Prop :=
  Str.trimEnd s.(currentTask) = s.(currentTask)
  /\ Sorted str_le s.(distractingSites) /\ wwwFree s.(distractingSites)
  /\ Sorted str_le s.(deepWorkBlockedSites) /\ wwwFree s.(deepWorkBlockedSites).

(** The defaults, with the interval that the invariants give to the
    exercise reminder. *)
Definition initialState : State :=
  mkState "" false true false false false
    DEFAULT_DISTRACTING_SITES DEFAULT_DEEPWORK_BLOCKED_SITES
    None None None None
    true (Some EXERCISE_DEFAULT_INTERVAL_MS) None None
    None Num.zero Num.zero Num.zero.

(** The fields that the invariants may change by themselves. *)
Definition DERIVED_KEYS : list string :=
  [ "isInFlow"; "breakReminderEnabled"; "reminderStartTime"; "reminderInterval";
    "reminderExpectedEndTime"; "exerciseIntervalMs" ].



(** A session has ended: out of flow, no task, no timer. *)
Definition sessionEnded (s : State) : Prop :=
  s.(isInFlow) = false /\ s.(currentTask) = "" /\ s.(breakReminderEnabled) = false
  /\ s.(reminderStartTime) = None /\ s.(reminderInterval) = None
  /\ s.(reminderExpectedEndTime) = None.


(** A chain with a job that runs or waits. *)
Definition busy (rt : Runtime) : Prop :=
  rt.(persisting) <> None \/ rt.(updateChain) <> [].

(** The turns that the chain still takes, at most. *)
Definition turnsLeft (rt : Runtime) : nat :=
  2 * length rt.(updateChain) + match rt.(persisting) with Some _ => 1 | None => 0 end.

(** * Properties *)

(** ** The tests of the repository, on the embedding *)

(** state_core.test.js: sanitizeStoredState uses safe defaults. *)
Example test_sanitize_defaults :
  let s := sanitizeStoredState (VObj ∅) in
  s.(intentGateEnabled) = true /\ s.(isInFlow) = false
  /\ "facebook.com" ∈ s.(distractingSites).
Proof.
  cbv zeta. split_and!; [reflexivity|reflexivity|].
  apply list_elem_of_In. vm_compute. tauto.
Qed.

(** state_core.test.js: URLs in distractingSites become hostnames. *)
Example test_sanitize_sites :
  (sanitizeStoredState
     (Js.obj [("distractingSites",
               VArr [VStr "https://WWW.FACEBOOK.COM/some/path?x=1";
                     VStr "facebook.com"; VStr "www.facebook.com"])]))
    .(distractingSites) = ["facebook.com"].
Proof. vm_compute. reflexivity. Qed.

(** state_core.test.js: the timer is cleared when the flow ends. *)
Example test_exit_flow_clears_timer :
  let current :=
    mkState "Test task" true true true false false DEFAULT_DISTRACTING_SITES
      DEFAULT_DEEPWORK_BLOCKED_SITES (Some (Num.ofZ 1700000000000))
      (Some (Num.ofZ 1000)) (Some (Num.ofZ 1700000001000)) None true None None
      None None Num.zero Num.zero Num.zero in
  let next := computeNextState current (Js.obj [("isInFlow", VBool false)]) in
  next.(isInFlow) = false /\ next.(breakReminderEnabled) = false
  /\ next.(reminderStartTime) = None /\ next.(reminderInterval) = None
  /\ next.(reminderExpectedEndTime) = None.
Proof. vm_compute. split_and!; reflexivity. Qed.

(** state_core.test.js: isInFlow requires a task. *)
Example test_flow_requires_task :
  (computeNextState getDefaultState
     (Js.obj [("isInFlow", VBool true); ("currentTask", VStr "")])).(isInFlow) = false.
Proof. vm_compute. reflexivity. Qed.

(** distraction_matcher.test.js, with the stand-in for the URL parser. *)
Example test_getHostnameFromUrl :
  getHostnameFromUrl plainUrlHostname (VStr "https://WWW.FACEBOOK.COM/some/path?x=1")
  = "facebook.com"
  /\ getHostnameFromUrl plainUrlHostname (VStr "http://m.facebook.com") = "m.facebook.com"
  /\ getHostnameFromUrl plainUrlHostname (VStr "chrome://extensions") = "".
Proof. vm_compute. split_and!; reflexivity. Qed.

Example test_isHostnameInList :
  let sites := VArr [VStr "facebook.com"] in
  isHostnameInList (VStr "facebook.com") sites = true
  /\ isHostnameInList (VStr "m.facebook.com") sites = true
  /\ isHostnameInList (VStr "notfacebook.com") sites = false.
Proof. vm_compute. split_and!; reflexivity. Qed.

Example test_gate_deep_work_only_in_flow :
  let base inFlow :=
    Js.obj [("distractingSites", VArr [VStr "facebook.com"]);
            ("deepWorkBlockedSites", VArr [VStr "messenger.com"]);
            ("isInFlow", VBool inFlow)] in
  getIntentGateMatch plainUrlHostname (VStr "https://messenger.com") (base false)
  = mkGateMatch "messenger.com" false false
  /\ getIntentGateMatch plainUrlHostname (VStr "https://messenger.com") (base true)
     = mkGateMatch "messenger.com" true true
  /\ (getIntentGateMatch plainUrlHostname (VStr "https://example.com") (base true))
       .(shouldGate) = false.
Proof. vm_compute. split_and!; reflexivity. Qed.

(** Only one scheme is removed from an entry, and only one "www.". *)
Example nested_scheme_is_dropped :
  normalizeDomainList (VArr [VStr "https://http://a.com"; VStr "www.www.b.com"]) []
    MAX_SITE_LIST_ITEMS = ["www.b.com"].
Proof. vm_compute. reflexivity. Qed.

(** ** The invariants of the state *)

Lemma truthy_nonempty (s : string) : Str.truthy s = true -> s <> "".
Proof. destruct s; simpl; congruence. Qed.

Lemma enforce_flowInvariant (s : State) : flowInvariant (enforceStateValidity s).
Proof.
  unfold flowInvariant, flowNeedsTask, idleClearsTimer, enforceStateValidity; simpl.
  destruct (isInFlow s), (currentTask s) as [|c r]; simpl; split; intros H;
    try discriminate; auto.
Qed.

(** A patch that is not an object leaves the state as it is. *)
Lemma compute_not_object (s : State) (p : value) :
  Js.truthy p && Js.isObject p = false -> computeNextState s p = s.
Proof.
  intros H. unfold computeNextState.
  destruct (Js.truthy p), (Js.isObject p); simpl in *; congruence.
Qed.

Lemma compute_is_enforce_or_id (s : State) (p : value) :
  computeNextState s p = s \/
  exists t, computeNextState s p = enforceStateValidity t.
Proof.
  unfold computeNextState.
  destruct (negb (Js.truthy p) || negb (Js.isObject p)); [left|right]; eauto.
Qed.

(** Whatever [enforceStateValidity] establishes holds of every state that
    the runtime reaches. *)
Lemma foldl_compute_preserves (P : State -> Prop) :
  (forall t, P (enforceStateValidity t)) ->
  forall patches s, P s -> P (foldl computeNextState s patches).
Proof.
  intros HP patches. induction patches as [|p ps IH]; intros s Hs; simpl; [exact Hs|].
  apply IH. destruct (compute_is_enforce_or_id s p) as [-> | [t ->]]; auto.
Qed.

Lemma reached_establishes (P : State -> Prop) :
  (forall t, P (enforceStateValidity t)) ->
  forall raw patches, P (reached raw patches).
Proof.
  intros HP raw patches. unfold reached.
  apply foldl_compute_preserves; [exact HP|]. apply HP.
Qed.

(** C1, as amended: after [sanitizeStoredState], after [computeNextState]
    with an object (or array) as patch, and in every state reached by the
    runtime, being in flow implies a non-empty task, and not being in flow
    implies that [reminderStartTime], [reminderInterval] and
    [reminderExpectedEndTime] are null and [breakReminderEnabled] is false.
    Nothing is promised about the timer fields while in flow. *)
Theorem flow_invariant_after_transition :
  (forall raw, flowInvariant (sanitizeStoredState raw))
  /\ (forall s props, flowInvariant (computeNextState s (VObj props)))
  /\ (forall s items, flowInvariant (computeNextState s (VArr items)))
  /\ (forall raw patches, flowInvariant (reached raw patches)).
Proof.
  split_and!; intros; try apply enforce_flowInvariant.
  apply (reached_establishes _ enforce_flowInvariant).
Qed.

(** C1 as stated fails: a stored record with a task and the flow flag gives
    a state in flow whose three timer fields are null; and a patch that is
    not an object hands back a state that breaks the invariant unchanged. *)
Lemma flow_without_timer :
  let s := sanitizeStoredState
             (Js.obj [("currentTask", VStr "A"); ("isInFlow", VBool true)]) in
  let junk := mkState "" true true true false false [] [] None None None None
                true None None None None Num.zero Num.zero Num.zero in
  (s.(isInFlow) = true /\ s.(reminderStartTime) = None
   /\ s.(reminderInterval) = None /\ s.(reminderExpectedEndTime) = None)
  /\ ~ flowHasTimer s
  /\ ~ flowNeedsTask (computeNextState junk VNull).
Proof.
  vm_compute. repeat split; try reflexivity.
  - intros H. destruct (H eq_refl) as [H1 _]. apply H1. reflexivity.
  - intros H. apply (H eq_refl). reflexivity.
Qed.

(** ** The exercise counters *)

Lemma saneCounter_ok (n : number) : counterOk (saneCounter n).
Proof.
  unfold counterOk, saneCounter.
  destruct n as [[|]|[|]| |[|] m e]; vm_compute; auto.
Qed.

Lemma enforce_countersOk (s : State) : countersOk (enforceStateValidity s).
Proof. unfold countersOk; simpl. auto using saneCounter_ok. Qed.

Lemma patched_insert {A} (props : gmap string value) k v
    (norm : value -> A -> A) (cur : A) :
  patched (VObj (<[k := v]> props)) k norm cur = norm v cur.
Proof.
  unfold patched, Js.hasKey, Js.get. rewrite lookup_insert_eq.
  rewrite bool_decide_eq_true_2 by eauto. reflexivity.
Qed.

(** C9, as amended: after [sanitizeStoredState], after [computeNextState]
    with an object as patch, and in every state the runtime reaches, the
    three exercise counters are finite numbers that are at least zero (they
    need not be integers); a counter that reaches the invariant step as NaN
    or as an infinity becomes 0, so a stored counter that is not finite
    becomes 0, and a patched counter that is not finite leaves the current
    one in place. *)
Theorem counters_nonnegative_after_transition :
  (forall raw, countersOk (sanitizeStoredState raw))
  /\ (forall s props, countersOk (computeNextState s (VObj props)))
  /\ (forall s items, countersOk (computeNextState s (VArr items)))
  /\ (forall raw patches, countersOk (reached raw patches))
  /\ saneCounter Num.NaN = Num.zero
  /\ (forall sign, saneCounter (S754_infinity sign) = Num.zero)
  /\ (forall props n,
        Num.isFinite n = false ->
        (sanitizeStoredState (VObj (<["exerciseStatsPushUps" := VNum n]> props)))
          .(exerciseStatsPushUps) = Num.zero)
  /\ (forall s props n,
        Num.isFinite n = false ->
        (computeNextState s (VObj (<["exerciseStatsPushUps" := VNum n]> props)))
          .(exerciseStatsPushUps) = saneCounter s.(exerciseStatsPushUps)).
Proof.
  split_and!; intros; try apply enforce_countersOk.
  - apply (reached_establishes _ enforce_countersOk).
  - reflexivity.
  - destruct sign; reflexivity.
  - cbn. unfold Js.get. rewrite lookup_insert_eq. cbn.
    unfold normalizeCounter, normalizeNumberOrNull.
    match goal with H : Num.isFinite n = false |- _ => rewrite H end.
    reflexivity.
  - unfold computeNextState. cbn. rewrite patched_insert.
    unfold normalizeCounter, normalizeNumberOrNull.
    match goal with H : Num.isFinite n = false |- _ => rewrite H end.
    reflexivity.
Qed.

Lemma counters_nonnegative_after_transition_witness :
  (sanitizeStoredState
     (VObj (<["exerciseStatsPushUps" := VNum (S754_infinity false)]>
              (list_to_map [("currentTask", VStr "A")]))))
    .(exerciseStatsPushUps) = Num.zero.
Proof.
  apply counters_nonnegative_after_transition. reflexivity.
Defined.

(** C9 as stated fails: a stored counter of 1.5 is kept, and 1.5 is not an
    integer. *)
Lemma counter_not_integer :
  let s := sanitizeStoredState
             (Js.obj [("exerciseStatsPushUps", VNum (Num.dyadic 3 (-1)))]) in
  s.(exerciseStatsPushUps) = Num.dyadic 3 (-1)
  /\ Num.isInteger s.(exerciseStatsPushUps) = false.
Proof. vm_compute. split; reflexivity. Qed.

(** ** Idempotence of an update *)

Lemma State_ext (a b : State) :
  a.(currentTask) = b.(currentTask) -> a.(isInFlow) = b.(isInFlow) ->
  a.(intentGateEnabled) = b.(intentGateEnabled) ->
  a.(breakReminderEnabled) = b.(breakReminderEnabled) ->
  a.(mindfulnessReminderEnabled) = b.(mindfulnessReminderEnabled) ->
  a.(hasSeenOnboarding) = b.(hasSeenOnboarding) ->
  a.(distractingSites) = b.(distractingSites) ->
  a.(deepWorkBlockedSites) = b.(deepWorkBlockedSites) ->
  a.(reminderStartTime) = b.(reminderStartTime) ->
  a.(reminderInterval) = b.(reminderInterval) ->
  a.(reminderExpectedEndTime) = b.(reminderExpectedEndTime) ->
  a.(mindfulnessLastShownAt) = b.(mindfulnessLastShownAt) ->
  a.(exerciseReminderEnabled) = b.(exerciseReminderEnabled) ->
  a.(exerciseIntervalMs) = b.(exerciseIntervalMs) ->
  a.(exerciseExpectedAt) = b.(exerciseExpectedAt) ->
  a.(exerciseRemainingMs) = b.(exerciseRemainingMs) ->
  a.(exerciseStatsDate) = b.(exerciseStatsDate) ->
  a.(exerciseStatsPushUps) = b.(exerciseStatsPushUps) ->
  a.(exerciseStatsSitUps) = b.(exerciseStatsSitUps) ->
  a.(exerciseStatsSquats) = b.(exerciseStatsSquats) ->
  a = b.
Proof. destruct a, b; simpl; intros; subst; reflexivity. Qed.

(** What [enforceStateValidity] does to each field it may change. *)
Lemma enforce_currentTask t :
  currentTask (enforceStateValidity t) = currentTask t.
Proof. simpl. destruct (currentTask t); reflexivity. Qed.

Lemma enforce_isInFlow t :
  isInFlow (enforceStateValidity t) = isInFlow t && Str.truthy (currentTask t).
Proof. simpl. destruct (isInFlow t), (currentTask t); reflexivity. Qed.

Lemma enforce_breakReminderEnabled t :
  breakReminderEnabled (enforceStateValidity t) =
  isInFlow t && Str.truthy (currentTask t) && breakReminderEnabled t.
Proof. simpl. destruct (isInFlow t), (currentTask t); reflexivity. Qed.

Lemma enforce_reminderStartTime t :
  reminderStartTime (enforceStateValidity t) =
  if isInFlow t && Str.truthy (currentTask t) then reminderStartTime t else None.
Proof. simpl. destruct (isInFlow t), (currentTask t); reflexivity. Qed.

Lemma enforce_reminderInterval t :
  reminderInterval (enforceStateValidity t) =
  if isInFlow t && Str.truthy (currentTask t) then reminderInterval t else None.
Proof. simpl. destruct (isInFlow t), (currentTask t); reflexivity. Qed.

Lemma enforce_reminderExpectedEndTime t :
  reminderExpectedEndTime (enforceStateValidity t) =
  if isInFlow t && Str.truthy (currentTask t) then reminderExpectedEndTime t else None.
Proof. simpl. destruct (isInFlow t), (currentTask t); reflexivity. Qed.

Lemma patched_constOrId {A} (p : value) (k : string) (norm : value -> A -> A) :
  (forall v, constOrId (norm v)) -> constOrId (patched p k norm).
Proof.
  intros H. unfold patched. destruct (Js.hasKey p k); [apply H|]. right; auto.
Qed.

Ltac const_or_id :=
  first [ right; intros; reflexivity | left; eexists; intros; simpl; reflexivity ].

Lemma normalizeTask_constOrId v : constOrId (normalizeTask v).
Proof. unfold constOrId; destruct v; const_or_id. Qed.

Lemma normalizeBoolean_constOrId v : constOrId (normalizeBoolean v).
Proof. unfold constOrId; destruct v; const_or_id. Qed.

Lemma normalizeString_constOrId v : constOrId (normalizeString v).
Proof. unfold constOrId; destruct v; const_or_id. Qed.

Lemma normalizeSites_constOrId v : constOrId (normalizeSites v).
Proof. unfold constOrId; destruct v; const_or_id. Qed.

Lemma normalizeNumberOrNull_constOrId v : constOrId (normalizeNumberOrNull v).
Proof.
  unfold constOrId, normalizeNumberOrNull.
  destruct v as [| | |n| | |]; try const_or_id. destruct (Num.isFinite n); const_or_id.
Qed.

Lemma normalizeIntervalMs_constOrId v : constOrId (normalizeIntervalMs v).
Proof.
  unfold constOrId, normalizeIntervalMs.
  destruct v as [| | |n| | |]; try const_or_id.
  destruct (Num.isFinite n); simpl; [|const_or_id].
  destruct (Num.lt n MIN_INTERVAL_MS || Num.gt n MAX_INTERVAL_MS); const_or_id.
Qed.

Lemma normalizeCounter_constOrId v : constOrId (normalizeCounter v).
Proof.
  unfold constOrId, normalizeCounter, normalizeNumberOrNull.
  destruct v as [| | |n| | |]; try const_or_id. destruct (Num.isFinite n); const_or_id.
Qed.

Create HintDb norm.
#[local] Hint Resolve normalizeTask_constOrId normalizeBoolean_constOrId
  normalizeString_constOrId normalizeSites_constOrId
  normalizeNumberOrNull_constOrId normalizeIntervalMs_constOrId
  normalizeCounter_constOrId : norm.

Lemma saneCounter_idem n : saneCounter (saneCounter n) = saneCounter n.
Proof. destruct n as [[|]|[|]| |[|] m e]; reflexivity. Qed.

Ltac proj_cbn :=
  cbn [currentTask isInFlow intentGateEnabled breakReminderEnabled
       mindfulnessReminderEnabled hasSeenOnboarding distractingSites
       deepWorkBlockedSites reminderStartTime reminderInterval
       reminderExpectedEndTime mindfulnessLastShownAt exerciseReminderEnabled
       exerciseIntervalMs exerciseExpectedAt exerciseRemainingMs
       exerciseStatsDate exerciseStatsPushUps exerciseStatsSitUps
       exerciseStatsSquats mergeUpdates].

Ltac enforce_fields :=
  repeat (rewrite ?enforce_currentTask, ?enforce_isInFlow,
            ?enforce_breakReminderEnabled, ?enforce_reminderStartTime,
            ?enforce_reminderInterval, ?enforce_reminderExpectedEndTime;
          progress proj_cbn).

Ltac settle_patched :=
  repeat match goal with
  | |- context [patched ?p ?k ?n _] =>
      let H := fresh "H" in
      destruct (patched_constOrId p k n ltac:(auto with norm)) as [[? H] | H];
      rewrite !H
  end.

Ltac bool_cbn := cbn [Str.truthy negb andb orb isNullish].

Ltac split_cases :=
  bool_cbn;
  repeat match goal with
  | |- context [Str.truthy ?x] => is_var x; destruct x; bool_cbn
  | |- context [if ?b then _ else _] => is_var b; destruct b; bool_cbn
  | |- context [isNullish ?x] => is_var x; destruct x; bool_cbn
  | |- context [andb ?b _] => is_var b; destruct b; bool_cbn
  end.

Lemma enforce_merge_idem s p :
  let a := enforceStateValidity (mergeUpdates s p) in
  enforceStateValidity (mergeUpdates a p) = a.
Proof.
  intros a; subst a. destruct s. apply State_ext; enforce_fields;
    unfold enforceStateValidity; proj_cbn;
    settle_patched; split_cases; rewrite ?saneCounter_idem; reflexivity.
Qed.

Lemma compute_idem (s : State) (p : value) :
  computeNextState (computeNextState s p) p = computeNextState s p.
Proof.
  unfold computeNextState.
  destruct (negb (Js.truthy p) || negb (Js.isObject p)); [reflexivity|].
  apply enforce_merge_idem.
Qed.

(** ** The delta of two states *)

Lemma assoc_list_to_map (l : list (string * value)) (k : string) :
  default VUndefined ((list_to_map l : gmap string value) !! k) = assoc k l.
Proof.
  induction l as [|[k' v] l IH]; simpl; [by rewrite lookup_empty|].
  destruct (String.eqb_spec k k') as [->|Hne].
  - by rewrite lookup_insert_eq.
  - rewrite lookup_insert_ne; [exact IH|congruence].
Qed.

Lemma get_toValue (s : State) (k : string) : Js.get (toValue s) k = stateGet s k.
Proof. apply assoc_list_to_map. Qed.

Lemma foldl_diffKey_lookup prev next keys : forall delta k,
  foldl (diffKey prev next) delta keys !! k =
  if bool_decide (k ∈ keys) && valueChanged (Js.get prev k) (stateGet next k)
  then Some (stateGet next k) else delta !! k.
Proof.
  induction keys as [|key keys IH]; intros delta k; simpl; [reflexivity|].
  rewrite IH. unfold diffKey.
  destruct (decide (k = key)) as [->|Hne].
  - rewrite (bool_decide_eq_true_2 (key ∈ key :: keys)) by apply list_elem_of_here.
    destruct (valueChanged (Js.get prev key) (stateGet next key)).
    + rewrite lookup_insert_eq. by destruct (bool_decide _).
    + by rewrite andb_false_r.
  - assert (bool_decide (k ∈ key :: keys) = bool_decide (k ∈ keys)) as ->.
    { apply bool_decide_ext. rewrite elem_of_cons. intuition congruence. }
    destruct (bool_decide (k ∈ keys) && _); [reflexivity|].
    destruct (valueChanged _ _); [by rewrite lookup_insert_ne|reflexivity].
Qed.

Lemma diffState_lookup (prev next : State) (k : string) :
  diffState (toValue prev) next !! k =
  if bool_decide (k ∈ STATE_KEYS) && valueChanged (stateGet prev k) (stateGet next k)
  then Some (stateGet next k) else None.
Proof.
  unfold diffState. cbn [toValue Js.obj Js.truthy Js.isObject andb].
  rewrite foldl_diffKey_lookup, lookup_empty. fold (Js.obj (entries prev)).
  fold (toValue prev). by rewrite get_toValue.
Qed.

Lemma num_eq_refl (n : number) : Num.isNaN n = false -> Num.eq n n = true.
Proof.
  unfold Num.eq, SFeqb, SFcompare.
  destruct n as [[|]|[|]| |[|] m e]; simpl; try reflexivity; try discriminate;
    intros _; rewrite Z.compare_refl, Pos.compare_cont_refl; reflexivity.
Qed.

Lemma allStrictEq_strings (x y : list string) :
  length x = length y ->
  allStrictEq (map VStr x) (map VStr y) = true <-> x = y.
Proof.
  revert y. induction x as [|a x IH]; intros [|b y]; simpl; try discriminate.
  - intros _. split; reflexivity.
  - intros Hlen. injection Hlen as Hlen.
    rewrite andb_true_iff, (IH y Hlen). split.
    + intros [Hab ->]. apply String.eqb_eq in Hab. by subst.
    + intros [= -> ->]. split; [apply String.eqb_refl|reflexivity].
Qed.

Lemma map_VStr_inj (x y : list string) : map VStr x = map VStr y -> x = y.
Proof.
  revert y. induction x as [|a x IH]; intros [|b y]; simpl; try discriminate; auto.
  intros [= -> H]. f_equal. auto.
Qed.

Lemma unchanged_strings (x y : list string) :
  valueChanged (ofStrings x) (ofStrings y) = false <-> x = y.
Proof.
  unfold valueChanged, ofStrings, areStringArraysEqual. cbn [Js.isArray].
  rewrite negb_false_iff, andb_true_iff, !length_map, Nat.eqb_eq. split.
  - intros [Hlen H]. by apply allStrictEq_strings.
  - intros ->. split; [reflexivity|]. by apply allStrictEq_strings.
Qed.

Lemma unchanged_str (x y : string) :
  valueChanged (VStr x) (VStr y) = false <-> x = y.
Proof. unfold valueChanged; simpl. rewrite negb_false_iff. apply String.eqb_eq. Qed.

Lemma unchanged_bool (x y : bool) :
  valueChanged (VBool x) (VBool y) = false <-> x = y.
Proof. unfold valueChanged; destruct x, y; simpl; split; congruence. Qed.

Lemma unchanged_num (x y : number) :
  valueChanged (VNum x) (VNum y) = false <-> Num.eq x y = true.
Proof. unfold valueChanged; simpl. apply negb_false_iff. Qed.

Lemma unchanged_nullable (x y : option number) :
  valueChanged (ofNumberOrNull x) (ofNumberOrNull y) = false
  <-> sameValue (ofNumberOrNull x) (ofNumberOrNull y).
Proof.
  destruct x, y; simpl; try apply unchanged_num; unfold valueChanged; simpl;
    split; intros; try discriminate; try tauto.
Qed.

Lemma unchanged_nullable_str (x y : option string) :
  valueChanged (ofStringOrNull x) (ofStringOrNull y) = false
  <-> sameValue (ofStringOrNull x) (ofStringOrNull y).
Proof.
  destruct x, y; simpl; try apply unchanged_str; unfold valueChanged; simpl;
    split; intros; try discriminate; try tauto.
Qed.

Lemma stateGet_unknown (s : State) (k : string) :
  k ∉ STATE_KEYS -> stateGet s k = VUndefined.
Proof.
  intros Hk. unfold stateGet, entries. cbn [assoc].
  repeat match goal with
  | |- context [String.eqb k ?lit] =>
      destruct (String.eqb_spec k lit) as [->|_];
      [ exfalso; apply Hk; apply list_elem_of_In; simpl; tauto | ]
  end.
  reflexivity.
Qed.

Ltac each_key H :=
  repeat (apply elem_of_cons in H as [->|H]); [..|by apply elem_of_nil in H].

(** [diffState] takes two fields to differ exactly when they are not the
    same value. *)
Lemma unchanged_iff_same (prev next : State) (k : string) :
  valueChanged (stateGet prev k) (stateGet next k) = false
  <-> sameValue (stateGet prev k) (stateGet next k).
Proof.
  destruct (decide (k ∈ STATE_KEYS)) as [Hk|Hk].
  - unfold STATE_KEYS in Hk. each_key Hk; unfold stateGet; cbn [assoc entries String.eqb Ascii.eqb Bool.eqb];
      first [ apply unchanged_str | apply unchanged_bool | apply unchanged_num
            | apply unchanged_nullable | apply unchanged_nullable_str
            | rewrite unchanged_strings; unfold ofStrings; simpl; split;
              [ congruence | intros [= H]; by apply map_VStr_inj ] ].
  - rewrite !stateGet_unknown by assumption. simpl. tauto.
Qed.

(** ** Numbers that can be compared *)

Lemma notNaN_normalizeNumberOrNull v f :
  notNaN f = true -> notNaN (normalizeNumberOrNull v f) = true.
Proof.
  intros Hf. destruct v as [| | |n| | |]; simpl; auto.
  destruct n as [[|]|[|]| |[|] m e]; simpl; auto.
Qed.

Lemma notNaN_normalizeIntervalMs v f :
  notNaN f = true -> notNaN (normalizeIntervalMs v f) = true.
Proof.
  intros Hf. destruct v as [| | |n| | |]; simpl; auto.
  destruct (Num.isFinite n) eqn:Hn; simpl; auto.
  destruct (Num.lt n MIN_INTERVAL_MS || Num.gt n MAX_INTERVAL_MS); auto.
  destruct n; simpl in *; auto; discriminate.
Qed.

Lemma patched_preserves {A} (P : A -> Prop) p k (norm : value -> A -> A) cur :
  (forall v f, P f -> P (norm v f)) -> P cur -> P (patched p k norm cur).
Proof. intros H Hc. unfold patched. destruct (Js.hasKey p k); auto. Qed.

Lemma saneCounter_notNaN n : Num.isNaN (saneCounter n) = false.
Proof. destruct n as [[|]|[|]| |[|] m e]; reflexivity. Qed.

Ltac and_bools :=
  repeat match goal with
  | H : _ && _ = true |- _ => apply andb_true_iff in H as [? ?]
  | |- _ && _ = true => apply andb_true_iff; split
  end.

Lemma enforce_comparable t :
  timesComparable t = true -> numbersComparable (enforceStateValidity t) = true.
Proof.
  unfold numbersComparable, timesComparable. intros H.
  unfold enforceStateValidity; proj_cbn. rewrite !saneCounter_notNaN.
  and_bools; auto;
    repeat match goal with |- context [if ?b then _ else _] => destruct b end;
    auto.
Qed.

Lemma merge_timesComparable s p :
  timesComparable s = true -> timesComparable (mergeUpdates s p) = true.
Proof.
  unfold timesComparable; proj_cbn. intros H. and_bools;
    apply (patched_preserves (fun o => notNaN o = true));
    auto using notNaN_normalizeNumberOrNull, notNaN_normalizeIntervalMs.
Qed.

Lemma sanitize_comparable raw : numbersComparable (sanitizeStoredState raw) = true.
Proof.
  apply enforce_comparable. unfold timesComparable; proj_cbn.
  and_bools;
    auto using notNaN_normalizeNumberOrNull, notNaN_normalizeIntervalMs.
Qed.

Lemma compute_comparable s p :
  numbersComparable s = true -> numbersComparable (computeNextState s p) = true.
Proof.
  intros H. unfold computeNextState.
  destruct (negb (Js.truthy p) || negb (Js.isObject p)); [exact H|].
  apply enforce_comparable, merge_timesComparable.
  unfold numbersComparable in H. by and_bools.
Qed.

(** Every state of the runtime has comparable numbers. *)
Lemma reached_comparable raw patches : numbersComparable (reached raw patches) = true.
Proof.
  unfold reached. generalize (sanitize_comparable raw).
  generalize (sanitizeStoredState raw). induction patches as [|p ps IH]; simpl; auto.
  intros s Hs. apply IH. by apply compute_comparable.
Qed.

Lemma sameValue_refl_field (s : State) (k : string) :
  numbersComparable s = true -> sameValue (stateGet s k) (stateGet s k).
Proof.
  intros H. unfold numbersComparable, timesComparable in H. and_bools.
  destruct (decide (k ∈ STATE_KEYS)) as [Hk|Hk].
  - unfold STATE_KEYS in Hk. each_key Hk; unfold stateGet;
      cbn [assoc entries String.eqb Ascii.eqb Bool.eqb]; try reflexivity;
      try (apply num_eq_refl; by apply negb_true_iff);
      match goal with
      | |- sameValue (ofNumberOrNull ?o) _ =>
          destruct o; simpl in *; try exact I; apply num_eq_refl; by apply negb_true_iff
      | |- sameValue (ofStringOrNull ?o) _ => destruct o; simpl; auto
      end.
  - rewrite stateGet_unknown by assumption. exact I.
Qed.

(** A state does not differ from itself. *)
Lemma diff_self_empty (s : State) :
  numbersComparable s = true -> diffState (toValue s) s = ∅.
Proof.
  intros H. apply map_eq. intros k. rewrite diffState_lookup, lookup_empty.
  assert (valueChanged (stateGet s k) (stateGet s k) = false) as ->.
  { apply unchanged_iff_same. by apply sameValue_refl_field. }
  by rewrite andb_false_r.
Qed.

(** C3: applying an update twice with one patch gives the state of applying
    it once, for every state and every patch; and the delta of the second
    application against the first is empty, for every state whose numeric
    fields hold numbers that equal themselves (none is NaN, the one number
    with [NaN !== NaN]), hence for every state of the runtime. *)
Theorem update_idempotent :
  (forall (s : State) (p : value),
      computeNextState (computeNextState s p) p = computeNextState s p)
  /\ (forall (s : State) (p : value),
        numbersComparable s = true ->
        diffState (toValue (computeNextState s p))
          (computeNextState (computeNextState s p) p) = ∅)
  /\ (forall (raw : value) (patches : list value) (p : value),
        let s := reached raw patches in
        diffState (toValue (computeNextState s p))
          (computeNextState (computeNextState s p) p) = ∅).
Proof.
  assert (forall s p, numbersComparable s = true ->
            diffState (toValue (computeNextState s p))
              (computeNextState (computeNextState s p) p) = ∅) as Hd.
  { intros s p H. rewrite compute_idem. apply diff_self_empty.
    by apply compute_comparable. }
  split_and!; [apply compute_idem|exact Hd|].
  intros raw patches p s. apply Hd, reached_comparable.
Qed.

Lemma update_idempotent_witness :
  let s := mkState "write report" false true false false false ["a.com"] []
             None None None (Some (Num.ofZ 1700000000000)) true None None None
             (Some "2024-01-01") (Num.ofZ 3) Num.zero Num.zero in
  let p := Js.obj [("isInFlow", VBool true);
                   ("distractingSites", VArr [VStr "https://WWW.Example.com/path?x=1"])] in
  numbersComparable s = true
  /\ diffState (toValue (computeNextState s p))
       (computeNextState (computeNextState s p) p) = ∅.
Proof.
  intros s p. split; [reflexivity|].
  apply (proj1 (proj2 update_idempotent) s p). reflexivity.
Defined.

(** C5: the delta holds a key exactly when it is a field of the state whose
    value in [next] is not the same value as in [prev], and it holds the
    value of [next]; site lists are compared by their elements, so two
    lists with equal elements never differ; on the two states of the
    repository's test, with equal lists in distinct arrays, the delta is
    empty. *)
Theorem diff_exact :
  (forall (prev next : State) (k : string) (v : value),
      diffState (toValue prev) next !! k = Some v <->
      k ∈ STATE_KEYS /\ v = stateGet next k
      /\ ~ sameValue (stateGet prev k) (stateGet next k))
  /\ (forall prev next : State,
        diffState (toValue prev) next !! "distractingSites" = None
        <-> prev.(distractingSites) = next.(distractingSites))
  /\ (forall prev next : State,
        diffState (toValue prev) next !! "deepWorkBlockedSites" = None
        <-> prev.(deepWorkBlockedSites) = next.(deepWorkBlockedSites))
  /\ diffState
       (toValue (mkState "" false true false false false ["facebook.com"]
                   DEFAULT_DEEPWORK_BLOCKED_SITES None None None None true None
                   None None None Num.zero Num.zero Num.zero))
       (mkState "" false true false false false ["facebook.com"]
          DEFAULT_DEEPWORK_BLOCKED_SITES None None None None true None
          None None None Num.zero Num.zero Num.zero) = ∅.
Proof.
  split_and!.
  - intros prev next k v. rewrite diffState_lookup.
    pose proof (unchanged_iff_same prev next k) as Hsame.
    destruct (valueChanged (stateGet prev k) (stateGet next k)).
    + rewrite andb_true_r. case_bool_decide as Hk.
      * split; [intros [= <-]|intros (_ & -> & _); reflexivity].
        split_and!; auto. intros Hs. apply Hsame in Hs. discriminate.
      * split; [discriminate|]. intros (Hk' & _). contradiction.
    + rewrite andb_false_r. split; [discriminate|].
      intros (_ & _ & Hn). exfalso. apply Hn, Hsame. reflexivity.
  - intros prev next. rewrite diffState_lookup.
    change (stateGet prev "distractingSites") with (ofStrings prev.(distractingSites)).
    change (stateGet next "distractingSites") with (ofStrings next.(distractingSites)).
    rewrite <- unchanged_strings.
    destruct (valueChanged _ _); [|by rewrite andb_false_r].
    rewrite bool_decide_eq_true_2; [simpl; split; discriminate|].
    apply list_elem_of_In; simpl; tauto.
  - intros prev next. rewrite diffState_lookup.
    change (stateGet prev "deepWorkBlockedSites")
      with (ofStrings prev.(deepWorkBlockedSites)).
    change (stateGet next "deepWorkBlockedSites")
      with (ofStrings next.(deepWorkBlockedSites)).
    rewrite <- unchanged_strings.
    destruct (valueChanged _ _); [|by rewrite andb_false_r].
    rewrite bool_decide_eq_true_2; [simpl; split; discriminate|].
    apply list_elem_of_In; simpl; tauto.
  - apply diff_self_empty. reflexivity.
Qed.

(** ** Patches without a known field *)

Lemma merge_namesNoField (s : State) (p : value) :
  namesNoField p -> mergeUpdates s p = s.
Proof.
  intros Hp. destruct s. unfold mergeUpdates, patched; proj_cbn.
  rewrite !Hp by (apply list_elem_of_In; simpl; tauto). reflexivity.
Qed.

Lemma enforce_idem (t : State) :
  enforceStateValidity (enforceStateValidity t) = enforceStateValidity t.
Proof.
  pose proof (enforce_merge_idem t VNull) as H. cbn zeta in H.
  rewrite !(merge_namesNoField _ VNull) in H by (intros k _; reflexivity).
  exact H.
Qed.

(** Every state of the runtime is a fixed point of the invariant step. *)
Lemma reached_fixed raw patches :
  enforceStateValidity (reached raw patches) = reached raw patches.
Proof.
  apply (reached_establishes (fun s => enforceStateValidity s = s)).
  apply enforce_idem.
Qed.

(** C10: on a state of the runtime, [computeNextState] with a patch that is
    not an object, or is an object none of whose keys is a field of the
    schema, is total and returns the same state, and the delta against
    that state is empty. *)
Theorem unknown_patch_changes_nothing (raw : value) (patches : list value) (p : value) :
  Js.truthy p && Js.isObject p = false \/ namesNoField p ->
  let s := reached raw patches in
  computeNextState s p = s /\ diffState (toValue s) (computeNextState s p) = ∅.
Proof.
  intros Hp s.
  assert (computeNextState s p = s) as Heq.
  { destruct Hp as [Hp|Hp]; [by apply compute_not_object|].
    unfold computeNextState.
    destruct (negb (Js.truthy p) || negb (Js.isObject p)); [reflexivity|].
    unfold enforceStateInvariants. rewrite merge_namesNoField by assumption.
    apply reached_fixed. }
  rewrite Heq. split; [reflexivity|]. apply diff_self_empty, reached_comparable.
Qed.

Lemma unknown_patch_changes_nothing_witness :
  let raw := Js.obj [("currentTask", VStr "A"); ("isInFlow", VBool true)] in
  let patches := [Js.obj [("reminderStartTime", VNum (Num.ofZ 1000))]] in
  let p := Js.obj [("theme", VStr "dark"); ("__proto__x", VNull)] in
  let s := reached raw patches in
  computeNextState s p = s /\ diffState (toValue s) (computeNextState s p) = ∅.
Proof.
  intros raw patches p.
  apply (unknown_patch_changes_nothing raw patches p).
  right. intros k Hk. unfold STATE_KEYS in Hk. each_key Hk; reflexivity.
Defined.

(** ** Site lists *)

Lemma hostChar_facts (c : ascii) :
  isHostChar c = true -> Str.lower c = c /\ isUrlDelimiter c = false.
Proof.
  destruct c as [[] [] [] [] [] [] [] []]; vm_compute; intros H;
    first [discriminate | split; reflexivity].
Qed.

Lemma hostChars_facts (h : string) :
  Str.forallb isHostChar h = true ->
  Str.toLowerCase h = h /\ Str.existsb isUrlDelimiter h = false.
Proof.
  induction h as [|c h IH]; simpl; [auto|].
  intros [Hc Hh]%andb_true_iff. destruct (hostChar_facts c Hc) as [-> ->].
  destruct (IH Hh) as [-> ->]. auto.
Qed.

Lemma accepts_validEntry (h : string) : acceptsHostname h = true -> validEntry h.
Proof.
  unfold acceptsHostname, validEntry. intros H.
  repeat match goal with
  | H : _ && _ = true |- _ => apply andb_true_iff in H as [H ?]
  end.
  repeat match goal with
  | H : negb _ = true |- _ => apply negb_true_iff in H
  | H : _ || _ = false |- _ => apply orb_false_iff in H as [? ?]
  end.
  assert (Str.forallb isHostChar h = true) as Hc.
  { unfold matchesHostPattern in *. by and_bools. }
  destruct (hostChars_facts h Hc) as [? ?].
  split_and!; auto. by apply Nat.ltb_ge.
Qed.

Lemma domainLoop_spec (Q : string -> Prop) maxItems items :
  (forall rawValue, VStr rawValue ∈ items ->
     acceptsHostname (entryOf rawValue) = true -> Q (entryOf rawValue)) ->
  forall out seen,
    (forall h, h ∈ seen <-> h ∈ out) -> NoDup out -> Forall Q out ->
    let r := domainLoop maxItems items out seen in
    NoDup r /\ Forall Q r
    /\ ((length out < maxItems)%nat -> (length r <= maxItems)%nat).
Proof.
  induction items as [|v rest IH]; intros HQ out seen Hseen Hnd Hout; simpl.
  { split_and!; auto. lia. }
  assert (forall rawValue, VStr rawValue ∈ rest ->
            acceptsHostname (entryOf rawValue) = true -> Q (entryOf rawValue)) as HQ'.
  { intros r Hr. apply HQ. by apply list_elem_of_further. }
  specialize (IH HQ').
  destruct v as [| | | |rawValue| |]; try (by apply IH).
  destruct (Str.truthy (Str.toLowerCase (Str.trim rawValue))); simpl; [|by apply IH].
  fold (entryOf rawValue).
  destruct (acceptsHostname (entryOf rawValue)) eqn:Hacc; simpl; [|by apply IH].
  case_bool_decide as Hin; [by apply IH|].
  assert (NoDup (out ++ [entryOf rawValue])) as Hnd'.
  { apply NoDup_app. split_and!; auto.
    - intros x Hx [->|[]%elem_of_nil]%elem_of_cons. apply Hin, Hseen, Hx.
    - apply NoDup_singleton. }
  assert (Forall Q (out ++ [entryOf rawValue])) as Hout'.
  { apply Forall_app. split; auto. apply Forall_singleton, HQ; auto.
    apply list_elem_of_here. }
  destruct (maxItems <=? length (out ++ [entryOf rawValue]))%nat eqn:Hcap.
  - split_and!; auto. rewrite length_app. simpl. lia.
  - apply Nat.leb_gt in Hcap.
    destruct (IH (out ++ [entryOf rawValue])%list ({[entryOf rawValue]} ∪ seen))
      as (H1 & H2 & H3); auto.
    intros h. rewrite elem_of_union, elem_of_singleton, elem_of_app,
      list_elem_of_singleton, Hseen. tauto.
Qed.

Lemma ascii_compare_N (x y : ascii) :
  Ascii.compare x y = N.compare (N_of_ascii x) (N_of_ascii y).
Proof. reflexivity. Qed.

Lemma string_leb_trans (a b c : string) :
  String.leb a b = true -> String.leb b c = true -> String.leb a c = true.
Proof.
  unfold String.leb. revert b c.
  induction a as [|x a IH]; intros [|y b] [|z c]; simpl; try congruence.
  rewrite !ascii_compare_N.
  destruct (N.compare_spec (N_of_ascii x) (N_of_ascii y)) as [Hxy|Hxy|Hxy];
    destruct (N.compare_spec (N_of_ascii y) (N_of_ascii z)) as [Hyz|Hyz|Hyz];
    try congruence;
    destruct (N.compare_spec (N_of_ascii x) (N_of_ascii z)) as [Hxz|Hxz|Hxz];
    try congruence; try lia.
  apply IH.
Qed.

#[global] Instance str_le_total : Total str_le.
Proof. intros a b. apply String.leb_total. Qed.

#[global] Instance str_le_trans : Transitive str_le.
Proof. intros a b c. apply string_leb_trans. Qed.

#[global] Instance str_le_antisym : AntiSymm (=) str_le.
Proof. intros a b. apply String.leb_antisym. Qed.

Lemma sortStrings_perm (l : list string) : sortStrings l ≡ₚ l.
Proof. apply merge_sort_Permutation. Qed.

Lemma sortStrings_sorted (l : list string) : Sorted str_le (sortStrings l).
Proof. apply Sorted_merge_sort, _. Qed.

(** The list that [out.sort()] returns is the one sorted arrangement of
    [out]. *)
Lemma sortStrings_unique (l l' : list string) :
  Sorted str_le l' -> l' ≡ₚ l -> l' = sortStrings l.
Proof.
  intros Hs Hp. apply (Sorted_unique str_le); auto using sortStrings_sorted.
  by rewrite sortStrings_perm.
Qed.

Lemma normalizeDomainList_array (Q : string -> Prop) items fallback :
  (forall rawValue, VStr rawValue ∈ items ->
     acceptsHostname (entryOf rawValue) = true -> Q (entryOf rawValue)) ->
  let l := normalizeDomainList (VArr items) fallback MAX_SITE_LIST_ITEMS in
  Forall Q l /\ NoDup l /\ Sorted str_le l /\ (length l <= MAX_SITE_LIST_ITEMS)%nat.
Proof.
  intros HQ. simpl.
  destruct (domainLoop_spec Q MAX_SITE_LIST_ITEMS items HQ [] ∅) as (Hnd & HQs & Hlen).
  { intros h. rewrite elem_of_nil. set_solver. }
  { constructor. }
  { constructor. }
  split_and!.
  - by rewrite sortStrings_perm.
  - by rewrite sortStrings_perm.
  - apply sortStrings_sorted.
  - rewrite sortStrings_perm. apply Hlen. unfold MAX_SITE_LIST_ITEMS. simpl. lia.
Qed.




Lemma normalizeDomainList_normalized items fallback :
  normalizedList (normalizeDomainList (VArr items) fallback MAX_SITE_LIST_ITEMS).
Proof.
  destruct (normalizeDomainList_array validEntry items fallback) as (H1 & H2 & H3 & H4).
  { intros r _. apply accepts_validEntry. }
  repeat split; assumption.
Qed.

Lemma default_lists_clean :
  cleanList DEFAULT_DISTRACTING_SITES /\ cleanList DEFAULT_DEEPWORK_BLOCKED_SITES.
Proof.
  unfold DEFAULT_DISTRACTING_SITES, DEFAULT_DEEPWORK_BLOCKED_SITES.
  split; (split_and!;
    [ repeat (apply Forall_cons_2; [apply accepts_validEntry; vm_compute; reflexivity|]);
      apply Forall_nil_2
    | refine (bool_decide_unpack (NoDup _) _); vm_compute; exact I
    | vm_compute; lia ]).
Qed.

Lemma normalizeSites_clean v fallback :
  cleanList fallback -> cleanList (normalizeSites v fallback).
Proof.
  intros Hf. destruct v; try exact Hf. apply normalizeDomainList_normalized.
Qed.

Lemma reached_lists_clean raw patches :
  cleanList (reached raw patches).(distractingSites)
  /\ cleanList (reached raw patches).(deepWorkBlockedSites).
Proof.
  unfold reached.
  assert (cleanList (sanitizeStoredState raw).(distractingSites)
          /\ cleanList (sanitizeStoredState raw).(deepWorkBlockedSites)) as H0.
  { destruct default_lists_clean. split; by apply normalizeSites_clean. }
  revert H0. generalize (sanitizeStoredState raw).
  induction patches as [|p ps IH]; intros s [H1 H2]; simpl; [auto|].
  apply IH. unfold computeNextState.
  destruct (negb (Js.truthy p) || negb (Js.isObject p)); [auto|].
  unfold enforceStateInvariants, enforceStateValidity; proj_cbn.
  split; apply (patched_preserves cleanList); auto using normalizeSites_clean.
Qed.

Lemma hostChar_not_space (c : ascii) : isHostChar c = true -> Str.is_space c = false.
Proof.
  destruct c as [[] [] [] [] [] [] [] []]; vm_compute; intros H;
    first [discriminate | reflexivity].
Qed.

Lemma hostChars_no_space (h : string) :
  Str.forallb isHostChar h = true -> Str.existsb Str.is_space h = false.
Proof.
  induction h as [|c h IH]; simpl; [auto|].
  intros [Hc Hh]%andb_true_iff. by rewrite (hostChar_not_space c Hc), IH.
Qed.

Lemma trimStart_no_space (h : string) :
  Str.existsb Str.is_space h = false -> Str.trimStart h = h.
Proof.
  destruct h as [|c r]; [reflexivity|]. simpl. intros [-> _]%orb_false_iff. reflexivity.
Qed.

Lemma trimEnd_no_space (h : string) :
  Str.existsb Str.is_space h = false -> Str.trimEnd h = h.
Proof.
  induction h as [|c r IH]; [reflexivity|]. simpl. intros [Hc Hr]%orb_false_iff.
  rewrite (IH Hr), Hc. by destruct r.
Qed.

Lemma trim_no_space (h : string) :
  Str.existsb Str.is_space h = false -> Str.trim h = h.
Proof.
  intros H. unfold Str.trim. rewrite (trimStart_no_space h H). by apply trimEnd_no_space.
Qed.

Lemma prefix_app (p h : string) :
  String.prefix p h = true -> exists r, h = (p ++ r)%string.
Proof.
  revert h. induction p as [|a p IH]; intros h; [by exists h|].
  destruct h as [|b h]; cbn [String.prefix]; [discriminate|].
  destruct (ascii_dec a b) as [->|]; [|discriminate].
  intros [r ->]%IH. by exists r.
Qed.

Lemma stripScheme_no_delimiter (h : string) :
  Str.existsb isUrlDelimiter h = false -> Str.stripScheme h = h.
Proof.
  intros H. unfold Str.stripScheme, Str.stripPrefix.
  destruct (String.prefix "https://" h) eqn:H1.
  { apply prefix_app in H1 as [r ->]. vm_compute in H. discriminate. }
  destruct (String.prefix "http://" h) eqn:H2; [|reflexivity].
  apply prefix_app in H2 as [r ->]. vm_compute in H. discriminate.
Qed.

Lemma beforeFirst_absent (c : ascii) (h : string) :
  isUrlDelimiter c = true -> Str.existsb isUrlDelimiter h = false ->
  Str.beforeFirst c h = h.
Proof.
  intros Hc. induction h as [|d r IH]; [reflexivity|]. simpl.
  intros [Hd Hr]%orb_false_iff. destruct (Ascii.eqb_spec d c) as [->|_]; [congruence|].
  by rewrite IH.
Qed.

Lemma hostnameOf_fixed (h : string) :
  Str.existsb isUrlDelimiter h = false -> Str.startsWith h "www." = false ->
  hostnameOf h = h.
Proof.
  intros Hd Hw. unfold hostnameOf. rewrite (stripScheme_no_delimiter h Hd).
  rewrite (beforeFirst_absent "/" h), (beforeFirst_absent "?" h),
    (beforeFirst_absent "#" h) by (exact Hd || reflexivity).
  unfold Str.stripPrefix. unfold Str.startsWith in Hw. by rewrite Hw.
Qed.

Lemma validEntry_accepts (h : string) : validEntry h -> acceptsHostname h = true.
Proof.
  intros (Hp & Hl & Hd & Hdot & Hs & He & Hdd & Hlen). unfold acceptsHostname.
  pose proof Hp as Hp'. unfold matchesHostPattern in Hp'.
  apply andb_true_iff in Hp' as [Ht Hc].
  rewrite Ht, Hdot, Hs, He, Hdd, Hp, (hostChars_no_space h Hc).
  assert ((253 <? String.length h)%nat = false) as -> by (apply Nat.ltb_ge; exact Hlen).
  reflexivity.
Qed.

(** An entry that does not start with "www." stands for itself. *)
Lemma entry_fixed (h : string) :
  validEntry h -> Str.startsWith h "www." = false ->
  entryOf h = h /\ Str.toLowerCase (Str.trim h) = h.
Proof.
  intros Hv Hw. pose proof Hv as (Hp & Hl & Hd & _).
  unfold matchesHostPattern in Hp. apply andb_true_iff in Hp as [Ht Hc].
  assert (Str.toLowerCase (Str.trim h) = h) as Hraw.
  { by rewrite (trim_no_space h (hostChars_no_space h Hc)). }
  split; [|exact Hraw]. unfold entryOf. rewrite Hraw. by apply hostnameOf_fixed.
Qed.








(** ** The intent gate *)

Lemma endsWith_suffix (h p : string) :
  Str.endsWith h p = true <-> exists pre, h = pre ++ p.
Proof.
  split.
  - induction h as [|c r IH]; cbn [Str.endsWith].
    + destruct (String.eqb_spec "" p) as [<-|]; [|intros; discriminate].
      by exists "".
    + destruct (String.eqb_spec (String c r) p) as [<-|]; [by exists ""|].
      intros [pre ->]%IH. by exists (String c pre).
  - intros [pre ->]. induction pre as [|c pre IH].
    + change ("" ++ p) with p.
      destruct p; cbn [Str.endsWith]; by rewrite String.eqb_refl.
    + change (String c pre ++ p) with (String c (pre ++ p)).
      cbn [Str.endsWith]. rewrite IH. by destruct (String.eqb _ p).
Qed.

Lemma siteMatches_hostUnder (host site : string) :
  siteMatches host (VStr site) = true
  <-> hostUnder host (normalizeHostnameForComparison (VStr site)).
Proof.
  unfold siteMatches, hostUnder.
  destruct (normalizeHostnameForComparison (VStr site)) as [|c s] eqn:Hs.
  - simpl. split; [discriminate|]. intros [? _]. congruence.
  - cbn [Str.truthy negb]. rewrite orb_true_iff, String.eqb_eq, endsWith_suffix.
    split; [intros H; split; [discriminate|exact H]|intros [_ H]; exact H].
Qed.

Lemma hostUnder_nonempty (host site : string) : hostUnder host site -> host <> "".
Proof.
  intros [Hs [->|[sub ->]]]; [exact Hs|]. destruct sub; discriminate.
Qed.

(** The normaliser of the code gives the comparison form, and nothing else
    is one. *)
Lemma comparisonForm_normalized (text : string) :
  comparisonForm text (normalizeHostnameForComparison (VStr text)).
Proof.
  unfold comparisonForm, normalizeHostnameForComparison, Str.stripPrefix, Str.startsWith.
  set (plain := Str.toLowerCase (Str.trim text)).
  destruct (String.prefix "www." plain) eqn:Hp.
  - left. apply prefix_app in Hp as [r ->]. reflexivity.
  - right. split; reflexivity.
Qed.

Lemma comparisonForm_unique (text form : string) :
  comparisonForm text form -> form = normalizeHostnameForComparison (VStr text).
Proof.
  unfold comparisonForm, normalizeHostnameForComparison, Str.stripPrefix, Str.startsWith.
  set (plain := Str.toLowerCase (Str.trim text)).
  intros [->|[-> ->]]; [|reflexivity].
  by destruct form.
Qed.

Lemma isHostnameInList_matches (h : string) (sites : list string) :
  isHostnameInList (VStr h) (ofStrings sites) = true
  <-> matchesList (normalizeHostnameForComparison (VStr h)) sites.
Proof.
  unfold isHostnameInList, matchesList, ofStrings.
  set (host := normalizeHostnameForComparison (VStr h)).
  assert (List.existsb (siteMatches host) (map VStr sites) = true
          <-> exists site form, site ∈ sites /\ comparisonForm site form
                                /\ hostUnder host form) as Hex.
  { rewrite existsb_exists. split.
    - intros (v & Hv & Hm). apply in_map_iff in Hv as (site & <- & Hin).
      exists site, (normalizeHostnameForComparison (VStr site)).
      split_and!; [by apply list_elem_of_In|apply comparisonForm_normalized|].
      by apply siteMatches_hostUnder.
    - intros (site & form & Hin & Hf & Hu). exists (VStr site). split.
      + apply in_map. by apply list_elem_of_In.
      + apply siteMatches_hostUnder. by rewrite <- (comparisonForm_unique site form Hf). }
  destruct (Str.truthy host) eqn:Hh; cbn [negb].
  - destruct (length (map VStr sites) =? 0)%nat eqn:Hlen; [|exact Hex].
    apply Nat.eqb_eq in Hlen. rewrite length_map in Hlen.
    destruct sites; [|discriminate]. split; [discriminate|].
    intros (site & form & Hin & _). by apply elem_of_nil in Hin.
  - split; [discriminate|]. intros (site & form & _ & _ & Hu).
    apply hostUnder_nonempty in Hu. destruct host; [congruence|discriminate].
Qed.

Lemma matchesList_nonempty (host : string) (sites : list string) :
  matchesList host sites -> host <> "".
Proof. intros (site & form & _ & _ & Hu). by apply hostUnder_nonempty in Hu. Qed.

Lemma String_length_app (a b : string) :
  String.length (a ++ b) = (String.length a + String.length b)%nat.
Proof.
  induction a as [|c a IH]; [reflexivity|].
  change (String c a ++ b) with (String c (a ++ b)). cbn [String.length]. by rewrite IH.
Qed.

(** C8, as amended: for a URL with the scheme http or https that the
    platform parses, the match reports the comparison form of its host
    name (trimmed, lowercased, less one leading "www."), and the empty
    name with no gate for every other URL.  [isHostnameInList] takes the
    comparison form of the reported name once more, and of every entry of
    the list: the match gates exactly when that form of the name is the
    comparison form of an entry of the distraction list or a subdomain of
    it, or the state is in flow and the same holds for the focus-session
    list; out of flow the focus-session list gates nothing.  For the state
    with [isInFlow] false and [distractingSites] ["facebook.com"], a URL
    that the platform parses to the host "m.facebook.com" gives hostname
    "m.facebook.com" and [shouldGate] true. *)
Theorem intent_gate_match (urlHostname : string -> option string) :
  (forall (url : value) (s : State),
      let m := getIntentGateMatch urlHostname url (toValue s) in
      (forall u parsed,
          url = VStr u ->
          Str.startsWith u "http://" || Str.startsWith u "https://" = true ->
          urlHostname u = Some parsed ->
          comparisonForm parsed m.(hostname))
      /\ ((forall u, url = VStr u ->
             Str.startsWith u "http://" || Str.startsWith u "https://" = false
             \/ urlHostname u = None) ->
          m = mkGateMatch "" false false)
      /\ (forall host, comparisonForm m.(hostname) host ->
            (m.(shouldGate) = true <->
             matchesList host s.(distractingSites)
             \/ (s.(isInFlow) = true /\ matchesList host s.(deepWorkBlockedSites)))
            /\ (m.(isDeepWorkBlocked) = true <->
                s.(isInFlow) = true /\ matchesList host s.(deepWorkBlockedSites))
            /\ (s.(isInFlow) = false ->
                m.(isDeepWorkBlocked) = false
                /\ (m.(shouldGate) = true <-> matchesList host s.(distractingSites)))))
  /\ (urlHostname "https://m.facebook.com/x" = Some "m.facebook.com" ->
      let state := Js.obj [("isInFlow", VBool false);
                           ("distractingSites", VArr [VStr "facebook.com"])] in
      let m := getIntentGateMatch urlHostname (VStr "https://m.facebook.com/x") state in
      m.(shouldGate) = true /\ m.(hostname) = "m.facebook.com"
      /\ m.(isDeepWorkBlocked) = false).
Proof.
  split.
  - intros url s. cbv zeta.
    assert (forall u parsed,
               url = VStr u ->
               Str.startsWith u "http://" || Str.startsWith u "https://" = true ->
               urlHostname u = Some parsed ->
               getHostnameFromUrl urlHostname url
               = normalizeHostnameForComparison (VStr parsed)) as Hparsed.
    { intros u parsed -> Hscheme Hurl. unfold getHostnameFromUrl.
      rewrite Hurl. apply orb_true_iff in Hscheme as [-> | ->]; cbn [negb andb];
        [reflexivity|]. by rewrite andb_false_r. }
    assert ((forall u, url = VStr u ->
               Str.startsWith u "http://" || Str.startsWith u "https://" = false
               \/ urlHostname u = None) ->
            getHostnameFromUrl urlHostname url = "") as Hnone.
    { intros H. unfold getHostnameFromUrl. destruct url as [| | | |u| |]; try reflexivity.
      destruct (H u eq_refl) as [[-> ->]%orb_false_iff| ->]; [reflexivity|].
      by destruct (negb _ && negb _). }
    unfold getIntentGateMatch.
    cbn [toValue Js.obj Js.truthy Js.isObject andb].
    fold (Js.obj (entries s)). fold (toValue s). rewrite !get_toValue.
    change (stateGet s "distractingSites") with (ofStrings s.(distractingSites)).
    change (stateGet s "deepWorkBlockedSites") with (ofStrings s.(deepWorkBlockedSites)).
    change (stateGet s "isInFlow") with (VBool s.(isInFlow)).
    unfold arrayOrEmpty, ofStrings at 1 3. cbn [Js.isArray Js.truthy].
    fold (ofStrings s.(distractingSites)). fold (ofStrings s.(deepWorkBlockedSites)).
    destruct (getHostnameFromUrl urlHostname url) as [|c h] eqn:Hhost;
      cbn [Str.truthy negb hostname shouldGate isDeepWorkBlocked].
    + split_and!.
      * intros u parsed Hu Hscheme Hurl.
        pose proof (Hparsed u parsed Hu Hscheme Hurl) as E.
        pose proof (comparisonForm_normalized parsed) as G.
        rewrite <- E in G. exact G.
      * reflexivity.
      * intros host Hform. apply comparisonForm_unique in Hform. subst host.
        assert (forall l, ~ matchesList (normalizeHostnameForComparison (VStr "")) l)
          as Hno.
        { intros l Hl. by apply matchesList_nonempty in Hl. }
        split_and!.
        -- split; [discriminate|]. intros [H|[_ H]]; by apply Hno in H.
        -- split; [discriminate|]. intros [_ H]; by apply Hno in H.
        -- intros _. split; [reflexivity|]. split; [discriminate|].
           intros H; by apply Hno in H.
    + split_and!.
      * intros u parsed Hu Hscheme Hurl.
        pose proof (Hparsed u parsed Hu Hscheme Hurl) as E.
        pose proof (comparisonForm_normalized parsed) as G.
        rewrite <- E in G. exact G.
      * intros H. apply Hnone in H. discriminate.
      * intros host Hform. apply comparisonForm_unique in Hform. subst host.
        pose proof (isHostnameInList_matches (String c h) s.(distractingSites)) as Hd.
        pose proof (isHostnameInList_matches (String c h) s.(deepWorkBlockedSites)) as Hw.
        split_and!.
        -- by rewrite orb_true_iff, andb_true_iff, Hd, Hw.
        -- by rewrite andb_true_iff, Hw.
        -- intros ->. split; [reflexivity|]. cbn [andb]. by rewrite orb_false_r, Hd.
  - intros Hurl. unfold getIntentGateMatch, getHostnameFromUrl.
    cbn [Str.startsWith]. rewrite Hurl. vm_compute. auto.
Qed.

Lemma intent_gate_match_witness :
  let state := Js.obj [("isInFlow", VBool false);
                       ("distractingSites", VArr [VStr "facebook.com"])] in
  let m := getIntentGateMatch plainUrlHostname (VStr "https://m.facebook.com/x") state in
  m.(shouldGate) = true /\ m.(hostname) = "m.facebook.com"
  /\ m.(isDeepWorkBlocked) = false.
Proof.
  apply (proj2 (intent_gate_match plainUrlHostname)). vm_compute. reflexivity.
Defined.

(** C8 as stated fails: the entries of the list are compared in their
    comparison form as well.  The entry "www.b.com" (what normalisation
    leaves of "www.www.b.com") gates the host "b.com", which is neither the
    entry nor a subdomain of it. *)
Lemma entry_with_www_gates_bare_host :
  let state := Js.obj [("isInFlow", VBool false);
                       ("distractingSites", VArr [VStr "www.b.com"])] in
  let m := getIntentGateMatch plainUrlHostname (VStr "https://b.com/") state in
  m.(hostname) = "b.com" /\ m.(shouldGate) = true
  /\ ~ hostUnder "b.com" "www.b.com".
Proof.
  cbv zeta. split_and!; [vm_compute; reflexivity..|].
  intros [_ [H|[sub H]]]; [discriminate|].
  apply (f_equal String.length) in H. rewrite String_length_app in H.
  change (String.length ("." ++ "www.b.com")) with 10%nat in H.
  change (String.length "b.com") with 5%nat in H. lia.
Qed.

(** ** Reading the state from outside *)

Lemma pickKeys_only (allowedKeys : list string) (s : State) (keys : list value) :
  forall k v, pickKeys allowedKeys s keys !! k = Some v ->
              k ∈ allowedKeys /\ v = stateGet s k.
Proof.
  unfold pickKeys.
  assert (forall subset : gmap string value,
            (forall k v, subset !! k = Some v -> k ∈ allowedKeys /\ v = stateGet s k) ->
            forall k v,
              foldl (fun subset k =>
                       match k with
                       | VStr name =>
                           if bool_decide (name ∈ allowedKeys)
                           then <[name := stateGet s name]> subset else subset
                       | _ => subset
                       end) subset keys !! k = Some v ->
              k ∈ allowedKeys /\ v = stateGet s k) as H.
  { induction keys as [|x keys IH]; intros subset Hsub; simpl; [exact Hsub|].
    apply IH. destruct x as [| | | |name| |]; try exact Hsub.
    case_bool_decide as Hname; [|exact Hsub].
    intros k v. destruct (decide (k = name)) as [->|Hne].
    - rewrite lookup_insert_eq. intros [= <-]. auto.
    - rewrite lookup_insert_ne by congruence. apply Hsub. }
  apply H. intros k v. by rewrite lookup_empty.
Qed.

Lemma handleGetState_untrusted (runtimeId : option string)
    (message sender : value) (rt : Runtime) :
  isTrustedExtensionSender runtimeId sender = false ->
  exists response,
    handleGetState runtimeId message sender rt = (VObj response, ensureInitialized rt)
    /\ forall k v, response !! k = Some v ->
         k = "isInFlow" /\ v = VBool (ensureInitialized rt).(state).(isInFlow).
Proof.
  intros Hsender. unfold handleGetState. rewrite Hsender.
  set (rt0 := ensureInitialized rt).
  assert (forall k v, k ∈ UNTRUSTED_STATE_KEYS -> v = stateGet rt0.(state) k ->
            k = "isInFlow" /\ v = VBool rt0.(state).(isInFlow)) as Hone.
  { intros k v Hk%list_elem_of_singleton ->. subst k. auto. }
  eexists. split; [reflexivity|]. intros k v.
  destruct (Js.get message "keys") as [| | | | |keys|];
    try (intros Hk; apply pickKeys_only in Hk as [? ?]; by apply Hone);
    (destruct (Js.get message "key") as [| | | |key| |];
     first
       [ case_bool_decide as Hin;
         [ intros [<- <-]%lookup_singleton_Some; by apply Hone
         | rewrite lookup_empty; discriminate ]
       | cbn [foldl UNTRUSTED_STATE_KEYS];
         intros [[<- <-]|[_ Hk]]%lookup_insert_Some;
         [ auto | by rewrite lookup_empty in Hk ] ]).
Qed.

(** C7: a [getState] request of a sender that is not a trusted page of the
    extension is answered, and the reply is an object with no other key
    than [isInFlow], holding the flag of the state, whatever [keys] or [key]
    the request names. *)
Theorem untrusted_read_is_minimal (runtimeId : option string)
    (message sender : value) (rt : Runtime) :
  isTrustedExtensionSender runtimeId sender = false ->
  Js.get message "action" = VStr "getState" ->
  exists response,
    onMessage runtimeId message sender rt
    = (Some (VObj response), ensureInitialized rt)
    /\ forall k v, response !! k = Some v ->
         k = "isInFlow" /\ v = VBool (ensureInitialized rt).(state).(isInFlow).
Proof.
  intros Hsender Haction.
  destruct (handleGetState_untrusted runtimeId message sender rt Hsender)
    as (response & Hreply & Honly).
  exists response. split; [|exact Honly].
  unfold onMessage. rewrite Haction.
  destruct message as [| | | | |items|props]; try discriminate.
  change (String.eqb "getState" "getState") with true. cbn iota.
  by rewrite Hreply.
Qed.

Lemma untrusted_read_is_minimal_witness :
  let message :=
    Js.obj [("action", VStr "getState");
            ("keys", VArr [VStr "currentTask"; VStr "isInFlow"; VStr "distractingSites"])] in
  let sender := Js.obj [("id", VStr "abcdefgh"); ("url", VStr "https://example.com/")] in
  let rt := startRuntime (list_to_map [("currentTask", VStr "secret"); ("isInFlow", VBool true)]) in
  exists response,
    onMessage (Some "abcdefgh") message sender rt
    = (Some (VObj response), ensureInitialized rt)
    /\ forall k v, response !! k = Some v ->
         k = "isInFlow" /\ v = VBool (ensureInitialized rt).(state).(isInFlow).
Proof.
  intros message sender rt.
  apply (untrusted_read_is_minimal (Some "abcdefgh") message sender rt);
    reflexivity.
Defined.

(** ** The chain of updates *)

Lemma ensureInitialized_done (rt : Runtime) :
  (ensureInitialized rt).(hasInitialized) = true.
Proof. unfold ensureInitialized. by destruct (hasInitialized rt) eqn:H. Qed.

Lemma ensureInitialized_again (rt : Runtime) :
  rt.(hasInitialized) = true -> ensureInitialized rt = rt.
Proof. intros H. unfold ensureInitialized. by rewrite H. Qed.

Lemma ensureInitialized_chain (rt : Runtime) :
  (ensureInitialized rt).(updateChain) = rt.(updateChain)
  /\ (ensureInitialized rt).(persisting) = rt.(persisting)
  /\ (ensureInitialized rt).(broadcasts) = rt.(broadcasts)
  /\ (ensureInitialized rt).(notifications) = rt.(notifications).
Proof. unfold ensureInitialized. by destruct (hasInitialized rt). Qed.

Lemma noKeys_empty (m : gmap string value) : noKeys m = true <-> m = ∅.
Proof. unfold noKeys. rewrite Nat.eqb_eq. apply map_size_empty_iff. Qed.

Lemma tick_idle (rt : Runtime) : idle rt -> tick rt = rt.
Proof. intros [Hc Hp]. unfold tick. by rewrite Hp, Hc. Qed.

Lemma ticks_idle (n : nat) (rt : Runtime) : idle rt -> ticks n rt = rt.
Proof.
  intros H. unfold ticks. induction n as [|n IH]; simpl; [reflexivity|].
  rewrite IH. by apply tick_idle.
Qed.

Lemma ticks_add (n m : nat) (rt : Runtime) :
  ticks (n + m) rt = ticks n (ticks m rt).
Proof. unfold ticks. apply Nat.iter_add. Qed.

Lemma ticks_succ_r (n : nat) (rt : Runtime) : ticks (S n) rt = ticks n (tick rt).
Proof. unfold ticks. by rewrite Nat.iter_succ_r. Qed.

(** The two turns that a job with a non-empty delta takes on a hydrated
    runtime. *)
Lemma ticks_job (rt : Runtime) (updates : value) (rest : list Job) :
  rt.(hasInitialized) = true -> rt.(persisting) = None ->
  rt.(updateChain) = UpdateJob updates :: rest ->
  let next := computeNextState rt.(state) updates in
  let delta := diffState (toValue rt.(state)) next in
  ticks 2 rt =
  if noKeys delta
  then tick (mkRuntime rt.(state) true rt.(storage) rest None
               rt.(notifications) rt.(broadcasts))
  else mkRuntime next true (delta ∪ rt.(storage)) rest None
         (rt.(notifications) ++ [(next, delta)]) (rt.(broadcasts) ++ [delta]).
Proof.
  intros Hi Hp Hc next delta. rewrite ticks_succ_r. unfold ticks. cbn [Nat.iter].
  unfold tick at 2. rewrite Hp, Hc. unfold startJob.
  rewrite ensureInitialized_again by exact Hi. cbn [state].
  fold next. fold delta. rewrite Hi.
  destruct (noKeys delta); [reflexivity|]. reflexivity.
Qed.

(** ** Writing the state from outside *)

Lemma filterPayloadKeys_lookup (payload : value) (k : string) (v : value) :
  filterPayloadKeys payload UI_ALLOWED_UPDATE_KEYS_SET !! k = Some v
  <-> k ∈ UI_ALLOWED_UPDATE_KEYS /\ Js.hasKey payload k = true /\ Js.get payload k = v.
Proof.
  unfold filterPayloadKeys, UI_ALLOWED_UPDATE_KEYS_SET, Js.hasKey, Js.get.
  destruct payload as [| | | | | |props];
    try (rewrite lookup_empty; split; [discriminate|intros (_ & ? & _); discriminate]).
  rewrite map_lookup_filter_Some. cbn [fst]. rewrite elem_of_list_to_set.
  split.
  - intros [Hk Hin]. rewrite Hk. split_and!; [exact Hin| |reflexivity].
    apply bool_decide_eq_true_2. eauto.
  - intros (Hin & Hk & Hv). apply bool_decide_eq_true_1 in Hk as [w Hw].
    rewrite Hw in Hv |- *. simpl in Hv. subst. auto.
Qed.

Lemma timer_keys_not_writable (k : string) :
  k ∈ TIMER_INTERNAL_KEYS -> k ∉ UI_ALLOWED_UPDATE_KEYS.
Proof.
  intros Hk. unfold TIMER_INTERNAL_KEYS in Hk.
  each_key Hk; intros Hin%list_elem_of_In; simpl in Hin; intuition discriminate.
Qed.

Lemma settle_one_update (rt : Runtime) (updates : gmap string value) :
  rt.(hasInitialized) = true -> idle rt ->
  let next := computeNextState rt.(state) (VObj updates) in
  let delta := diffState (toValue rt.(state)) next in
  let rt' := settle (updateState (VObj updates) rt) in
  idle rt'
  /\ rt'.(state) = (if noKeys delta then rt.(state) else next)
  /\ rt'.(broadcasts) = (rt.(broadcasts) ++ if noKeys delta then [] else [delta])%list.
Proof.
  intros Hi [Hc Hp] next delta. unfold settle, updateState.
  cbn [Js.truthy Js.isObject negb orb updateChain]. rewrite Hc. cbn [app length].
  change (2 * 2)%nat with (2 + 2)%nat. rewrite ticks_add.
  rewrite Hi, Hp.
  match goal with
  | |- context [ticks 2 (ticks 2 ?r)] =>
      rewrite (ticks_job r (VObj updates) []) by reflexivity
  end.
  cbn [state storage notifications broadcasts]. fold next. fold delta.
  destruct (noKeys delta).
  - rewrite tick_idle by (split; reflexivity).
    rewrite ticks_idle by (split; reflexivity).
    cbn. split_and!; [split; reflexivity|reflexivity|by rewrite app_nil_r].
  - rewrite ticks_idle by (split; reflexivity).
    cbn. split_and!; [split; reflexivity|reflexivity|reflexivity].
Qed.

(** C6, as amended: the handler of an [updateState] message hydrates the
    runtime and then checks the payload, the sender and the keys, in this
    order.  A payload that is not an object is refused with
    "Invalid payload", whoever sends it; an object from a sender that is
    not a trusted page of the extension is refused as a whole with
    "Forbidden"; in both cases nothing is filtered and the state stays as
    hydration left it.  For a trusted page and an object, the keys outside
    the allowlist of the UI (none of the timer-internal fields is in it)
    are dropped before [computeNextState] is called; when a key remains,
    the update goes on with the remaining keys alone, and when none remains
    the reply is [{success: false, error: "No valid keys"}] and the state
    stays as hydration left it. *)
Theorem update_message_is_filtered (runtimeId : option string)
    (message sender : value) (rt : Runtime) :
  let payload := Js.get message "payload" in
  let isObject := Js.truthy payload && Js.isObject payload in
  let isTrusted := isTrustedExtensionSender runtimeId sender in
  let rt0 := ensureInitialized rt in
  let filtered := filterPayloadKeys payload UI_ALLOWED_UPDATE_KEYS_SET in
  (forall k v, filtered !! k = Some v <->
               k ∈ UI_ALLOWED_UPDATE_KEYS /\ Js.hasKey payload k = true
               /\ Js.get payload k = v)
  /\ (forall k, k ∈ TIMER_INTERNAL_KEYS -> filtered !! k = None)
  /\ (isObject = false ->
      handleUpdateState runtimeId message sender rt
      = (failure "Invalid payload", rt0))
  /\ (isObject = true -> isTrusted = false ->
      handleUpdateState runtimeId message sender rt
      = (failure "Forbidden", rt0))
  /\ (isObject = true -> isTrusted = true -> noKeys filtered = true ->
      handleUpdateState runtimeId message sender rt
      = (failure "No valid keys", rt0))
  /\ (isObject = true -> isTrusted = true -> noKeys filtered = false ->
      handleUpdateState runtimeId message sender rt
      = (Js.obj [("success", VBool true)], settle (updateState (VObj filtered) rt0))
      /\ (idle rt ->
          let next := computeNextState rt0.(state) (VObj filtered) in
          let delta := diffState (toValue rt0.(state)) next in
          let rt' := settle (updateState (VObj filtered) rt0) in
          rt'.(state) = (if noKeys delta then rt0.(state) else next)
          /\ rt'.(broadcasts)
             = (rt.(broadcasts) ++ if noKeys delta then [] else [delta])%list)).
Proof.
  intros payload isObject isTrusted rt0 filtered.
  assert (negb (Js.truthy payload) || negb (Js.isObject payload) = negb isObject)
    as Hguard.
  { unfold isObject. by destruct (Js.truthy payload), (Js.isObject payload). }
  split_and!.
  - apply filterPayloadKeys_lookup.
  - intros k Hk. destruct (filtered !! k) as [v|] eqn:Hv; [|reflexivity].
    apply filterPayloadKeys_lookup in Hv as [Hin _].
    by apply timer_keys_not_writable in Hk.
  - intros Hobj. unfold handleUpdateState. fold rt0. fold payload.
    by rewrite Hguard, Hobj.
  - intros Hobj Hsender. unfold handleUpdateState. fold rt0. fold payload.
    fold isTrusted. by rewrite Hguard, Hobj, Hsender.
  - intros Hobj Hsender Hnone. unfold handleUpdateState. fold rt0. fold payload.
    fold isTrusted. rewrite Hguard, Hobj, Hsender. cbn [negb]. fold filtered.
    by rewrite Hnone.
  - intros Hobj Hsender Hsome. split.
    + unfold handleUpdateState. fold rt0. fold payload.
      fold isTrusted. rewrite Hguard, Hobj, Hsender. cbn [negb]. fold filtered.
      by rewrite Hsome.
    + intros [Hc Hp]. destruct (ensureInitialized_chain rt) as (Hc0 & Hp0 & Hb0 & _).
      destruct (settle_one_update rt0 filtered) as (_ & Hstate & Hbroad).
      { apply ensureInitialized_done. }
      { split; unfold rt0; congruence. }
      split; [exact Hstate|]. rewrite Hbroad. unfold rt0. by rewrite Hb0.
Qed.

Lemma update_message_is_filtered_witness :
  let message :=
    Js.obj [("action", VStr "updateState");
            ("payload", Js.obj [("currentTask", VStr "write report");
                                ("reminderStartTime", VNum (Num.ofZ 5))])] in
  let sender :=
    Js.obj [("id", VStr "abcdefgh");
            ("url", VStr "chrome-extension://abcdefgh/popup.html")] in
  let rt := startRuntime ∅ in
  let filtered :=
    filterPayloadKeys (Js.get message "payload") UI_ALLOWED_UPDATE_KEYS_SET in
  filtered !! "reminderStartTime" = None
  /\ filtered !! "currentTask" = Some (VStr "write report")
  /\ (settle (updateState (VObj filtered) (ensureInitialized rt))).(state).(currentTask)
     = "write report".
Proof.
  intros message sender rt filtered.
  destruct (update_message_is_filtered (Some "abcdefgh") message sender rt)
    as (Hlook & Htimer & _ & _ & _ & Hgo).
  split_and!.
  - apply Htimer. apply list_elem_of_here.
  - apply Hlook. split_and!; [|reflexivity|reflexivity].
    apply list_elem_of_In. simpl. tauto.
  - destruct Hgo as [_ Hrun]; [reflexivity..|].
    destruct Hrun as [Hstate _]; [split; reflexivity|].
    unfold filtered. rewrite Hstate. vm_compute. reflexivity.
Defined.

(** C6 as stated fails: an [updateState] message with an allowlisted key,
    sent by a content script, is refused as a whole; and the same sender
    with the payload [null] is told "Invalid payload", the payload being
    checked before the sender. *)
Lemma untrusted_update_is_forbidden :
  let message :=
    Js.obj [("action", VStr "updateState");
            ("payload", Js.obj [("currentTask", VStr "x")])] in
  let empty := Js.obj [("action", VStr "updateState"); ("payload", VNull)] in
  let sender :=
    Js.obj [("id", VStr "abcdefgh"); ("url", VStr "https://example.com/")] in
  let rt := startRuntime ∅ in
  filterPayloadKeys (Js.get message "payload") UI_ALLOWED_UPDATE_KEYS_SET
    !! "currentTask" = Some (VStr "x")
  /\ onMessage (Some "abcdefgh") message sender rt
     = (Some (failure "Forbidden"), ensureInitialized rt)
  /\ onMessage (Some "abcdefgh") empty sender rt
     = (Some (failure "Invalid payload"), ensureInitialized rt)
  /\ (ensureInitialized rt).(state).(currentTask) = "".
Proof. cbv zeta. split_and!; vm_compute; reflexivity. Qed.
(** ** Two updates in a row *)

Ltac rt_cbn :=
  cbn [persisting updateChain state hasInitialized storage notifications
       broadcasts].

Lemma ensureInitialized_updateState (u : value) (rt : Runtime) :
  ensureInitialized (updateState u rt) = updateState u (ensureInitialized rt).
Proof.
  destruct rt as [s h st c p n b]. unfold ensureInitialized, updateState.
  destruct (negb (Js.truthy u) || negb (Js.isObject u)); [reflexivity|].
  rt_cbn. destruct h; rt_cbn; reflexivity.
Qed.


(** The first job of the chain hydrates the runtime itself. *)
Lemma tick_hydrated (rt : Runtime) :
  rt.(persisting) = None -> rt.(updateChain) <> [] ->
  tick (ensureInitialized rt) = tick rt.
Proof.
  destruct rt as [s h st c p n b]. rt_cbn. intros -> Hc.
  destruct c as [|job rest]; [congruence|].
  destruct h; [unfold ensureInitialized; rt_cbn; reflexivity|].
  unfold ensureInitialized at 1. rt_cbn. unfold tick. rt_cbn.
  destruct job as [updates|rawUpdates]; unfold startJob, startReconcileJob;
    rewrite ensureInitialized_again by reflexivity;
    unfold ensureInitialized; rt_cbn; reflexivity.
Qed.




Lemma ticks_absorb (n m : nat) (rt : Runtime) :
  idle (ticks m rt) -> (m <= n)%nat -> ticks n rt = ticks m rt.
Proof.
  intros Hidle Hle. replace n with ((n - m) + m)%nat by lia.
  rewrite ticks_add. by apply ticks_idle.
Qed.




(** ** The listener of the storage area *)

Lemma rawUpdatesOf_lookup (changes : value) (k : string) (v : value) :
  rawUpdatesOf changes !! k = Some v ->
  k ∈ UI_ALLOWED_UPDATE_KEYS
  /\ exists props change, changes = VObj props /\ props !! k = Some change
                          /\ v = Js.get change "newValue".
Proof.
  unfold rawUpdatesOf. destruct changes as [| | | | | |props];
    try (rewrite lookup_empty; discriminate).
  rewrite lookup_fmap. intros H. apply fmap_Some in H as (change & Hf & ->).
  apply map_lookup_filter_Some in Hf as [Hc Hk]. cbn [fst] in Hk.
  split; [by apply elem_of_list_to_set in Hk|]. eauto.
Qed.

Lemma allowed_field_equals_itself (s : State) (k : string) :
  k ∈ UI_ALLOWED_UPDATE_KEYS ->
  areStateValuesEqual (stateGet s k) (stateGet s k) = true.
Proof.
  intros Hk. unfold UI_ALLOWED_UPDATE_KEYS in Hk.
  each_key Hk; unfold stateGet; cbn [assoc entries String.eqb Ascii.eqb Bool.eqb];
    unfold areStateValuesEqual; cbn [Js.isArray ofStrings orb Js.strictEq];
    first [ apply Bool.eqb_reflx | apply String.eqb_refl
          | unfold areStringArraysEqual, ofStrings; rewrite Nat.eqb_refl; cbn [andb];
            apply (proj2 (allStrictEq_strings _ _ eq_refl) eq_refl) ].
Qed.

(** The listener drops an event that holds the values of the state in
    memory. *)
Lemma carried_state_is_dropped (changes areaName : value) (rt : Runtime) :
  carriesState changes rt.(state) -> onStorageChanged changes areaName rt = None.
Proof.
  intros H. unfold onStorageChanged.
  destruct (negb (Js.strictEq areaName (VStr "local"))); [reflexivity|].
  destruct (negb (hasInitialized rt)); [reflexivity|].
  destruct (negb (Js.truthy changes) || negb (Js.isObject changes)); [reflexivity|].
  destruct (noKeys _); [reflexivity|].
  match goal with |- (if ?b then _ else _) = _ => assert (b = true) as -> end;
    [|reflexivity].
  apply forallb_forall. intros [k v] Hin. cbn [fst snd].
  apply list_elem_of_In, elem_of_map_to_list in Hin.
  apply rawUpdatesOf_lookup in Hin as (Hk & props & change & -> & Hc & ->).
  cbn [carriesState] in H. rewrite (H k change Hc Hk).
  by apply allowed_field_equals_itself.
Qed.

(** The event of a write of the chain is in step until the next job
    starts: what was written are fields of the state that the job has put
    in memory. *)
Lemma written_event_in_step (prev next : State) (props : gmap string value) :
  (forall k change, props !! k = Some change ->
      diffState (toValue prev) next !! k = Some (Js.get change "newValue")) ->
  carriesState (VObj props) next.
Proof.
  intros H k change Hk _. specialize (H k change Hk).
  rewrite diffState_lookup in H.
  destruct (bool_decide (k ∈ STATE_KEYS) && valueChanged _ _); congruence.
Qed.





(** * Further properties of the state core and of its callers *)

(** ** The task *)

Lemma reached_invariant (P : State -> Prop) :
  (forall raw, P (sanitizeStoredState raw)) ->
  (forall s p, P s -> P (computeNextState s p)) ->
  forall raw patches, P (reached raw patches).
Proof.
  intros H0 Hstep raw patches. unfold reached.
  generalize (H0 raw). generalize (sanitizeStoredState raw).
  induction patches as [|p ps IH]; simpl; auto.
Qed.

Lemma trimStart_length (s : string) :
  (String.length (Str.trimStart s) <= String.length s)%nat.
Proof.
  induction s as [|c r IH]; simpl; [lia|]. destruct (Str.is_space c); simpl; lia.
Qed.

Lemma trimStart_head (c : ascii) (r : string) :
  Str.trimStart (String c r) = String c r <-> Str.is_space c = false.
Proof.
  simpl. destruct (Str.is_space c); split; try congruence; intros H.
  pose proof (trimStart_length r) as Hl. rewrite H in Hl. simpl in Hl. lia.
Qed.

Lemma trimStart_idem (s : string) : Str.trimStart (Str.trimStart s) = Str.trimStart s.
Proof.
  induction s as [|c r IH]; simpl; [reflexivity|].
  destruct (Str.is_space c) eqn:Hc; [exact IH|]. by apply trimStart_head.
Qed.

Lemma trimEnd_head (s : string) :
  Str.trimStart s = s -> Str.trimStart (Str.trimEnd s) = Str.trimEnd s.
Proof.
  destruct s as [|c r]; [reflexivity|]. intros Hc%trimStart_head.
  cbn [Str.trimEnd]. destruct (Str.trimEnd r); [rewrite Hc|]; by apply trimStart_head.
Qed.

Lemma trim_head (s : string) : Str.trimStart (Str.trim s) = Str.trim s.
Proof. apply trimEnd_head, trimStart_idem. Qed.

Lemma slice0_length (n : nat) (s : string) :
  (String.length (Str.slice0 n s) <= n)%nat.
Proof.
  unfold Str.slice0. revert s. induction n as [|n IH]; intros [|c r]; simpl; try lia.
  specialize (IH r). lia.
Qed.

Lemma slice0_head (n : nat) (s : string) :
  Str.trimStart s = s -> Str.trimStart (Str.slice0 n s) = Str.slice0 n s.
Proof.
  unfold Str.slice0. destruct n as [|n], s as [|c r]; try reflexivity.
  intros Hc%trimStart_head. cbn [substring]. by apply trimStart_head.
Qed.

Lemma normalizeTask_ok (v : value) (fallback : string) :
  taskOk fallback -> taskOk (normalizeTask v fallback).
Proof.
  intros Hf. destruct v as [| | | |s| |]; try exact Hf.
  unfold normalizeTask.
  destruct (Str.truthy (Str.trim s)); cbn [negb]; [|split; [simpl; lia|reflexivity]].
  destruct (MAX_TASK_LENGTH <? String.length (Str.trim s))%nat eqn:Hlen.
  - split; [apply slice0_length|apply slice0_head, trim_head].
  - apply Nat.ltb_ge in Hlen. split; [exact Hlen|apply trim_head].
Qed.

Lemma compute_task_ok (s : State) (p : value) :
  taskOk s.(currentTask) -> taskOk (computeNextState s p).(currentTask).
Proof.
  intros Hs. unfold computeNextState.
  destruct (negb (Js.truthy p) || negb (Js.isObject p)); [exact Hs|].
  unfold enforceStateInvariants. rewrite enforce_currentTask. proj_cbn.
  apply (patched_preserves taskOk); [apply normalizeTask_ok|exact Hs].
Qed.

Lemma sanitize_task_ok (raw : value) : taskOk (sanitizeStoredState raw).(currentTask).
Proof.
  unfold sanitizeStoredState, enforceStateInvariants. rewrite enforce_currentTask.
  proj_cbn. apply normalizeTask_ok. split; [simpl; lia|reflexivity].
Qed.

(** X1: in every state that the runtime reaches (hydration from any stored
    record, then any updates), the task has at most [MAX_TASK_LENGTH] = 120
    code units and no white space in front. *)
Theorem task_is_bounded (raw : value) (patches : list value) :
  let t := (reached raw patches).(currentTask) in
  (String.length t <= MAX_TASK_LENGTH)%nat /\ Str.trimStart t = t.
Proof.
  apply (reached_invariant (fun s => taskOk s.(currentTask)));
    [apply sanitize_task_ok|apply compute_task_ok].
Qed.

(** ** The order of the numbers *)

Lemma SFcompare_antisym (x y : spec_float) :
  SFcompare y x = option_map CompOpp (SFcompare x y).
Proof.
  destruct x as [[|]|[|]| |[|] m e], y as [[|]|[|]| |[|] m' e']; try reflexivity;
    cbn [SFcompare option_map]; f_equal;
    rewrite (Z.compare_antisym e' e); destruct (e' ?= e)%Z; cbn [CompOpp]; try reflexivity;
    rewrite (Pos.compare_cont_antisym m m' Eq); cbn [CompOpp]; 
    try reflexivity; by rewrite CompOpp_involutive.
Qed.

Lemma not_lt_le (a b : number) :
  Num.isNaN a = false -> Num.isNaN b = false -> SFltb a b = false -> SFleb b a = true.
Proof.
  unfold SFltb, SFleb. rewrite (SFcompare_antisym a b).
  destruct (SFcompare a b) as [[]|] eqn:Hc; cbn; try congruence.
  destruct a as [[|]|[|]| |[|] m e], b as [[|]|[|]| |[|] m' e']; try discriminate;
    cbn in Hc; congruence.
Qed.

(** ** Times and intervals *)

Lemma finiteOrNull_None : finiteOrNull None.
Proof. intros n. discriminate. Qed.

Lemma intervalOk_None : intervalOk None.
Proof. intros n. discriminate. Qed.

Lemma finite_notNaN (n : number) : Num.isFinite n = true -> Num.isNaN n = false.
Proof. destruct n; simpl; congruence. Qed.

Lemma normalizeNumberOrNull_finite v f :
  finiteOrNull f -> finiteOrNull (normalizeNumberOrNull v f).
Proof.
  intros Hf. destruct v as [| | |n| | |]; simpl; auto using finiteOrNull_None.
  destruct (Num.isFinite n) eqn:Hn; [|exact Hf]. intros ? [= <-]. exact Hn.
Qed.

Lemma normalizeIntervalMs_ok v f : intervalOk f -> intervalOk (normalizeIntervalMs v f).
Proof.
  intros Hf. destruct v as [| | |n| | |]; simpl; auto using intervalOk_None.
  destruct (Num.isFinite n) eqn:Hn; cbn [negb]; [|exact Hf].
  destruct (Num.lt n MIN_INTERVAL_MS) eqn:Hlo; [exact Hf|].
  destruct (Num.gt n MAX_INTERVAL_MS) eqn:Hhi; [exact Hf|].
  cbn [orb]. intros ? [= <-]. split_and!; [exact Hn| |].
  - apply not_lt_le; [by apply finite_notNaN|reflexivity|exact Hlo].
  - apply not_lt_le; [reflexivity|by apply finite_notNaN|exact Hhi].
Qed.

Lemma intervalOk_finite o : intervalOk o -> finiteOrNull o.
Proof. intros H n Hn. by destruct (H n Hn). Qed.

Lemma normalizeIntervalMs_finite v f :
  finiteOrNull f -> finiteOrNull (normalizeIntervalMs v f).
Proof.
  intros Hf. destruct v as [| | |n| | |]; simpl; auto using finiteOrNull_None.
  destruct (Num.isFinite n) eqn:Hn; cbn [negb]; [|exact Hf].
  destruct (_ || _); [exact Hf|]. intros ? [= <-]. exact Hn.
Qed.

Lemma default_interval_ok : intervalOk (Some EXERCISE_DEFAULT_INTERVAL_MS).
Proof. intros ? [= <-]. vm_compute. auto. Qed.

Lemma enforce_timesFinite t : timesFinite t -> timesFinite (enforceStateValidity t).
Proof.
  unfold timesFinite, enforceStateValidity; proj_cbn.
  intros (H1 & H2 & H3 & H4 & H5 & H6 & H7).
  split_and!; auto;
    repeat match goal with |- context [if ?b then _ else _] => destruct b end;
    auto using finiteOrNull_None.
  apply intervalOk_finite, default_interval_ok.
Qed.

Lemma enforce_intervalsOk t : intervalsOk t -> intervalsOk (enforceStateValidity t).
Proof.
  unfold intervalsOk, enforceStateValidity; proj_cbn. intros (H1 & H2).
  split;
    repeat match goal with |- context [if ?b then _ else _] => destruct b end;
    auto using intervalOk_None, default_interval_ok.
Qed.

Lemma merge_timesFinite s p : timesFinite s -> timesFinite (mergeUpdates s p).
Proof.
  unfold timesFinite; proj_cbn. intros (H1 & H2 & H3 & H4 & H5 & H6 & H7).
  split_and!; apply (patched_preserves finiteOrNull);
    auto using normalizeNumberOrNull_finite, normalizeIntervalMs_finite.
Qed.

Lemma merge_intervalsOk s p : intervalsOk s -> intervalsOk (mergeUpdates s p).
Proof.
  unfold intervalsOk; proj_cbn. intros (H1 & H2).
  split; apply (patched_preserves intervalOk); auto using normalizeIntervalMs_ok.
Qed.

Lemma sanitize_timesFinite raw : timesFinite (sanitizeStoredState raw).
Proof.
  apply enforce_timesFinite. unfold timesFinite; proj_cbn.
  split_and!;
    auto using normalizeNumberOrNull_finite, normalizeIntervalMs_finite, finiteOrNull_None.
Qed.

Lemma sanitize_intervalsOk raw : intervalsOk (sanitizeStoredState raw).
Proof.
  apply enforce_intervalsOk. unfold intervalsOk; proj_cbn.
  split; auto using normalizeIntervalMs_ok, intervalOk_None.
Qed.

Lemma compute_timesFinite s p : timesFinite s -> timesFinite (computeNextState s p).
Proof.
  intros H. unfold computeNextState.
  destruct (negb (Js.truthy p) || negb (Js.isObject p)); [exact H|].
  by apply enforce_timesFinite, merge_timesFinite.
Qed.

Lemma compute_intervalsOk s p : intervalsOk s -> intervalsOk (computeNextState s p).
Proof.
  intros H. unfold computeNextState.
  destruct (negb (Js.truthy p) || negb (Js.isObject p)); [exact H|].
  by apply enforce_intervalsOk, merge_intervalsOk.
Qed.

Lemma reached_timesFinite raw patches : timesFinite (reached raw patches).
Proof.
  apply (reached_invariant timesFinite);
    [apply sanitize_timesFinite|apply compute_timesFinite].
Qed.

Lemma reached_intervalsOk raw patches : intervalsOk (reached raw patches).
Proof.
  apply (reached_invariant intervalsOk);
    [apply sanitize_intervalsOk|apply compute_intervalsOk].
Qed.

Lemma enforce_exercise_interval t :
  (enforceStateValidity t).(exerciseReminderEnabled) = true ->
  (enforceStateValidity t).(exerciseIntervalMs) <> None.
Proof.
  unfold enforceStateValidity; proj_cbn. intros ->.
  destruct (exerciseIntervalMs t); simpl; congruence.
Qed.

(** X2: in every state that the runtime reaches, the three timer fields,
    [mindfulnessLastShownAt] and the three time fields of the exercise
    reminder are null or finite numbers: neither NaN nor an infinity gets
    into the state. *)
Theorem time_fields_are_finite (raw : value) (patches : list value) :
  timesFinite (reached raw patches).
Proof.
  apply (reached_invariant timesFinite).
  - apply sanitize_timesFinite.
  - apply compute_timesFinite.
Qed.

(** X3: in every state that the runtime reaches, [reminderInterval] and
    [exerciseIntervalMs] are null or finite and between one minute and one
    day, in milliseconds. *)
Theorem intervals_within_bounds (raw : value) (patches : list value) :
  intervalsOk (reached raw patches).
Proof.
  apply (reached_invariant intervalsOk).
  - apply sanitize_intervalsOk.
  - apply compute_intervalsOk.
Qed.

(** X4: in every state that the runtime reaches, an enabled exercise
    reminder has an interval: [exerciseIntervalMs] is a number between one
    minute and one day, never null. *)
Theorem exercise_interval_is_set (raw : value) (patches : list value) :
  (reached raw patches).(exerciseReminderEnabled) = true ->
  exists n, (reached raw patches).(exerciseIntervalMs) = Some n
            /\ SFleb MIN_INTERVAL_MS n = true /\ SFleb n MAX_INTERVAL_MS = true.
Proof.
  intros He.
  assert ((reached raw patches).(exerciseIntervalMs) <> None) as Hn.
  { revert He. apply (reached_establishes
      (fun s => s.(exerciseReminderEnabled) = true -> s.(exerciseIntervalMs) <> None)).
    apply enforce_exercise_interval. }
  destruct (exerciseIntervalMs (reached raw patches)) as [n|] eqn:Hi; [|done].
  exists n. split; [reflexivity|].
  destruct (reached_intervalsOk raw patches) as [_ Hok].
  by destruct (Hok n Hi) as (_ & ? & ?).
Qed.

Lemma exercise_interval_is_set_witness :
  exists n,
    (reached VNull [Js.obj [("exerciseIntervalMs", VNull)]]).(exerciseIntervalMs) = Some n
    /\ SFleb MIN_INTERVAL_MS n = true /\ SFleb n MAX_INTERVAL_MS = true.
Proof.
  apply (exercise_interval_is_set VNull [Js.obj [("exerciseIntervalMs", VNull)]]).
  vm_compute. reflexivity.
Defined.

(** ** Site lists that are normal already *)

Lemma domainLoop_cons_str maxItems rawValue rest out seen :
  domainLoop maxItems (VStr rawValue :: rest) out seen =
  if negb (Str.truthy (Str.toLowerCase (Str.trim rawValue)))
  then domainLoop maxItems rest out seen
  else if negb (acceptsHostname (entryOf rawValue))
  then domainLoop maxItems rest out seen
  else if bool_decide (entryOf rawValue ∈ seen) then domainLoop maxItems rest out seen
  else if (maxItems <=? length (out ++ [entryOf rawValue]))%nat
  then (out ++ [entryOf rawValue])%list
  else domainLoop maxItems rest (out ++ [entryOf rawValue])%list
         ({[entryOf rawValue]} ∪ seen).
Proof. reflexivity. Qed.

Lemma domainLoop_fixed maxItems (l : list string) : forall out seen,
  (forall h, h ∈ seen <-> h ∈ out) ->
  Forall validEntry l -> wwwFree l -> NoDup (out ++ l) ->
  (length (out ++ l) <= maxItems)%nat ->
  domainLoop maxItems (map VStr l) out seen = (out ++ l)%list.
Proof.
  induction l as [|h l IH]; intros out seen Hseen Hv Hw Hnd Hlen.
  { simpl. by rewrite app_nil_r. }
  apply Forall_cons in Hv as [Hh Hv]. apply Forall_cons in Hw as [Hhw Hw].
  destruct (entry_fixed h Hh Hhw) as [He Hraw].
  cbn [map]. rewrite domainLoop_cons_str, Hraw, He, (validEntry_accepts h Hh).
  destruct Hh as (Hp & _). unfold matchesHostPattern in Hp.
  apply andb_true_iff in Hp as [-> _]. cbn [negb].
  assert (h ∉ out) as Hout.
  { apply NoDup_app in Hnd as (_ & Hdis & _). intros Hin.
    apply (Hdis h Hin). apply list_elem_of_here. }
  rewrite bool_decide_eq_false_2 by (by rewrite Hseen).
  assert ((out ++ h :: l)%list = ((out ++ [h]) ++ l)%list) as Hassoc
    by (by rewrite <- app_assoc).
  destruct (maxItems <=? length (out ++ [h]))%nat eqn:Hcap.
  - apply Nat.leb_le in Hcap. rewrite !length_app in *. simpl in *.
    destruct l; [reflexivity|simpl in *; lia].
  - rewrite Hassoc. apply IH; auto.
    + intros x. rewrite elem_of_union, elem_of_singleton, elem_of_app,
        list_elem_of_singleton, Hseen. tauto.
    + by rewrite <- Hassoc.
    + by rewrite <- Hassoc.
Qed.

Lemma normalizeDomainList_fixed (l fallback : list string) :
  cleanList l -> wwwFree l ->
  normalizeDomainList (ofStrings l) fallback MAX_SITE_LIST_ITEMS = sortStrings l.
Proof.
  intros (Hv & Hnd & Hlen) Hw. unfold normalizeDomainList, ofStrings.
  rewrite (domainLoop_fixed MAX_SITE_LIST_ITEMS l [] ∅); auto.
  intros h. rewrite elem_of_nil. set_solver.
Qed.

Lemma sortStrings_sorted_id (l : list string) : Sorted str_le l -> sortStrings l = l.
Proof. intros H. symmetry. by apply sortStrings_unique. Qed.

(** X5: [normalizeDomainList] gives the sorted list for a list of valid
    entries without duplicates, without "www." in front and of at most 200
    entries, whatever the fallback; a list that is sorted as well comes back
    as it is. *)
Theorem normalized_list_is_kept (l fallback : list string) :
  cleanList l -> wwwFree l ->
  normalizeDomainList (ofStrings l) fallback MAX_SITE_LIST_ITEMS = sortStrings l
  /\ (Sorted str_le l ->
      normalizeDomainList (ofStrings l) fallback MAX_SITE_LIST_ITEMS = l).
Proof.
  intros Hc Hw. split; [by apply normalizeDomainList_fixed|].
  intros Hs. rewrite normalizeDomainList_fixed by assumption.
  by apply sortStrings_sorted_id.
Qed.

Lemma normalized_list_is_kept_witness :
  normalizeDomainList (ofStrings ["b.org"; "a.com"]) [] MAX_SITE_LIST_ITEMS
  = sortStrings ["b.org"; "a.com"]
  /\ (Sorted str_le ["b.org"; "a.com"] ->
      normalizeDomainList (ofStrings ["b.org"; "a.com"]) [] MAX_SITE_LIST_ITEMS
      = ["b.org"; "a.com"]).
Proof.
  apply (normalized_list_is_kept ["b.org"; "a.com"] []).
  - split_and!.
    + repeat constructor; vm_compute; (reflexivity || lia).
    + apply (bool_decide_unpack (NoDup ["b.org"; "a.com"])). vm_compute. exact I.
    + vm_compute. lia.
  - repeat constructor.
Defined.

(** ** A restart *)

Lemma le_not_lt (a b : number) : SFleb b a = true -> SFltb a b = false.
Proof.
  unfold SFltb, SFleb. rewrite (SFcompare_antisym a b).
  destruct (SFcompare a b) as [[]|]; cbn; congruence.
Qed.

Lemma normalizeTask_fixed (t : string) :
  taskOk t -> Str.trimEnd t = t -> normalizeTask (VStr t) "" = t.
Proof.
  intros [Hlen Hs] He. unfold normalizeTask, Str.trim. rewrite Hs, He.
  destruct t as [|c r]; [reflexivity|]. cbn [Str.truthy negb].
  apply Nat.ltb_ge in Hlen. by rewrite Hlen.
Qed.

Lemma normalizeNumberOrNull_fixed (o : option number) :
  finiteOrNull o -> normalizeNumberOrNull (ofNumberOrNull o) None = o.
Proof.
  intros H. destruct o as [n|]; [|reflexivity]. simpl. by rewrite (H n eq_refl).
Qed.

Lemma normalizeIntervalMs_fixed (o : option number) :
  intervalOk o -> normalizeIntervalMs (ofNumberOrNull o) None = o.
Proof.
  intros H. destruct o as [n|]; [|reflexivity]. simpl.
  destruct (H n eq_refl) as (Hf & Hlo & Hhi). rewrite Hf. cbn [negb].
  unfold Num.lt, Num.gt. by rewrite (le_not_lt n _ Hlo), (le_not_lt _ n Hhi).
Qed.

Lemma normalizeString_fixed (o : option string) :
  normalizeString (ofStringOrNull o) None = o.
Proof. by destruct o. Qed.

Lemma normalizeCounter_fixed (n : number) :
  Num.isFinite n = true -> normalizeCounter (VNum n) Num.zero = n.
Proof. intros H. unfold normalizeCounter. simpl. by rewrite H. Qed.

Lemma sanitize_toValue (s : State) :
  taskOk s.(currentTask) -> timesFinite s -> intervalsOk s -> countersOk s ->
  cleanList s.(distractingSites) -> cleanList s.(deepWorkBlockedSites) ->
  restartStable s ->
  sanitizeStoredState (toValue s) = enforceStateValidity s.
Proof.
  intros Ht (F1 & F2 & F3 & F4 & F5 & F6 & F7) (I1 & I2) ((C1 & _) & (C2 & _) & (C3 & _))
    Hd Hw (St & Sd & Wd & Sw & Ww).
  unfold sanitizeStoredState, enforceStateInvariants.
  cbn [toValue Js.obj Js.truthy]. fold (Js.obj (entries s)). fold (toValue s).
  rewrite !get_toValue. unfold stateGet.
  cbn [assoc entries String.eqb Ascii.eqb Bool.eqb].
  unfold getDefaultState, DEFAULT_STATE. proj_cbn.
  rewrite normalizeTask_fixed, !normalizeNumberOrNull_fixed, !normalizeIntervalMs_fixed,
    normalizeString_fixed, !normalizeCounter_fixed by assumption.
  rewrite !normalizeDomainList_fixed, !sortStrings_sorted_id by assumption.
  f_equal; by destruct s.
Qed.

Lemma reached_countersOk raw patches : countersOk (reached raw patches).
Proof. apply reached_establishes. apply enforce_countersOk. Qed.

(** X6: a state that the runtime has reached survives a restart: written out
    in full and read back by [sanitizeStoredState] it is the same state,
    provided the task has no white space at its end and the two site lists
    are sorted and free of "www." in front. *)
Theorem restart_preserves_state (raw : value) (patches : list value) :
  restartStable (reached raw patches) ->
  sanitizeStoredState (toValue (reached raw patches)) = reached raw patches.
Proof.
  intros Hs. destruct (reached_lists_clean raw patches) as [Hd Hw].
  rewrite sanitize_toValue; auto using reached_timesFinite, reached_intervalsOk,
    reached_countersOk, reached_fixed.
  apply (reached_invariant (fun s => taskOk s.(currentTask)));
    [apply sanitize_task_ok|apply compute_task_ok].
Qed.

Lemma restart_preserves_state_witness :
  let raw := Js.obj [("distractingSites", VArr [VStr "b.org"; VStr "https://www.a.com/x"]);
                     ("deepWorkBlockedSites", VArr [])] in
  let patches := [setTask "  write the report "; Js.obj [("isInFlow", VBool true)]] in
  sanitizeStoredState (toValue (reached raw patches)) = reached raw patches.
Proof.
  intros raw patches. apply restart_preserves_state.
  unfold restartStable, wwwFree. vm_compute.
  split_and!; [reflexivity| | | |]; repeat constructor.
Defined.

(** X7: a stored record that has none of the keys of the state (an empty
    area, a record of another version, a value that is no object) hydrates
    to the default state, with the default interval of the exercise
    reminder. *)
Theorem stored_junk_gives_defaults (raw : value) :
  (forall k, k ∈ STATE_KEYS -> Js.get raw k = VUndefined) ->
  sanitizeStoredState raw = initialState.
Proof.
  intros H.
  assert (forall k, k ∈ STATE_KEYS ->
            Js.get (if Js.truthy raw then raw else VObj ∅) k = VUndefined) as H'.
  { intros k Hk. destruct (Js.truthy raw); [by apply H|reflexivity]. }
  unfold sanitizeStoredState. cbv zeta.
  rewrite !H' by (apply list_elem_of_In; simpl; tauto). reflexivity.
Qed.

Lemma stored_junk_gives_defaults_witness :
  sanitizeStoredState (Js.obj [("version", VNum (Num.ofZ 3)); ("task", VStr "x")])
  = initialState.
Proof.
  apply stored_junk_gives_defaults. intros k Hk.
  unfold STATE_KEYS in Hk. each_key Hk; reflexivity.
Defined.

(** ** The fields that an update leaves alone *)

Lemma merge_unnamed_field (s : State) (p : value) (k : string) :
  Js.hasKey p k = false -> stateGet (mergeUpdates s p) k = stateGet s k.
Proof.
  intros Hp. unfold stateGet, entries. cbn [assoc].
  repeat match goal with
  | |- context [String.eqb k ?lit] =>
      destruct (String.eqb_spec k lit) as [->|_];
      [ proj_cbn; unfold patched; by rewrite Hp | ]
  end.
  reflexivity.
Qed.

Lemma enforce_plain_field (t : State) (k : string) :
  k ∉ DERIVED_KEYS ->
  (k = "exerciseStatsPushUps" ->
   saneCounter t.(exerciseStatsPushUps) = t.(exerciseStatsPushUps)) ->
  (k = "exerciseStatsSitUps" ->
   saneCounter t.(exerciseStatsSitUps) = t.(exerciseStatsSitUps)) ->
  (k = "exerciseStatsSquats" ->
   saneCounter t.(exerciseStatsSquats) = t.(exerciseStatsSquats)) ->
  stateGet (enforceStateValidity t) k = stateGet t k.
Proof.
  intros Hd H1 H2 H3. unfold stateGet, entries. cbn [assoc].
  rewrite enforce_currentTask.
  repeat match goal with
  | |- context [String.eqb k ?lit] =>
      destruct (String.eqb_spec k lit) as [->|_];
      [ first [ reflexivity
              | exfalso; apply Hd; apply list_elem_of_In; simpl; tauto
              | unfold enforceStateValidity; proj_cbn; f_equal; auto ] | ]
  end.
  reflexivity.
Qed.

Lemma merge_counter_fixed (raw : value) (patches : list value) (p : value)
    (f : State -> number) (key : string) :
  f (enforceStateValidity (reached raw patches)) = saneCounter (f (reached raw patches)) ->
  f (mergeUpdates (reached raw patches) p)
  = patched p key normalizeCounter (f (reached raw patches)) ->
  Js.hasKey p key = false ->
  saneCounter (f (mergeUpdates (reached raw patches) p))
  = f (mergeUpdates (reached raw patches) p).
Proof.
  intros Hf Hm Hp. rewrite Hm. unfold patched. rewrite Hp.
  by rewrite <- Hf, reached_fixed.
Qed.

Lemma compute_unnamed_field (raw : value) (patches : list value)
    (p : value) (k : string) :
  k ∉ DERIVED_KEYS -> Js.hasKey p k = false ->
  stateGet (computeNextState (reached raw patches) p) k
  = stateGet (reached raw patches) k.
Proof.
  intros Hd Hp. unfold computeNextState.
  destruct (negb (Js.truthy p) || negb (Js.isObject p)); [reflexivity|].
  unfold enforceStateInvariants.
  rewrite <- (merge_unnamed_field (reached raw patches) p k Hp).
  apply enforce_plain_field; [exact Hd|intros ->..].
  - by apply (merge_counter_fixed raw patches p exerciseStatsPushUps
                "exerciseStatsPushUps").
  - by apply (merge_counter_fixed raw patches p exerciseStatsSitUps
                "exerciseStatsSitUps").
  - by apply (merge_counter_fixed raw patches p exerciseStatsSquats
                "exerciseStatsSquats").
Qed.

(** X8: an update of a state that the runtime has reached leaves every field
    alone that the patch does not name, apart from the fields that the
    invariants derive ([isInFlow], [breakReminderEnabled], the three timer
    fields and [exerciseIntervalMs]). *)
Theorem update_leaves_other_fields (raw : value) (patches : list value)
    (p : value) (k : string) :
  k ∉ DERIVED_KEYS -> Js.hasKey p k = false ->
  stateGet (computeNextState (reached raw patches) p) k
  = stateGet (reached raw patches) k.
Proof. apply compute_unnamed_field. Qed.

Lemma update_leaves_other_fields_witness :
  stateGet (computeNextState (reached VNull [setTask "read"])
              (Js.obj [("intentGateEnabled", VBool false)])) "currentTask"
  = stateGet (reached VNull [setTask "read"]) "currentTask".
Proof.
  apply update_leaves_other_fields; [|reflexivity].
  unfold DERIVED_KEYS. intros H.
  repeat (apply elem_of_cons in H as [H|H]; [discriminate|]). by apply elem_of_nil in H.
Defined.

(** X9: [enforceStateValidity] is idempotent, and it changes neither the
    result of [sanitizeStoredState] nor any state that the runtime
    reaches. *)
Theorem invariants_settle_at_once :
  (forall t, enforceStateValidity (enforceStateValidity t) = enforceStateValidity t)
  /\ (forall raw, enforceStateValidity (sanitizeStoredState raw) = sanitizeStoredState raw)
  /\ (forall raw patches,
        enforceStateValidity (reached raw patches) = reached raw patches).
Proof.
  split_and!; [apply enforce_idem|intros raw; apply enforce_idem|apply reached_fixed].
Qed.

(** ** The storage area after hydration *)

Lemma diffState_lookup_obj (stored : gmap string value) (next : State) (k : string) :
  diffState (VObj stored) next !! k =
  if bool_decide (k ∈ STATE_KEYS)
     && valueChanged (default VUndefined (stored !! k)) (stateGet next k)
  then Some (stateGet next k) else None.
Proof.
  unfold diffState. cbn [Js.truthy Js.isObject andb].
  by rewrite foldl_diffKey_lookup, lookup_empty.
Qed.

Lemma diffState_keys (prev : value) (next : State) (k : string) :
  k ∉ STATE_KEYS -> diffState prev next !! k = None.
Proof.
  intros Hk. unfold diffState. rewrite foldl_diffKey_lookup, lookup_empty.
  by rewrite bool_decide_eq_false_2.
Qed.

Lemma state_key_allowed (k : string) : k ∈ STATE_KEYS -> isAllowedStorageKey k = true.
Proof. intros Hk. unfold isAllowedStorageKey. by rewrite bool_decide_eq_true_2. Qed.

Lemma field_is_defined (s : State) (k : string) :
  k ∈ STATE_KEYS -> valueChanged VUndefined (stateGet s k) = true.
Proof.
  intros Hk. unfold STATE_KEYS in Hk.
  each_key Hk; unfold stateGet; cbn [assoc entries String.eqb Ascii.eqb Bool.eqb];
    first [ reflexivity
          | match goal with
            | |- context [ofNumberOrNull ?o] => by destruct o
            | |- context [ofStringOrNull ?o] => by destruct o
            end ].
Qed.

Lemma hydrated_storage (rt : Runtime) :
  rt.(hasInitialized) = false ->
  (ensureInitialized rt).(storage) =
  diffState (VObj (filter (fun kv => kv.1 ∈ STATE_KEYS) rt.(storage)))
    (sanitizeStoredState (VObj rt.(storage)))
  ∪ filter (fun kv => isAllowedStorageKey kv.1 = true) rt.(storage)
  /\ (ensureInitialized rt).(state) = sanitizeStoredState (VObj rt.(storage)).
Proof. intros H. unfold ensureInitialized. rewrite H. split; reflexivity. Qed.

Lemma kept_lookup (stored : gmap string value) (k : string) :
  filter (fun kv => isAllowedStorageKey kv.1 = true) stored !! k
  = if isAllowedStorageKey k then stored !! k else None.
Proof.
  destruct (isAllowedStorageKey k) eqn:Hk.
  - destruct (stored !! k) as [v|] eqn:Hv.
    + by apply map_lookup_filter_Some.
    + apply map_lookup_filter_None. left. exact Hv.
  - apply map_lookup_filter_None. right. intros v _. simpl. congruence.
Qed.

Lemma state_keys_lookup (stored : gmap string value) (k : string) :
  k ∈ STATE_KEYS ->
  filter (fun kv => kv.1 ∈ STATE_KEYS) stored !! k = stored !! k.
Proof.
  intros Hk. destruct (stored !! k) as [v|] eqn:Hv.
  - by apply map_lookup_filter_Some.
  - apply map_lookup_filter_None. by left.
Qed.

(** X10: the first [ensureInitialized] removes from the storage area every
    key that [isAllowedStorageKey] rejects, leaves the allowed keys that are
    no state keys as they are, and leaves a value under every state
    key. *)
Theorem hydration_cleans_storage (rt : Runtime) (k : string) :
  rt.(hasInitialized) = false ->
  let rt' := ensureInitialized rt in
  (isAllowedStorageKey k = false -> rt'.(storage) !! k = None)
  /\ (isAllowedStorageKey k = true -> k ∉ STATE_KEYS ->
      rt'.(storage) !! k = rt.(storage) !! k)
  /\ (k ∈ STATE_KEYS -> is_Some (rt'.(storage) !! k)).
Proof.
  intros Hi rt'. subst rt'. destruct (hydrated_storage rt Hi) as [-> _].
  rewrite lookup_union, kept_lookup. split_and!.
  - intros Hk. rewrite Hk. rewrite diffState_keys; [reflexivity|].
    intros Hin. apply state_key_allowed in Hin. congruence.
  - intros Hk Hn. rewrite Hk, diffState_keys by exact Hn.
    by destruct (rt.(storage) !! k).
  - intros Hk. rewrite (state_key_allowed k Hk), diffState_lookup_obj.
    rewrite bool_decide_eq_true_2 by exact Hk. cbn [andb].
    rewrite state_keys_lookup by exact Hk.
    destruct (rt.(storage) !! k) as [v|] eqn:Hv; cbn [default].
    + destruct (valueChanged _ _); cbn; eauto.
    + rewrite field_is_defined by exact Hk. cbn. eauto.
Qed.

Lemma hydration_cleans_storage_witness :
  let stored : gmap string value :=
    list_to_map [("currentTask", VStr "read"); ("legacyFlag", VBool true);
                 ("intentGateTab_7", VNull)] in
  let rt' := ensureInitialized (startRuntime stored) in
  rt'.(storage) !! "legacyFlag" = None.
Proof.
  intros stored rt'.
  apply (proj1 (hydration_cleans_storage (startRuntime stored) "legacyFlag" eq_refl)).
  reflexivity.
Defined.

(** ** The chain as a queue *)

Lemma idle_or_busy (rt : Runtime) : idle rt \/ busy rt.
Proof.
  unfold idle, busy. destruct (persisting rt), (updateChain rt); auto;
    right; auto; left; congruence.
Qed.

Lemma busy_not_idle (rt : Runtime) : busy rt -> ~ idle rt.
Proof. intros [H|H] [Hc Hp]; congruence. Qed.




Lemma tick_progress (rt : Runtime) :
  busy rt -> (turnsLeft (tick rt) < turnsLeft rt)%nat.
Proof.
  destruct rt as [s h st c p n b]. unfold busy, turnsLeft. rt_cbn. intros Hb.
  unfold tick. rt_cbn. destruct p as [[written delta]|].
  - unfold finishJob. rt_cbn. lia.
  - destruct c as [|job rest]; [destruct Hb; congruence|].
    destruct job as [u|u]; unfold startJob, startReconcileJob;
      match goal with |- context [ensureInitialized ?r] =>
        destruct (ensureInitialized_chain r) as (Hc & Hp & _);
        set (r' := ensureInitialized r) in *
      end;
      cbn [updateChain persisting] in Hc, Hp;
      repeat match goal with |- context [noKeys ?d] => destruct (noKeys d) end;
      rt_cbn; rewrite ?Hc, ?Hp; cbn [length]; lia.
Qed.

Lemma ticks_drain (n : nat) : forall rt,
  (turnsLeft rt <= n)%nat -> idle (ticks n rt).
Proof.
  induction n as [|n IH]; intros rt Hn.
  - unfold idle. unfold turnsLeft in Hn. cbn.
    destruct (updateChain rt), (persisting rt); simpl in Hn; try lia. auto.
  - destruct (idle_or_busy rt) as [Hi|Hb]; [by rewrite ticks_idle|].
    rewrite ticks_succ_r. apply IH. pose proof (tick_progress rt Hb) as H. lia.
Qed.

Lemma settle_idle (rt : Runtime) : idle (settle rt).
Proof.
  unfold settle. apply ticks_drain. unfold turnsLeft. destruct (persisting rt); lia.
Qed.


Lemma settle_from_idle_turn (m : nat) (rt : Runtime) :
  idle (ticks m rt) -> settle rt = ticks m rt.
Proof.
  intros Hm. pose proof (settle_idle rt) as Hs. unfold settle in *.
  set (n := (2 * S (length (updateChain rt)))%nat) in *.
  destruct (Nat.le_ge_cases m n).
  - by apply ticks_absorb.
  - symmetry. by apply ticks_absorb.
Qed.




(** ** The storage area mirrors the state *)

Lemma magnitude_Eq (e1 e2 : Z) (m1 m2 : positive) (lt gt : comparison) (f : comparison -> comparison) :
  lt <> Eq -> gt <> Eq -> (forall c, f c = Eq -> c = Eq) ->
  match (e1 ?= e2)%Z with
  | Lt => lt | Gt => gt | Eq => f (Pos.compare_cont Eq m1 m2)
  end = Eq ->
  e1 = e2 /\ m1 = m2.
Proof.
  intros Hlt Hgt Hf. destruct (Z.compare_spec e1 e2) as [->| |]; try congruence.
  intros H%Hf. split; [reflexivity|]. by apply Pos.compare_eq.
Qed.









(** An update on a hydrated, idle runtime, awaited. *)
Lemma settle_update (rt : Runtime) (p : value) :
  rt.(hasInitialized) = true -> idle rt ->
  let next := computeNextState rt.(state) p in
  let delta := diffState (toValue rt.(state)) next in
  settle (updateState p rt) =
  if negb (Js.truthy p) || negb (Js.isObject p) then rt
  else if noKeys delta then rt
  else mkRuntime next true (delta ∪ rt.(storage)) [] None
         (rt.(notifications) ++ [(next, delta)]) (rt.(broadcasts) ++ [delta]).
Proof.
  intros Hi [Hc Hp]. cbv zeta. unfold updateState.
  destruct (negb (Js.truthy p) || negb (Js.isObject p)) eqn:Hobj.
  { unfold settle. apply ticks_idle. by split. }
  destruct rt as [s h st c pe n b]. cbn [hasInitialized updateChain persisting] in *.
  subst. rt_cbn. cbn [app].
  set (next := computeNextState s p). set (delta := diffState (toValue s) next).
  set (q := mkRuntime s true st [UpdateJob p] None n b).
  assert (ticks 2 q = if noKeys delta then mkRuntime s true st [] None n b
                      else mkRuntime next true (delta ∪ st) [] None
                             (n ++ [(next, delta)]) (b ++ [delta])) as H2.
  { rewrite (ticks_job q p []) by reflexivity. subst q. rt_cbn.
    fold next. fold delta.
    destruct (noKeys delta); [|reflexivity]. apply tick_idle. by split. }
  rewrite (settle_from_idle_turn 2 q); [exact H2|].
  rewrite H2. destruct (noKeys delta); by split.
Qed.






(** ** The storage listener *)

Lemma onStorageChanged_Some (changes areaName : value) (rt : Runtime)
    (u : gmap string value) :
  onStorageChanged changes areaName rt = Some u ->
  rt.(hasInitialized) = true /\ u = rawUpdatesOf changes.
Proof.
  unfold onStorageChanged.
  destruct (negb (Js.strictEq areaName (VStr "local"))); [discriminate|].
  destruct (hasInitialized rt); [|discriminate]. cbn [negb].
  destruct (negb (Js.truthy changes) || negb (Js.isObject changes)); [discriminate|].
  destruct (noKeys _); [discriminate|]. destruct (forallb _ _); [discriminate|].
  intros [= <-]. auto.
Qed.

(** The job that the listener appends to an idle chain runs as
    [reconcileJob] says. *)
Lemma reconcile_job_on_the_chain (changes areaName : value) (rt : Runtime)
    (u : gmap string value) :
  onStorageChanged changes areaName rt = Some u -> idle rt ->
  settle (storageChanged changes areaName rt) = reconcileJob u rt.
Proof.
  intros Hu [Hc Hp]. unfold storageChanged. rewrite Hu.
  apply onStorageChanged_Some in Hu as [Hi _].
  destruct rt as [s h st c p n b]. cbn [hasInitialized updateChain persisting] in *.
  subst. rt_cbn. cbn [app].
  set (q := mkRuntime s true st [ReconcileJob u] None n b).
  assert (exists m, ticks m q = reconcileJob u (mkRuntime s true st [] None n b)
                    /\ idle (ticks m q)) as (m & Hm & Hidle).
  { unfold reconcileJob. rewrite ensureInitialized_again by reflexivity. rt_cbn.
    set (next := computeNextState s (VObj u)).
    set (delta := diffState (toValue s) next).
    set (dp := filter (fun kv => needsPersist u kv.1 kv.2 = true) delta).
    assert (tick q = if noKeys delta then mkRuntime s true st [] None n b
                     else if noKeys dp
                          then mkRuntime next true st [] None
                                 (n ++ [(next, delta)]) (b ++ [delta])
                          else mkRuntime next true st [] (Some (dp, delta)) n b) as H1.
    { unfold tick, q. rt_cbn. unfold startReconcileJob.
      rewrite ensureInitialized_again by reflexivity. rt_cbn.
      fold next. fold delta. fold dp. reflexivity. }
    destruct (noKeys delta) eqn:Hd.
    - exists 1%nat. change (ticks 1 q) with (tick q). rewrite H1. by split.
    - destruct (noKeys dp) eqn:Hdp.
      + exists 1%nat. change (ticks 1 q) with (tick q). rewrite H1.
        apply noKeys_empty in Hdp. rewrite Hdp, (left_id ∅ _). by split.
      + exists 2%nat. change (ticks 2 q) with (tick (tick q)). rewrite H1.
        by split. }
  rewrite <- Hm. by apply settle_from_idle_turn.
Qed.

(** X13: the listener of [chrome.storage.onChanged] hands on only keys that
    the interface may write; the job that it appends leaves every other
    field of a reached state alone, apart from the fields that the
    invariants derive. *)
Theorem storage_changes_are_filtered (changes areaName : value) (rt : Runtime)
    (u : gmap string value) :
  onStorageChanged changes areaName rt = Some u ->
  (forall k, is_Some (u !! k) -> k ∈ UI_ALLOWED_UPDATE_KEYS)
  /\ (forall raw patches k,
        rt.(state) = reached raw patches ->
        k ∉ UI_ALLOWED_UPDATE_KEYS -> k ∉ DERIVED_KEYS ->
        stateGet (reconcileJob u rt).(state) k = stateGet rt.(state) k).
Proof.
  intros [Hi ->]%onStorageChanged_Some.
  assert (forall k, is_Some (rawUpdatesOf changes !! k) -> k ∈ UI_ALLOWED_UPDATE_KEYS)
    as Hkeys.
  { intros k [v Hv]. by apply rawUpdatesOf_lookup in Hv as [Hk _]. }
  split; [exact Hkeys|].
  intros raw patches k Hs Hk Hd. unfold reconcileJob.
  rewrite ensureInitialized_again by exact Hi.
  destruct (noKeys _); [reflexivity|]. rt_cbn. rewrite Hs.
  apply compute_unnamed_field; [exact Hd|].
  unfold Js.hasKey. apply bool_decide_eq_false_2. intros Hin. by apply Hk, Hkeys.
Qed.

Lemma storage_changes_are_filtered_witness :
  let rt := ensureInitialized (startRuntime ∅) in
  let changes :=
    Js.obj [("currentTask", Js.obj [("newValue", VStr "plan")]);
            ("exerciseStatsPushUps", Js.obj [("newValue", VNum (Num.ofZ 99))])] in
  exists u, onStorageChanged changes (VStr "local") rt = Some u
            /\ forall k, is_Some (u !! k) -> k ∈ UI_ALLOWED_UPDATE_KEYS.
Proof.
  intros rt changes.
  assert (onStorageChanged changes (VStr "local") rt = Some (rawUpdatesOf changes))
    as Hu by (vm_compute; reflexivity).
  exists (rawUpdatesOf changes). split; [exact Hu|].
  exact (proj1 (storage_changes_are_filtered changes (VStr "local") rt _ Hu)).
Defined.

(** X14: a change of the storage area in which every key that the interface
    may write carries the value that the state in memory has already (as
    the writes of the worker itself do) appends no job to the chain. *)
Theorem own_writes_are_not_reconciled (rt : Runtime) (props : gmap string value)
    (areaName : value) :
  (forall k change, props !! k = Some change -> k ∈ UI_ALLOWED_UPDATE_KEYS ->
                    Js.get change "newValue" = stateGet rt.(state) k) ->
  onStorageChanged (VObj props) areaName rt = None.
Proof.
  intros H. apply carried_state_is_dropped. cbn [carriesState]. exact H.
Qed.

Lemma own_writes_are_not_reconciled_witness :
  let rt := settle (updateState (setTask "plan") (ensureInitialized (startRuntime ∅))) in
  let props : gmap string value :=
    {[ "currentTask" := Js.obj [("oldValue", VStr ""); ("newValue", VStr "plan")] ]} in
  onStorageChanged (VObj props) (VStr "local") rt = None.
Proof.
  intros rt props. apply own_writes_are_not_reconciled.
  intros k change Hc Hk. subst props.
  apply lookup_singleton_Some in Hc as [<- <-]. vm_compute. reflexivity.
Defined.

(** ** The options page and the site lists *)

Lemma sortStrings_singleton (h : string) : sortStrings [h] = [h].
Proof. apply sortStrings_sorted_id. repeat constructor. Qed.

Lemma normalizeDomainList_one (input : string) (fallback : list string) :
  normalizeDomainList (VArr [VStr input]) fallback MAX_SITE_LIST_ITEMS =
  if Str.truthy (Str.toLowerCase (Str.trim input)) && acceptsHostname (entryOf input)
  then [entryOf input] else [].
Proof.
  unfold normalizeDomainList. rewrite domainLoop_cons_str.
  destruct (Str.truthy (Str.toLowerCase (Str.trim input))); cbn [negb andb];
    [|reflexivity].
  destruct (acceptsHostname (entryOf input)); cbn [negb]; [|reflexivity].
  rewrite bool_decide_eq_false_2 by set_solver.
  cbn [app length domainLoop]. unfold MAX_SITE_LIST_ITEMS. cbn [Nat.leb].
  apply sortStrings_singleton.
Qed.

(** X15: the options page and the state core agree on an input: the list
    that [normalizeDomainList] gives for the one entry [input] holds the
    host name of [normalizeHostnameInput(input)] when there is one of at
    most 253 code units, and is empty otherwise. *)
Theorem options_input_agrees_with_engine (input : string) (fallback : list string) :
  normalizeDomainList (VArr [VStr input]) fallback MAX_SITE_LIST_ITEMS =
  match normalizeHostnameInput input with
  | Some hostname => if (253 <? String.length hostname)%nat then [] else [hostname]
  | None => []
  end.
Proof.
  rewrite normalizeDomainList_one. unfold normalizeHostnameInput, entryOf.
  destruct (Str.truthy (Str.toLowerCase (Str.trim input))); cbn [negb andb];
    [|reflexivity].
  set (h := hostnameOf (Str.toLowerCase (Str.trim input))).
  unfold acceptsHostname.
  destruct (Str.truthy h); cbn [negb andb orb]; [|reflexivity].
  destruct (Str.existsb Str.is_space h); cbn [negb andb orb];
    [by rewrite !andb_false_r|].
  destruct (Str.includes h "."); cbn [negb andb orb]; [|by rewrite !andb_false_r].
  destruct (matchesHostPattern h); cbn [negb andb orb]; [|by rewrite !andb_false_r].
  destruct (Str.startsWith h "." || Str.endsWith h "."); cbn [negb andb orb];
    [by rewrite !andb_false_r|].
  destruct (Str.includes h ".."); cbn [negb andb orb]; [by rewrite !andb_false_r|].
  by destruct (253 <? String.length h)%nat.
Qed.

(** The loop stops at the cap: what follows the entry that fills the list
    is not read. *)
Lemma domainLoop_full maxItems (l : list string) (rest : list value) :
  forall out seen,
  (forall h, h ∈ seen <-> h ∈ out) ->
  Forall validEntry l -> wwwFree l -> NoDup (out ++ l) ->
  length (out ++ l) = maxItems -> l <> [] ->
  domainLoop maxItems (map VStr l ++ rest) out seen = (out ++ l)%list.
Proof.
  induction l as [|h l IH]; intros out seen Hseen Hv Hw Hnd Hlen Hne; [congruence|].
  apply Forall_cons in Hv as [Hh Hv]. apply Forall_cons in Hw as [Hhw Hw].
  destruct (entry_fixed h Hh Hhw) as [He Hraw].
  cbn [map app]. rewrite domainLoop_cons_str, Hraw, He, (validEntry_accepts h Hh).
  destruct Hh as (Hp & _). unfold matchesHostPattern in Hp.
  apply andb_true_iff in Hp as [-> _]. cbn [negb].
  assert (h ∉ out) as Hout.
  { apply NoDup_app in Hnd as (_ & Hdis & _). intros Hin.
    apply (Hdis h Hin). apply list_elem_of_here. }
  rewrite bool_decide_eq_false_2 by (by rewrite Hseen).
  assert ((out ++ h :: l)%list = ((out ++ [h]) ++ l)%list) as Hassoc
    by (by rewrite <- app_assoc).
  destruct (maxItems <=? length (out ++ [h]))%nat eqn:Hcap.
  - apply Nat.leb_le in Hcap. rewrite !length_app in *. simpl in *.
    destruct l; [reflexivity|simpl in *; lia].
  - apply Nat.leb_gt in Hcap. rewrite Hassoc. apply IH; auto.
    + intros x. rewrite elem_of_union, elem_of_singleton, elem_of_app,
        list_elem_of_singleton, Hseen. tauto.
    + by rewrite <- Hassoc.
    + by rewrite <- Hassoc.
    + intros ->. rewrite !length_app in *. simpl in *. lia.
Qed.

Lemma appended_list_clean (l : list string) (h : string) :
  cleanList l -> validEntry h -> h ∉ l -> (length l < MAX_SITE_LIST_ITEMS)%nat ->
  cleanList (l ++ [h]).
Proof.
  intros (Hv & Hnd & Hlen) Hh Hin Hlt. split_and!.
  - apply Forall_app. split; [exact Hv|by apply Forall_singleton].
  - apply NoDup_app. split_and!; [exact Hnd| |apply NoDup_singleton].
    intros x Hx [->|[]%elem_of_nil]%elem_of_cons. contradiction.
  - rewrite length_app. simpl. lia.
Qed.

Lemma appended_site (l fallback : list string) (h : string) :
  cleanList l -> wwwFree l -> validEntry h -> Str.startsWith h "www." = false ->
  h ∉ l ->
  normalizeDomainList (ofStrings (l ++ [h])) fallback MAX_SITE_LIST_ITEMS
  = if (length l <? MAX_SITE_LIST_ITEMS)%nat then sortStrings (l ++ [h])
    else sortStrings l.
Proof.
  intros Hc Hw Hh Hhw Hin. destruct (length l <? MAX_SITE_LIST_ITEMS)%nat eqn:Hlt.
  - apply Nat.ltb_lt in Hlt. apply normalizeDomainList_fixed.
    + by apply appended_list_clean.
    + apply Forall_app. split; [exact Hw|by apply Forall_singleton].
  - apply Nat.ltb_ge in Hlt. destruct Hc as (Hv & Hnd & Hlen).
    unfold normalizeDomainList, ofStrings. rewrite map_app. f_equal.
    apply (domainLoop_full MAX_SITE_LIST_ITEMS l _ [] ∅); auto.
    + intros x. rewrite elem_of_nil. set_solver.
    + simpl. lia.
    + intros ->. unfold MAX_SITE_LIST_ITEMS in Hlt. simpl in Hlt. lia.
Qed.

Lemma compute_distractingSites (s : State) (v : value) :
  (computeNextState s (Js.obj [("distractingSites", v)])).(distractingSites)
  = normalizeSites v s.(distractingSites).
Proof.
  unfold computeNextState, Js.obj. cbn [Js.truthy Js.isObject negb orb].
  unfold enforceStateInvariants, enforceStateValidity. proj_cbn.
  change (list_to_map [("distractingSites", v)])
    with (<["distractingSites" := v]> (∅ : gmap string value)).
  apply patched_insert.
Qed.

Lemma compute_deepWorkBlockedSites (s : State) (v : value) :
  (computeNextState s (Js.obj [("deepWorkBlockedSites", v)])).(deepWorkBlockedSites)
  = normalizeSites v s.(deepWorkBlockedSites).
Proof.
  unfold computeNextState, Js.obj. cbn [Js.truthy Js.isObject negb orb].
  unfold enforceStateInvariants, enforceStateValidity. proj_cbn.
  change (list_to_map [("deepWorkBlockedSites", v)])
    with (<["deepWorkBlockedSites" := v]> (∅ : gmap string value)).
  apply patched_insert.
Qed.

(** X16: the update that the options page sends for a new host name [h], the
    site list with [h] at its end, gives the sorted list with [h] in it
    while the list has fewer than 200 entries; for a list of 200 entries it
    gives the sorted list without [h], which is dropped without an error.
    Here [h] is a valid entry without "www." in front that the list does
    not hold yet, and the list of the reached state is free of "www." in
    front. *)
Theorem adding_a_site (raw : value) (patches : list value) (h : string) :
  let s := reached raw patches in
  validEntry h -> Str.startsWith h "www." = false ->
  (wwwFree s.(distractingSites) -> h ∉ s.(distractingSites) ->
   (computeNextState s
      (Js.obj [("distractingSites", ofStrings (s.(distractingSites) ++ [h]))]))
     .(distractingSites)
   = if (length s.(distractingSites) <? MAX_SITE_LIST_ITEMS)%nat
     then sortStrings (s.(distractingSites) ++ [h])
     else sortStrings s.(distractingSites))
  /\ (wwwFree s.(deepWorkBlockedSites) -> h ∉ s.(deepWorkBlockedSites) ->
      (computeNextState s
         (Js.obj [("deepWorkBlockedSites", ofStrings (s.(deepWorkBlockedSites) ++ [h]))]))
        .(deepWorkBlockedSites)
      = if (length s.(deepWorkBlockedSites) <? MAX_SITE_LIST_ITEMS)%nat
        then sortStrings (s.(deepWorkBlockedSites) ++ [h])
        else sortStrings s.(deepWorkBlockedSites)).
Proof.
  intros s Hh Hhw. destruct (reached_lists_clean raw patches) as [Hd Hw].
  split; intros Hfree Hin.
  - rewrite compute_distractingSites. by apply appended_site.
  - rewrite compute_deepWorkBlockedSites. by apply appended_site.
Qed.

Lemma adding_a_site_witness :
  let s := reached VNull [] in
  (computeNextState s
     (Js.obj [("distractingSites", ofStrings (s.(distractingSites) ++ ["news.example.org"]))]))
    .(distractingSites)
  = sortStrings (s.(distractingSites) ++ ["news.example.org"]).
Proof.
  intros s.
  refine (proj1 (adding_a_site VNull [] "news.example.org" _ _) _ _).
  - apply accepts_validEntry. vm_compute. reflexivity.
  - vm_compute. reflexivity.
  - unfold wwwFree. vm_compute. repeat constructor.
  - vm_compute. intros H. apply list_elem_of_In in H. simpl in H.
    intuition discriminate.
Defined.

(** ** Starting and ending a focus session *)

Lemma settle_update_hydrates (rt : Runtime) (props : gmap string value) :
  idle rt ->
  settle (updateState (VObj props) rt)
  = settle (updateState (VObj props) (ensureInitialized rt)).
Proof.
  intros [Hc Hp]. rewrite <- ensureInitialized_updateState.
  set (q := updateState (VObj props) rt).
  assert (updateChain q = [UpdateJob (VObj props)] /\ persisting q = None) as [Hqc Hqp].
  { subst q. unfold updateState. cbn [Js.truthy Js.isObject negb orb]. rt_cbn.
    by rewrite Hc, Hp. }
  unfold settle. destruct (ensureInitialized_chain q) as (-> & _).
  rewrite Hqc. cbn [length]. change (2 * 2)%nat with (3 + 1)%nat.
  rewrite !(ticks_add 3 1). change (ticks 1 ?r) with (tick r).
  rewrite tick_hydrated; [reflexivity|exact Hqp|]. rewrite Hqc. discriminate.
Qed.

(** The state once an update has been awaited: that of [computeNextState],
    or the state as it was when the delta is empty. *)
Lemma state_after_update (rt : Runtime) (props : gmap string value) :
  idle rt ->
  let s := (ensureInitialized rt).(state) in
  let next := computeNextState s (VObj props) in
  let rt' := settle (updateState (VObj props) rt) in
  rt'.(state) = next
  \/ rt'.(state) = s /\ diffState (toValue s) next = ∅.
Proof.
  intros Hidle s next rt'. subst rt'. rewrite settle_update_hydrates by exact Hidle.
  assert (idle (ensureInitialized rt)) as Hidle'.
  { destruct Hidle as [Hc Hp]. destruct (ensureInitialized_chain rt) as (H1 & H2 & _).
    split; congruence. }
  rewrite (settle_update _ _ (ensureInitialized_done rt) Hidle').
  cbn [Js.truthy Js.isObject negb orb]. fold s. fold next.
  destruct (noKeys _) eqn:Hn; [right|left; reflexivity].
  split; [reflexivity|]. by apply noKeys_empty.
Qed.

Lemma empty_delta_field (s next : State) (k : string) :
  diffState (toValue s) next = ∅ -> k ∈ STATE_KEYS ->
  valueChanged (stateGet s k) (stateGet next k) = false.
Proof.
  intros H Hk. apply (f_equal (fun m => m !! k)) in H.
  rewrite diffState_lookup, lookup_empty, bool_decide_eq_true_2 in H by exact Hk.
  by destruct (valueChanged _ _).
Qed.

Ltac state_key := apply list_elem_of_In; simpl; tauto.

Lemma empty_delta_bools (s next : State) :
  diffState (toValue s) next = ∅ ->
  s.(isInFlow) = next.(isInFlow)
  /\ s.(breakReminderEnabled) = next.(breakReminderEnabled)
  /\ s.(currentTask) = next.(currentTask).
Proof.
  intros H. split_and!.
  - apply unchanged_bool. apply (empty_delta_field s next "isInFlow" H). state_key.
  - apply unchanged_bool.
    apply (empty_delta_field s next "breakReminderEnabled" H). state_key.
  - apply unchanged_str. apply (empty_delta_field s next "currentTask" H). state_key.
Qed.

Lemma empty_delta_timer (s next : State) :
  diffState (toValue s) next = ∅ ->
  sameValue (ofNumberOrNull s.(reminderStartTime)) (ofNumberOrNull next.(reminderStartTime))
  /\ sameValue (ofNumberOrNull s.(reminderInterval)) (ofNumberOrNull next.(reminderInterval))
  /\ sameValue (ofNumberOrNull s.(reminderExpectedEndTime))
       (ofNumberOrNull next.(reminderExpectedEndTime)).
Proof.
  intros H. split_and!; apply unchanged_nullable.
  - apply (empty_delta_field s next "reminderStartTime" H). state_key.
  - apply (empty_delta_field s next "reminderInterval" H). state_key.
  - apply (empty_delta_field s next "reminderExpectedEndTime" H). state_key.
Qed.

Lemma sameValue_null (o : option number) :
  sameValue (ofNumberOrNull o) VNull -> o = None.
Proof. by destruct o. Qed.

Lemma patched_in {A} (props : gmap string value) (k : string) (v : value)
    (norm : value -> A -> A) (cur : A) :
  props !! k = Some v -> patched (VObj props) k norm cur = norm v cur.
Proof.
  intros H. unfold patched, Js.hasKey, Js.get. rewrite H. cbn [default].
  by rewrite bool_decide_eq_true_2 by eauto.
Qed.

Lemma patched_out {A} (props : gmap string value) (k : string)
    (norm : value -> A -> A) (cur : A) :
  props !! k = None -> patched (VObj props) k norm cur = cur.
Proof.
  intros H. unfold patched, Js.hasKey. rewrite H.
  by rewrite bool_decide_eq_false_2 by (by intros [? ?]).
Qed.

Lemma compute_endSession (s : State) : sessionEnded (computeNextState s endSessionUpdates).
Proof.
  unfold sessionEnded, computeNextState, endSessionUpdates, Js.obj.
  cbn [Js.truthy Js.isObject negb orb].
  unfold enforceStateInvariants, enforceStateValidity. proj_cbn.
  rewrite (patched_in _ "currentTask" (VStr "")) by reflexivity.
  rewrite (patched_in _ "isInFlow" (VBool false)) by reflexivity.
  cbn. repeat split.
Qed.

Lemma session_ends (rt : Runtime) :
  idle rt -> sessionEnded (settle (updateState endSessionUpdates rt)).(state).
Proof.
  intros Hidle. unfold endSessionUpdates, Js.obj.
  match goal with |- context [VObj ?m] =>
    destruct (state_after_update rt m Hidle) as [->|[-> Hd]]
  end; [apply compute_endSession|].
  pose proof (compute_endSession (ensureInitialized rt).(state)) as He.
  unfold endSessionUpdates, Js.obj in He.
  destruct He as (E1 & E2 & E3 & E4 & E5 & E6).
  destruct (empty_delta_bools _ _ Hd) as (B1 & B2 & B3).
  destruct (empty_delta_timer _ _ Hd) as (T1 & T2 & T3).
  rewrite E4 in T1. rewrite E5 in T2. rewrite E6 in T3.
  unfold sessionEnded. rewrite B1, B2, B3.
  split_and!; auto using sameValue_null.
Qed.

(** X17: on an idle runtime, [stopDeepWork] leaves a state out of flow, with
    an empty task, the break reminder off and the three timer fields null;
    so does [handleBreakReminderEnd] when it ends the cycle, which it does
    exactly when the state is in flow with a task and the reminder on, and
    the expected end is not a finite time later than now. *)
Theorem ending_a_session_clears_it (rt : Runtime) (now : number) :
  idle rt ->
  sessionEnded (stopDeepWork rt).2.(state)
  /\ ((handleBreakReminderEnd now rt).1 = CycleEnded ->
      sessionEnded (handleBreakReminderEnd now rt).2.(state))
  /\ ((handleBreakReminderEnd now rt).1 = CycleEnded <->
      rt.(state).(isInFlow) = true /\ rt.(state).(currentTask) <> ""
      /\ rt.(state).(breakReminderEnabled) = true
      /\ forall expected, rt.(state).(reminderExpectedEndTime) = Some expected ->
                          Num.isFinite expected && Num.lt now expected = false).
Proof.
  intros Hidle. split_and!.
  - by apply session_ends.
  - unfold handleBreakReminderEnd.
    destruct (negb _ || negb _ || negb _); [discriminate|].
    destruct (reminderExpectedEndTime (state rt)) as [e|];
      [destruct (Num.isFinite e && Num.lt now e); [discriminate|]|];
      intros _; by apply session_ends.
  - unfold handleBreakReminderEnd.
    destruct (isInFlow (state rt)), (currentTask (state rt)) as [|c t],
      (breakReminderEnabled (state rt)); cbn [negb orb Str.truthy fst];
      try (split; [discriminate|intros (? & ? & ? & _); congruence]).
    destruct (reminderExpectedEndTime (state rt)) as [e|].
    + destruct (Num.isFinite e && Num.lt now e) eqn:He; cbn [fst].
      * split; [discriminate|]. intros (_ & _ & _ & H).
        specialize (H e eq_refl). congruence.
      * split; [|reflexivity]. intros _.
        split_and!; [reflexivity|discriminate|reflexivity|]. by intros ? [= <-].
    + cbn [fst]. split; [|reflexivity]. intros _.
      split_and!; [reflexivity|discriminate|reflexivity|]. by intros ? [=].
Qed.

Lemma ending_a_session_clears_it_witness :
  let rt := settle (updateState
                      (Js.obj [("currentTask", VStr "write"); ("isInFlow", VBool true);
                               ("breakReminderEnabled", VBool true)])
                      (startRuntime ∅)) in
  sessionEnded (handleBreakReminderEnd (Num.ofZ 1700000000000) rt).2.(state).
Proof.
  intros rt.
  refine (proj1 (proj2 (ending_a_session_clears_it rt (Num.ofZ 1700000000000) _)) _).
  - apply settle_idle.
  - vm_compute. reflexivity.
Defined.

Lemma num_eq_finite (n iv : number) :
  Num.isFinite iv = true -> Num.truthy iv = true -> Num.eq n iv = true -> n = iv.
Proof.
  destruct iv as [[|]|[|]| |s m e]; try discriminate. intros _ _.
  unfold Num.eq, SFeqb. destruct (SFcompare n (S754_finite s m e)) as [[]|] eqn:Hc;
    try discriminate. intros _.
  assert (forall c, CompOpp c = Eq -> c = Eq) as Hopp by (by intros []).
  destruct s, n as [[|]|[|]| |[|] m' e']; cbn [SFcompare] in Hc;
    try discriminate; injection Hc as Hc.
  - by destruct (magnitude_Eq _ _ _ _ Gt Lt CompOpp ltac:(congruence) ltac:(congruence)
                   Hopp Hc) as [-> ->].
  - by destruct (magnitude_Eq _ _ _ _ Lt Gt (fun c => c) ltac:(congruence)
                   ltac:(congruence) ltac:(auto) Hc) as [-> ->].
Qed.

Lemma minutes_checked :
  forallb (fun k =>
             let n := Num.ofZ (Z.of_nat k) in
             let safe := Math.trunc n in
             let iv := Math.mul (Math.mul safe (Num.ofZ 60)) (Num.ofZ 1000) in
             Num.isFinite n
             && negb (Num.lt safe MIN_DEEPWORK_MINUTES || Num.gt safe MAX_DEEPWORK_MINUTES)
             && Num.eq iv (Num.ofZ (Z.of_nat k * 60 * 1000))
             && Num.isFinite (Num.ofZ (Z.of_nat k * 60 * 1000))
             && Num.truthy (Num.ofZ (Z.of_nat k * 60 * 1000))
             && negb (Num.lt iv MIN_INTERVAL_MS || Num.gt iv MAX_INTERVAL_MS))
    (seq 1 1440) = true.
Proof. vm_compute. reflexivity. Qed.

Lemma trimEnd_idem (s : string) : Str.trimEnd (Str.trimEnd s) = Str.trimEnd s.
Proof.
  induction s as [|c r IH]; [reflexivity|]. cbn [Str.trimEnd].
  destruct (Str.trimEnd r) as [|d r'] eqn:Hr.
  - destruct (Str.is_space c) eqn:Hc; [reflexivity|]. cbn [Str.trimEnd]. by rewrite Hc.
  - cbn [Str.trimEnd]. cbn [Str.trimEnd] in IH. by rewrite IH.
Qed.

Lemma trim_idem (s : string) : Str.trim (Str.trim s) = Str.trim s.
Proof.
  unfold Str.trim at 1. rewrite trim_head. unfold Str.trim. apply trimEnd_idem.
Qed.

(** The task that [normalizeTask] makes of a trimmed, non-empty text. *)
Lemma normalizeTask_trimmed (t fallback : string) :
  Str.trim t = t -> Str.truthy t = true ->
  normalizeTask (VStr t) fallback
  = (if (MAX_TASK_LENGTH <? String.length t)%nat then Str.slice0 MAX_TASK_LENGTH t else t)
  /\ Str.truthy (normalizeTask (VStr t) fallback) = true.
Proof.
  intros Ht Hn. unfold normalizeTask. rewrite Ht, Hn. cbn [negb].
  split; [reflexivity|]. destruct (MAX_TASK_LENGTH <? String.length t)%nat; [|exact Hn].
  by destruct t.
Qed.

Lemma compute_start (s : State) (nextTask : string) (iv : number) :
  Str.trim nextTask = nextTask -> Str.truthy nextTask = true ->
  Num.isFinite iv = true ->
  Num.lt iv MIN_INTERVAL_MS || Num.gt iv MAX_INTERVAL_MS = false ->
  let next := computeNextState s (startDeepWorkUpdates nextTask iv) in
  next.(isInFlow) = true /\ next.(breakReminderEnabled) = true
  /\ next.(currentTask)
     = (if (MAX_TASK_LENGTH <? String.length nextTask)%nat
        then Str.slice0 MAX_TASK_LENGTH nextTask else nextTask)
  /\ next.(reminderInterval) = Some iv
  /\ next.(reminderStartTime) = None /\ next.(reminderExpectedEndTime) = None.
Proof.
  intros Ht Hn Hf Hr next. subst next.
  unfold computeNextState, startDeepWorkUpdates, Js.obj.
  cbn [Js.truthy Js.isObject negb orb].
  unfold enforceStateInvariants, enforceStateValidity. proj_cbn.
  rewrite (patched_in _ "currentTask" (VStr nextTask)) by reflexivity.
  rewrite (patched_in _ "isInFlow" (VBool true)) by reflexivity.
  rewrite (patched_in _ "breakReminderEnabled" (VBool true)) by reflexivity.
  rewrite (patched_in _ "reminderInterval" (VNum iv)) by reflexivity.
  rewrite (patched_in _ "reminderStartTime" VNull) by reflexivity.
  rewrite (patched_in _ "reminderExpectedEndTime" VNull) by reflexivity.
  destruct (normalizeTask_trimmed nextTask s.(currentTask) Ht Hn) as [Htask Htruthy].
  rewrite Htruthy. cbn [normalizeBoolean negb andb orb].
  rewrite Htruthy. cbn [negb andb orb normalizeNumberOrNull].
  unfold normalizeIntervalMs. rewrite Hf, Hr. cbn [negb].
  split_and!; auto.
Qed.

Lemma sameValue_some (o : option number) (n : number) :
  sameValue (ofNumberOrNull o) (VNum n) -> exists n', o = Some n' /\ Num.eq n' n = true.
Proof. destruct o as [n'|]; simpl; [eauto|tauto]. Qed.

Lemma started_state (rt : Runtime) (nextTask : string) (iv : number) :
  idle rt ->
  Str.trim nextTask = nextTask -> Str.truthy nextTask = true ->
  Num.isFinite iv = true -> Num.truthy iv = true ->
  Num.lt iv MIN_INTERVAL_MS || Num.gt iv MAX_INTERVAL_MS = false ->
  let st := (settle (updateState (startDeepWorkUpdates nextTask iv) rt)).(state) in
  st.(isInFlow) = true /\ st.(breakReminderEnabled) = true
  /\ st.(currentTask)
     = (if (MAX_TASK_LENGTH <? String.length nextTask)%nat
        then Str.slice0 MAX_TASK_LENGTH nextTask else nextTask)
  /\ st.(reminderInterval) = Some iv
  /\ st.(reminderStartTime) = None /\ st.(reminderExpectedEndTime) = None.
Proof.
  intros Hidle Ht Hn Hf Hnz Hr st. subst st.
  pose proof (compute_start (ensureInitialized rt).(state) nextTask iv Ht Hn Hf Hr)
    as Hnext. cbv zeta in Hnext. unfold startDeepWorkUpdates, Js.obj in *.
  match goal with |- context [VObj ?m] =>
    destruct (state_after_update rt m Hidle) as [->|[-> Hd]]
  end; [exact Hnext|].
  destruct Hnext as (E1 & E2 & E3 & E4 & E5 & E6).
  destruct (empty_delta_bools _ _ Hd) as (B1 & B2 & B3).
  destruct (empty_delta_timer _ _ Hd) as (T1 & T2 & T3).
  rewrite E5 in T1. rewrite E4 in T2. rewrite E6 in T3.
  rewrite B1, B2, B3. split_and!; auto using sameValue_null.
  apply sameValue_some in T2 as (n' & -> & Heq).
  by rewrite (num_eq_finite n' iv Hf Hnz Heq).
Qed.

Lemma nextTask_trimmed (task : value) :
  let rawTask := match task with VStr t => Str.trim t | _ => "" end in
  let nextTask := if Str.truthy rawTask then rawTask else DEFAULT_DEEPWORK_TASK in
  Str.trim nextTask = nextTask /\ Str.truthy nextTask = true.
Proof.
  cbv zeta. destruct task as [| | | |t| |]; try (split; reflexivity).
  destruct (Str.truthy (Str.trim t)) eqn:Ht; [|split; reflexivity].
  split; [apply trim_idem|exact Ht].
Qed.

(** X18: on an idle runtime, [startDeepWork] with a whole number of minutes
    from 1 to 1440 succeeds and leaves the state in flow, the break
    reminder on, the task trimmed (the default task when it is empty) and
    cut at 120 code units, [reminderInterval] at the minutes in
    milliseconds, and start and expected end of the timer null. *)
Theorem start_deep_work (rt : Runtime) (m : Z) (task : value) :
  idle rt -> (1 <= m <= 1440)%Z ->
  let rawTask := match task with VStr t => Str.trim t | _ => "" end in
  let nextTask := if Str.truthy rawTask then rawTask else DEFAULT_DEEPWORK_TASK in
  let r := startDeepWork (VNum (Num.ofZ m)) task rt in
  r.1 = true
  /\ r.2.(state).(isInFlow) = true /\ r.2.(state).(breakReminderEnabled) = true
  /\ r.2.(state).(currentTask)
     = (if (MAX_TASK_LENGTH <? String.length nextTask)%nat
        then Str.slice0 MAX_TASK_LENGTH nextTask else nextTask)
  /\ r.2.(state).(reminderInterval) = Some (Num.ofZ (m * 60 * 1000))
  /\ r.2.(state).(reminderStartTime) = None
  /\ r.2.(state).(reminderExpectedEndTime) = None.
Proof.
  intros Hidle Hm rawTask nextTask r.
  pose proof minutes_checked as Hall. rewrite forallb_forall in Hall.
  specialize (Hall (Z.to_nat m)). rewrite Z2Nat.id in Hall by lia.
  assert (In (Z.to_nat m) (seq 1 1440)) as Hin by (apply in_seq; lia).
  specialize (Hall Hin). cbv zeta in Hall.
  repeat match type of Hall with _ && _ = true =>
    let H := fresh "C" in apply andb_true_iff in Hall as [Hall H] end.
  apply negb_true_iff in C. apply negb_true_iff in C3.
  destruct (nextTask_trimmed task) as [Ht Hn]. fold rawTask in Ht, Hn.
  fold nextTask in Ht, Hn.
  assert (Math.mul (Math.mul (Math.trunc (Num.ofZ m)) (Num.ofZ 60)) (Num.ofZ 1000)
          = Num.ofZ (m * 60 * 1000)) as Hiv by (by apply num_eq_finite).
  subst r. unfold startDeepWork. rewrite Hall, C3. fold rawTask. fold nextTask.
  rewrite Hiv in *. cbn [fst snd]. split; [reflexivity|].
  by apply started_state.
Qed.

Lemma start_deep_work_witness :
  let r := startDeepWork (VNum (Num.ofZ 25)) (VStr "  write the report ")
             (startRuntime ∅) in
  r.1 = true
  /\ r.2.(state).(isInFlow) = true
  /\ r.2.(state).(currentTask) = "write the report"
  /\ r.2.(state).(reminderInterval) = Some (Num.ofZ 1500000).
Proof.
  destruct (start_deep_work (startRuntime ∅) 25 (VStr "  write the report "))
    as (H1 & H2 & _ & H4 & H5 & _); [split; reflexivity|lia|].
  split_and!; [exact H1|exact H2|exact H4|exact H5].
Defined.

Lemma compute_reset (s : State) (task : string) (now : number) :
  Str.trim task = task -> Str.truthy task = true ->
  Num.isFinite now = true ->
  Num.isFinite (Math.add now BREAK_REMINDER_INTERVAL) = true ->
  let next :=
    computeNextState s
      (Js.obj ([("currentTask", VStr task); ("isInFlow", VBool true);
                ("breakReminderEnabled", VBool true)]
               ++ timerUpdates now BREAK_REMINDER_INTERVAL)) in
  next.(isInFlow) = true /\ next.(breakReminderEnabled) = true
  /\ next.(currentTask)
     = (if (MAX_TASK_LENGTH <? String.length task)%nat
        then Str.slice0 MAX_TASK_LENGTH task else task)
  /\ next.(reminderStartTime) = Some now
  /\ next.(reminderInterval) = Some BREAK_REMINDER_INTERVAL
  /\ next.(reminderExpectedEndTime) = Some (Math.add now BREAK_REMINDER_INTERVAL).
Proof.
  intros Ht Hn Hf Hf' next. subst next.
  unfold computeNextState, timerUpdates, Js.obj. cbn [app].
  cbn [Js.truthy Js.isObject negb orb].
  unfold enforceStateInvariants, enforceStateValidity. proj_cbn.
  rewrite (patched_in _ "currentTask" (VStr task)) by reflexivity.
  rewrite (patched_in _ "isInFlow" (VBool true)) by reflexivity.
  rewrite (patched_in _ "breakReminderEnabled" (VBool true)) by reflexivity.
  rewrite (patched_in _ "reminderInterval" (VNum BREAK_REMINDER_INTERVAL))
    by reflexivity.
  rewrite (patched_in _ "reminderStartTime" (VNum now)) by reflexivity.
  rewrite (patched_in _ "reminderExpectedEndTime"
             (VNum (Math.add now BREAK_REMINDER_INTERVAL))) by reflexivity.
  destruct (normalizeTask_trimmed task s.(currentTask) Ht Hn) as [Htask Htruthy].
  rewrite Htruthy. cbn [normalizeBoolean negb andb orb].
  rewrite Htruthy. cbn [negb andb orb normalizeNumberOrNull].
  rewrite Hf, Hf'. split_and!; auto.
Qed.

(** X19: on an idle runtime, [resetBreakReminder] with a task that is not
    blank, at a time [now] that is finite and stays finite when the
    interval is added, succeeds and leaves the state in flow with the
    reminder on and a complete timer: the interval of the break reminder,
    the start at [now], the expected end at [now] plus the interval. *)
Theorem reset_break_reminder_sets_timer (rt : Runtime) (now : number) (data : value) :
  idle rt ->
  Num.isFinite now = true ->
  Num.isFinite (Math.add now BREAK_REMINDER_INTERVAL) = true ->
  (exists t, Js.get data "task" = VStr t /\ Str.truthy (Str.trim t) = true) ->
  let r := resetBreakReminder now data rt in
  r.1 = true
  /\ r.2.(state).(isInFlow) = true /\ r.2.(state).(breakReminderEnabled) = true
  /\ flowHasTimer r.2.(state)
  /\ r.2.(state).(reminderInterval) = Some BREAK_REMINDER_INTERVAL
  /\ (exists started, r.2.(state).(reminderStartTime) = Some started
                      /\ Num.eq started now = true)
  /\ (exists expected, r.2.(state).(reminderExpectedEndTime) = Some expected
        /\ Num.eq expected (Math.add now BREAK_REMINDER_INTERVAL) = true).
Proof.
  intros Hidle Hf Hf' (t & Hdata & Ht) r. subst r. unfold resetBreakReminder.
  rewrite Hdata, Ht. cbn [negb fst snd]. split; [reflexivity|].
  assert (idle (ensureInitialized rt)) as Hidle'.
  { destruct Hidle as [Hc Hp]. destruct (ensureInitialized_chain rt) as (H1 & H2 & _).
    split; congruence. }
  pose proof (compute_reset (ensureInitialized rt).(state) (Str.trim t) now
                (trim_idem t) Ht Hf Hf') as Hnext.
  cbv zeta in Hnext. unfold timerUpdates, Js.obj in *. cbn [app] in *.
  assert (forall st : State,
    st.(isInFlow) = true /\ st.(breakReminderEnabled) = true
    /\ st.(reminderInterval) = Some BREAK_REMINDER_INTERVAL
    /\ (exists started, st.(reminderStartTime) = Some started /\ Num.eq started now = true)
    /\ (exists expected, st.(reminderExpectedEndTime) = Some expected
          /\ Num.eq expected (Math.add now BREAK_REMINDER_INTERVAL) = true) ->
    st.(isInFlow) = true /\ st.(breakReminderEnabled) = true
    /\ flowHasTimer st
    /\ st.(reminderInterval) = Some BREAK_REMINDER_INTERVAL
    /\ (exists started, st.(reminderStartTime) = Some started /\ Num.eq started now = true)
    /\ (exists expected, st.(reminderExpectedEndTime) = Some expected
          /\ Num.eq expected (Math.add now BREAK_REMINDER_INTERVAL) = true)) as Hpack.
  { intros st (P1 & P2 & P3 & (a & P4 & P4') & (b & P5 & P5')).
    split_and!; eauto. intros _. rewrite P3, P4, P5. split_and!; discriminate. }
  apply Hpack.
  match goal with |- context [VObj ?m] =>
    destruct (state_after_update (ensureInitialized rt) m Hidle') as [->|[-> Hd]]
  end; rewrite (ensureInitialized_again (ensureInitialized rt))
         by apply ensureInitialized_done.
  - destruct Hnext as (E1 & E2 & E3 & E4 & E5 & E6).
    split_and!; auto.
    + exists now. split; [exact E4|]. apply num_eq_refl. by apply finite_notNaN.
    + eexists. split; [exact E6|]. apply num_eq_refl. by apply finite_notNaN.
  - rewrite (ensureInitialized_again (ensureInitialized rt)) in Hd
      by apply ensureInitialized_done.
    destruct Hnext as (E1 & E2 & E3 & E4 & E5 & E6).
    destruct (empty_delta_bools _ _ Hd) as (B1 & B2 & B3).
    destruct (empty_delta_timer _ _ Hd) as (T1 & T2 & T3).
    rewrite E4 in T1. rewrite E5 in T2. rewrite E6 in T3.
    rewrite B1, B2. split_and!; auto using sameValue_some.
    apply sameValue_some in T2 as (n' & -> & Heq).
    by rewrite (num_eq_finite n' BREAK_REMINDER_INTERVAL eq_refl eq_refl Heq).
Qed.

Lemma reset_break_reminder_sets_timer_witness :
  let r := resetBreakReminder (Num.ofZ 1700000000000)
             (Js.obj [("task", VStr " review ")]) (startRuntime ∅) in
  r.1 = true /\ flowHasTimer r.2.(state).
Proof.
  destruct (reset_break_reminder_sets_timer (startRuntime ∅) (Num.ofZ 1700000000000)
              (Js.obj [("task", VStr " review ")]))
    as (H1 & _ & _ & H4 & _).
  - split; reflexivity.
  - reflexivity.
  - vm_compute. reflexivity.
  - exists " review ". split; reflexivity.
  - split; [exact H1|exact H4].
Defined.

(** ** The intent gate *)

(** X20: [logReason] ignores a reason of fewer than five characters that
    are no white space; otherwise it puts the entry in front of the stored
    log, keeps at most [INTENT_GATE_LOG_LIMIT] = 50 entries, the newest
    first, and touches no other key of the storage area. *)
Theorem reason_log_is_bounded (now : number) (reason : value)
    (stored : gmap string value) :
  ((countNonWhitespace reason < INTENT_GATE_MIN_REASON_CHARS)%nat ->
   logReason now reason stored = stored)
  /\ (forall r, reason = VStr r ->
        (INTENT_GATE_MIN_REASON_CHARS <= countNonWhitespace reason)%nat ->
        let entry := Js.obj [("reason", VStr r); ("timestamp", VNum now)] in
        let stored' := logReason now reason stored in
        reasonLog stored' = take INTENT_GATE_LOG_LIMIT (entry :: reasonLog stored)
        /\ head (reasonLog stored') = Some entry
        /\ (length (reasonLog stored') <= INTENT_GATE_LOG_LIMIT)%nat
        /\ forall k, k <> STORAGE_REASON_LOG -> stored' !! k = stored !! k).
Proof.
  split.
  - intros Hlt. unfold logReason. destruct reason; try reflexivity.
    apply Nat.ltb_lt in Hlt. by rewrite Hlt.
  - intros r -> Hge entry stored'. subst stored'. unfold logReason.
    apply Nat.ltb_ge in Hge. rewrite Hge. fold entry.
    set (log := entry :: reasonLog stored).
    assert ((if (INTENT_GATE_LOG_LIMIT <? length log)%nat
             then take INTENT_GATE_LOG_LIMIT log else log)
            = take INTENT_GATE_LOG_LIMIT log) as ->.
    { destruct (INTENT_GATE_LOG_LIMIT <? length log)%nat eqn:Hl; [reflexivity|].
      apply Nat.ltb_ge in Hl. by rewrite take_ge. }
    unfold reasonLog at 1 2 3. rewrite lookup_insert_eq. split_and!.
    + reflexivity.
    + reflexivity.
    + rewrite length_take. lia.
    + intros k Hk. by rewrite lookup_insert_ne.
Qed.

Lemma reason_log_is_bounded_witness :
  let stored : gmap string value :=
    {[ "intentGateReasonLog" := VArr [VStr "old"]; "currentTask" := VStr "read" ]} in
  logReason (Num.ofZ 5) (VStr " a  b ") stored = stored
  /\ head (reasonLog (logReason (Num.ofZ 5) (VStr "check the news") stored))
     = Some (Js.obj [("reason", VStr "check the news"); ("timestamp", VNum (Num.ofZ 5))]).
Proof.
  intros stored. split.
  - apply (proj1 (reason_log_is_bounded (Num.ofZ 5) (VStr " a  b ") stored)).
    vm_compute. lia.
  - refine (proj1 (proj2 (proj2 (reason_log_is_bounded (Num.ofZ 5)
              (VStr "check the news") stored) "check the news" eq_refl _))).
    vm_compute. lia.
Defined.

Lemma prefix_of_app (p x : string) : String.prefix p (p ++ x) = true.
Proof.
  induction p as [|a p IH]; [by destruct x|].
  change (String a p ++ x) with (String a (p ++ x)). cbn [String.prefix].
  destruct (ascii_dec a a); [exact IH|congruence].
Qed.

Lemma state_key_not_per_tab (k : string) :
  k ∈ STATE_KEYS \/ k = STORAGE_REASON_LOG ->
  Str.startsWith k STORAGE_ALLOW_PREFIX || Str.startsWith k STORAGE_PENDING_PREFIX
  = false.
Proof.
  intros [Hk| ->]; [|reflexivity]. unfold STATE_KEYS in Hk. each_key Hk; reflexivity.
Qed.

Lemma per_tab_key (k : string) :
  Str.startsWith k STORAGE_ALLOW_PREFIX || Str.startsWith k STORAGE_PENDING_PREFIX
  = true ->
  isAllowedStorageKey k = true /\ k ∉ STATE_KEYS.
Proof.
  intros Hk. split.
  - unfold isAllowedStorageKey, NON_STATE_STORAGE_PREFIXES. cbn [List.existsb].
    unfold STORAGE_ALLOW_PREFIX, STORAGE_PENDING_PREFIX in Hk.
    rewrite orb_false_r, Hk. apply orb_true_r.
  - intros Hin. rewrite state_key_not_per_tab in Hk by (by left). discriminate.
Qed.

Lemma kept_by_hydration (rt : Runtime) (k : string) :
  rt.(hasInitialized) = false ->
  isAllowedStorageKey k = true -> k ∉ STATE_KEYS ->
  (ensureInitialized rt).(storage) !! k = rt.(storage) !! k.
Proof.
  intros Hi Hk Hn. destruct (hydrated_storage rt Hi) as [-> _].
  rewrite lookup_union, kept_lookup, Hk, diffState_keys by exact Hn.
  by destruct (rt.(storage) !! k).
Qed.

Lemma clearAll_lookup (stored : gmap string value) (k : string) :
  clearAllTabIntentGateData stored !! k =
  if Str.startsWith k STORAGE_ALLOW_PREFIX || Str.startsWith k STORAGE_PENDING_PREFIX
  then None else stored !! k.
Proof.
  unfold clearAllTabIntentGateData.
  destruct (Str.startsWith k STORAGE_ALLOW_PREFIX
            || Str.startsWith k STORAGE_PENDING_PREFIX) eqn:Hk.
  - apply map_lookup_filter_None. right. intros v _. cbn [fst]. congruence.
  - destruct (stored !! k) as [v|] eqn:Hv.
    + by apply map_lookup_filter_Some.
    + apply map_lookup_filter_None. by left.
Qed.

(** X21: hydration keeps the per-tab keys of the intent gate and its reason
    log in the storage area; [clearAllTabIntentGateData] removes every
    allow and pending key, whatever the tab id, and leaves the state keys
    and the reason log alone. *)
Theorem gate_keys_are_kept (numberToString : number -> string) (tabId : number)
    (rt : Runtime) (stored : gmap string value) (k : string) :
  let allowKey := getAllowKey numberToString tabId in
  let pendingKey := getPendingKey numberToString tabId in
  (rt.(hasInitialized) = false ->
   (ensureInitialized rt).(storage) !! allowKey = rt.(storage) !! allowKey
   /\ (ensureInitialized rt).(storage) !! pendingKey = rt.(storage) !! pendingKey
   /\ (ensureInitialized rt).(storage) !! STORAGE_REASON_LOG
      = rt.(storage) !! STORAGE_REASON_LOG)
  /\ clearAllTabIntentGateData stored !! allowKey = None
  /\ clearAllTabIntentGateData stored !! pendingKey = None
  /\ (k ∈ STATE_KEYS \/ k = STORAGE_REASON_LOG ->
      clearAllTabIntentGateData stored !! k = stored !! k).
Proof.
  intros allowKey pendingKey.
  assert (Str.startsWith allowKey STORAGE_ALLOW_PREFIX = true) as Ha
    by apply prefix_of_app.
  assert (Str.startsWith pendingKey STORAGE_PENDING_PREFIX = true) as Hp
    by apply prefix_of_app.
  split_and!.
  - intros Hi. split_and!.
    + apply kept_by_hydration; [exact Hi|apply per_tab_key..]; by rewrite Ha.
    + apply kept_by_hydration; [exact Hi|apply per_tab_key..];
        by rewrite Hp, orb_true_r.
    + apply kept_by_hydration; [exact Hi|reflexivity|].
      intros Hin. apply list_elem_of_In in Hin. unfold STORAGE_REASON_LOG in Hin.
      simpl in Hin. intuition discriminate.
  - by rewrite clearAll_lookup, Ha.
  - by rewrite clearAll_lookup, Hp, orb_true_r.
  - intros Hk. by rewrite clearAll_lookup, state_key_not_per_tab.
Qed.

Lemma gate_keys_are_kept_witness :
  let toText (n : number) := "7" in
  let stored : gmap string value :=
    {[ "intentGateTab_7" := VBool true; "isInFlow" := VBool true ]} in
  (ensureInitialized (startRuntime stored)).(storage) !! "intentGateTab_7"
  = Some (VBool true)
  /\ clearAllTabIntentGateData stored !! "isInFlow" = Some (VBool true).
Proof.
  intros toText stored.
  destruct (gate_keys_are_kept toText (Num.ofZ 7) (startRuntime stored) stored
              "isInFlow") as (H1 & _ & _ & H4).
  split.
  - exact (proj1 (H1 eq_refl)).
  - apply H4. left. apply list_elem_of_In. simpl. tauto.
Defined.

(** X22: [getIntentGateMatch] never gates a url that is no string, has
    neither the scheme http nor https, or does not parse; and it never
    gates when the state has no array under either site list. *)
Theorem gate_ignores_other_urls (urlHostname : string -> option string)
    (url state : value) :
  ((forall u, url = VStr u ->
      (Str.startsWith u "http://" = false /\ Str.startsWith u "https://" = false)
      \/ urlHostname u = None) ->
   getIntentGateMatch urlHostname url state = mkGateMatch "" false false)
  /\ (Js.isArray (Js.get state "distractingSites") = false ->
      Js.isArray (Js.get state "deepWorkBlockedSites") = false ->
      (getIntentGateMatch urlHostname url state).(shouldGate) = false).
Proof.
  split.
  - intros H. unfold getIntentGateMatch.
    assert (getHostnameFromUrl urlHostname url = "") as ->; [|reflexivity].
    unfold getHostnameFromUrl. destruct url as [| | | |u| |]; try reflexivity.
    destruct (H u eq_refl) as [[-> ->]| ->]; [reflexivity|].
    by destruct (negb _ && negb _).
  - intros Hd Hw. unfold getIntentGateMatch.
    destruct (negb (Str.truthy (getHostnameFromUrl urlHostname url))); [reflexivity|].
    cbn [shouldGate].
    assert (forall s, Js.get (if Js.truthy state && Js.isObject state then state
                              else VObj ∅) s = Js.get state s) as Hget.
    { intros s. destruct (Js.truthy state && Js.isObject state) eqn:Hs; [reflexivity|].
      destruct state; try reflexivity; discriminate. }
    rewrite !Hget. unfold arrayOrEmpty. rewrite Hd, Hw.
    unfold isHostnameInList. cbn [length Nat.eqb].
    destruct (negb (Str.truthy _)); cbn; by rewrite ?andb_false_r.
Qed.

Lemma gate_ignores_other_urls_witness :
  getIntentGateMatch plainUrlHostname (VStr "chrome://extensions/")
    (toValue initialState)
  = mkGateMatch "" false false.
Proof.
  apply (proj1 (gate_ignores_other_urls plainUrlHostname
                  (VStr "chrome://extensions/") (toValue initialState))).
  intros u [= <-]. left. split; reflexivity.
Defined.

(** ** The subscribers of the delta *)

Lemma delta_lookup (prev next : State) (k : string) :
  k ∈ STATE_KEYS -> valueChanged (stateGet prev k) (stateGet next k) = true ->
  diffState (toValue prev) next !! k = Some (stateGet next k).
Proof.
  intros Hk Hc.
  by rewrite diffState_lookup, (bool_decide_eq_true_2 (k ∈ STATE_KEYS)), Hc
    by exact Hk.
Qed.

Lemma delta_hasKey (prev next : State) (k : string) :
  k ∈ STATE_KEYS ->
  Js.hasKey (VObj (diffState (toValue prev) next)) k
  = valueChanged (stateGet prev k) (stateGet next k).
Proof.
  intros Hk. unfold Js.hasKey.
  rewrite diffState_lookup, (bool_decide_eq_true_2 (k ∈ STATE_KEYS)) by exact Hk.
  cbn [andb].
  destruct (valueChanged _ _).
  - apply bool_decide_eq_true_2. eauto.
  - apply bool_decide_eq_false_2. by intros [? ?].
Qed.

Lemma changed_str (x y : string) :
  valueChanged (VStr x) (VStr y) = negb (String.eqb x y).
Proof. reflexivity. Qed.

Lemma hasKey_present (d : gmap string value) (k : string) (v : value) :
  d !! k = Some v -> Js.hasKey (VObj d) k = true /\ Js.get (VObj d) k = v.
Proof.
  intros H. unfold Js.hasKey, Js.get. rewrite H. split; [|reflexivity].
  apply bool_decide_eq_true_2. eauto.
Qed.

Ltac forget_lookups :=
  repeat match goal with
  | |- context [Js.hasKey (VObj ?d) ?k] =>
      let b := fresh "b" in generalize (Js.hasKey (VObj d) k); intros b
  | |- context [Js.get (VObj ?d) ?k] =>
      let v := fresh "v" in generalize (Js.get (VObj d) k); intros v
  end.

Ltac by_cases_on_flags :=
  forget_lookups;
  repeat match goal with
  | |- context [Js.truthy ?v] => is_var v; destruct (Js.truthy v)
  end;
  repeat match goal with b : bool |- _ => destruct b end;
  reflexivity.

(** A delta that names one of the three session fields with a falsy value
    stops the timer. *)
Lemma timer_stops (d : gmap string value) (k : string) (v : value) :
  k = "breakReminderEnabled" \/ k = "isInFlow" \/ k = "currentTask" ->
  d !! k = Some v -> Js.truthy v = false ->
  breakReminderReaction (VObj d) = TimerStopped.
Proof.
  intros Hk Hd Hv. destruct (hasKey_present d k v Hd) as [Hin Hget].
  unfold breakReminderReaction, namedFalsy.
  cbn [Js.truthy Js.isObject negb orb].
  destruct Hk as [-> | [-> | ->]]; rewrite Hin, Hget, Hv; by_cases_on_flags.
Qed.

Lemma gate_closes (d : gmap string value) (v : value) :
  d !! "isInFlow" = Some v -> Js.truthy v = true ->
  exerciseReaction d = ExerciseGateClosed.
Proof.
  intros Hd Hv. destruct (hasKey_present d _ v Hd) as [Hin Hget].
  unfold exerciseReaction. rewrite Hin, Hget, Hv. by_cases_on_flags.
Qed.

(** X23: what the subscribers make of the delta between two states.  The
    break reminder stops its timer when the flow ends, when the reminder is
    switched off and when the task is cleared; the exercise reminder closes
    its gate when the flow starts; the intent gate checks the tabs again
    exactly when its switch, one of the two site lists or the flow flag has
    changed; the mindfulness reminder synchronises exactly when its switch
    has changed. *)
Theorem subsystems_notice_changes (prev next : State) :
  (prev.(isInFlow) = true -> next.(isInFlow) = false ->
   breakReminderReaction (VObj (diffState (toValue prev) next)) = TimerStopped)
  /\ (prev.(breakReminderEnabled) = true -> next.(breakReminderEnabled) = false ->
      breakReminderReaction (VObj (diffState (toValue prev) next)) = TimerStopped)
  /\ (prev.(currentTask) <> "" -> next.(currentTask) = "" ->
      breakReminderReaction (VObj (diffState (toValue prev) next)) = TimerStopped)
  /\ (prev.(isInFlow) = false -> next.(isInFlow) = true ->
      exerciseReaction (diffState (toValue prev) next) = ExerciseGateClosed)
  /\ (intentGateRechecks (VObj (diffState (toValue prev) next)) = true <->
      prev.(intentGateEnabled) <> next.(intentGateEnabled)
      \/ prev.(distractingSites) <> next.(distractingSites)
      \/ prev.(deepWorkBlockedSites) <> next.(deepWorkBlockedSites)
      \/ prev.(isInFlow) <> next.(isInFlow))
  /\ (mindfulnessSyncs (VObj (diffState (toValue prev) next)) = true <->
      prev.(mindfulnessReminderEnabled) <> next.(mindfulnessReminderEnabled)).
Proof.
  split_and!.
  - intros Hp Hn.
    apply (timer_stops _ "isInFlow" (stateGet next "isInFlow")); [tauto| |].
    + apply delta_lookup; [state_key|].
      unfold stateGet. cbn [assoc entries String.eqb Ascii.eqb Bool.eqb].
      by rewrite Hp, Hn.
    + unfold stateGet. cbn [assoc entries String.eqb Ascii.eqb Bool.eqb].
      by rewrite Hn.
  - intros Hp Hn.
    apply (timer_stops _ "breakReminderEnabled"
             (stateGet next "breakReminderEnabled")); [tauto| |].
    + apply delta_lookup; [state_key|].
      unfold stateGet. cbn [assoc entries String.eqb Ascii.eqb Bool.eqb].
      by rewrite Hp, Hn.
    + unfold stateGet. cbn [assoc entries String.eqb Ascii.eqb Bool.eqb].
      by rewrite Hn.
  - intros Hp Hn.
    apply (timer_stops _ "currentTask" (stateGet next "currentTask")); [tauto| |].
    + apply delta_lookup; [state_key|].
      unfold stateGet. cbn [assoc entries String.eqb Ascii.eqb Bool.eqb].
      rewrite changed_str, Hn. by destruct (currentTask prev).
    + unfold stateGet. cbn [assoc entries String.eqb Ascii.eqb Bool.eqb].
      by rewrite Hn.
  - intros Hp Hn.
    apply (gate_closes _ (stateGet next "isInFlow")).
    + apply delta_lookup; [state_key|].
      unfold stateGet. cbn [assoc entries String.eqb Ascii.eqb Bool.eqb].
      by rewrite Hp, Hn.
    + unfold stateGet. cbn [assoc entries String.eqb Ascii.eqb Bool.eqb].
      by rewrite Hn.
  - unfold intentGateRechecks. cbn [Js.truthy Js.isObject negb orb].
    rewrite !delta_hasKey by state_key. unfold stateGet.
    cbn [assoc entries String.eqb Ascii.eqb Bool.eqb].
    rewrite !orb_true_iff, <- !not_false_iff_true.
    rewrite !unchanged_bool, !unchanged_strings. tauto.
  - unfold mindfulnessSyncs. cbn [Js.truthy Js.isObject negb orb].
    rewrite !delta_hasKey by state_key. unfold stateGet.
    cbn [assoc entries String.eqb Ascii.eqb Bool.eqb].
    rewrite <- not_false_iff_true, unchanged_bool. reflexivity.
Qed.

Lemma subsystems_notice_changes_witness :
  let prev := reached VNull [setTask "read"; Js.obj [("isInFlow", VBool true)]] in
  let next := computeNextState prev (setTask "") in
  breakReminderReaction (VObj (diffState (toValue prev) next)) = TimerStopped.
Proof.
  intros prev next.
  assert (isInFlow prev = true) as Hp by (vm_compute; reflexivity).
  assert (isInFlow next = false) as Hn by (vm_compute; reflexivity).
  exact (proj1 (subsystems_notice_changes prev next) Hp Hn).
Defined.

(** ** The fallback of the pages *)

(** X24: when the service worker does not answer, [updateStateSafely]
    succeeds exactly when the payload has a key that the interface may
    write; it leaves the state in memory, the chain and the notifications
    alone, touches no key of the storage area that is no state key, and
    every value that it does write is the field of the state that
    [computeNextState] gives for the hydrated storage area and the filtered
    payload. *)
Theorem fallback_writes_fields_of_next_state (payload : value) (rt : Runtime) :
  let out := (updateStateSafely silentWorker payload rt).2 in
  let next :=
    computeNextState (sanitizeStoredState (VObj rt.(storage)))
      (VObj (filterPayloadKeys payload UI_ALLOWED_UPDATE_KEYS_SET)) in
  (updateStateSafely silentWorker payload rt).1
  = negb (noKeys (filterPayloadKeys payload UI_ALLOWED_UPDATE_KEYS_SET))
  /\ out.(state) = rt.(state)
  /\ out.(updateChain) = rt.(updateChain)
  /\ out.(notifications) = rt.(notifications)
  /\ (forall k, k ∉ STATE_KEYS -> out.(storage) !! k = rt.(storage) !! k)
  /\ (forall k, out.(storage) !! k = rt.(storage) !! k
                \/ out.(storage) !! k = Some (stateGet next k)).
Proof.
  cbv zeta. unfold updateStateSafely, silentWorker.
  destruct (negb (Js.truthy payload) || negb (Js.isObject payload)) eqn:Hobj.
  { cbn [fst snd]. split; [|auto 10].
    by destruct payload; try discriminate Hobj. }
  destruct (noKeys (filterPayloadKeys payload UI_ALLOWED_UPDATE_KEYS_SET));
    [cbn [fst snd]; auto 10|].
  set (cur := sanitizeStoredState (VObj (storage rt))).
  set (next := computeNextState cur _).
  destruct (noKeys (diffState (toValue cur) next)); cbn [fst snd]; [auto 10|].
  rt_cbn. split_and!; try reflexivity.
  - intros k Hk. apply lookup_union_r. by apply diffState_keys.
  - intros k.
    destruct (diffState (toValue cur) next !! k) as [v|] eqn:Hd.
    + right. rewrite (lookup_union_Some_l _ _ _ _ Hd).
      rewrite diffState_lookup in Hd.
      destruct (bool_decide (k ∈ STATE_KEYS) && valueChanged _ _); congruence.
    + left. by apply lookup_union_r.
Qed.

Lemma fallback_writes_fields_of_next_state_witness :
  let rt := startRuntime {[ "intentGateTab_7" := VBool true ]} in
  let payload := Js.obj [("intentGateEnabled", VBool false); ("hasInitialized", VBool true)] in
  (updateStateSafely silentWorker payload rt).2.(storage) !! "intentGateTab_7"
  = rt.(storage) !! "intentGateTab_7".
Proof.
  intros rt payload.
  apply (proj1 (proj2 (proj2 (proj2 (proj2
           (fallback_writes_fields_of_next_state payload rt)))))).
  intros H. apply list_elem_of_In in H. simpl in H. intuition discriminate.
Defined.
